(** * QtLucide resource pipeline: a shallow embedding of the Python tools

    The development follows the tools of the repository:
    - [tools/generate_headers.py]   (module [GenerateHeaders])
    - [tools/generate_qrc.py]       (module [GenerateQrc])
    - [tools/build_resources.py]    (module [BuildResources])
    - [tools/process_lucide_icons.py] (module [ProcessLucide])
    - [tools/validate_icon_usage.py]  (module [ValidateUsage])
    - [tools/check_example_icons.py]  (module [CheckExamples])

    A Python [str] is a Rocq [string] read as a sequence of code points
    below 256; comparison of strings is then Python's (lexicographic on code
    points).  A Python [dict] is an association list in insertion order
    with unique keys, a Python [set] is a duplicate-free list whose order
    is the (unspecified) iteration order of the set. *)

From Stdlib Require Import String Ascii List Arith Lia QArith.
From stdpp Require Import base option list sorting strings pretty gmap.

Open Scope string_scope.
Open Scope list_scope.

(** ** Python string primitives *)
Module PyStr.

Definition code (c : ascii) : nat := nat_of_ascii c.

Definition dquote : string := String (ascii_of_nat 34) "".
Definition newline : string := String (ascii_of_nat 10) "".

Definition in_range (lo hi : nat) (c : ascii) : bool :=
  ((lo <=? code c)%nat && (code c <=? hi)%nat)%bool.

Definition is_lower (c : ascii) : bool := in_range 97 122 c.
Definition is_upper (c : ascii) : bool := in_range 65 90 c.
Definition is_digit (c : ascii) : bool := in_range 48 57 c.

(** [str.isspace] on code points below 256, the separators of
    [str.split()] without argument. *)
Definition is_space (c : ascii) : bool :=
  (in_range 9 13 c || in_range 28 32 c || (code c =? 133)%nat || (code c =? 160)%nat)%bool.

Fixpoint map_chars (f : ascii -> ascii) (s : string) : string :=
  match s with
  | EmptyString => EmptyString
  | String c s' => String (f c) (map_chars f s')
  end.

Fixpoint all_chars (p : ascii -> bool) (s : string) : bool :=
  match s with
  | EmptyString => true
  | String c s' => p c && all_chars p s'
  end.


(** [sub in s]: [sub] occurs in [s] as a contiguous substring. *)
Fixpoint contains (sub s : string) : bool :=
  String.prefix sub s ||
  match s with
  | EmptyString => false
  | String _ s' => contains sub s'
  end.

(** [sep.join(parts)] *)
Fixpoint join (sep : string) (parts : list string) : string :=
  match parts with
  | [] => ""
  | [p] => p
  | p :: rest => p +:+ sep +:+ join sep rest
  end.

(** [s.split(sep)] for a one-character separator: the pieces between
    the separators, empty pieces included; never the empty list. *)
Fixpoint split_on (sep : ascii) (s : string) : list string :=
  match s with
  | EmptyString => [""]
  | String c s' =>
      if Ascii.eqb c sep then "" :: split_on sep s'
      else match split_on sep s' with
           | [] => [String c ""]
           | p :: ps => String c p :: ps
           end
  end.

(** [s.split()]: maximal runs of non-space characters. *)
Fixpoint split_ws_go (cur : option string) (s : string) : list string :=
  match s with
  | EmptyString => option_list (String.rev <$> cur)
  | String c s' =>
      if is_space c
      then option_list (String.rev <$> cur) ++ split_ws_go None s'
      else split_ws_go (Some (String c (default "" cur))) s'
  end.
Definition split_ws (s : string) : list string := split_ws_go None s.

(** [s.replace(old, new)]: every non-overlapping occurrence of [old],
    leftmost first.  [skip] counts the characters of an occurrence that
    was already replaced and are still to be dropped. *)
Fixpoint replace_go (old new : string) (skip : nat) (s : string) : string :=
  match s with
  | EmptyString => EmptyString
  | String c s' =>
      match skip with
      | S k => replace_go old new k s'
      | O =>
          if String.prefix old s
          then new +:+ replace_go old new (String.length old - 1) s'
          else String c (replace_go old new 0 s')
      end
  end.

Fixpoint intersperse_str (new s : string) : string :=
  match s with
  | EmptyString => new
  | String c s' => new +:+ String c (intersperse_str new s')
  end.

Definition replace (old new s : string) : string :=
  match old with
  | EmptyString => intersperse_str new s
  | _ => replace_go old new 0 s
  end.

(** [enumerate(l)] *)
Definition enumerate {A} (l : list A) : list (nat * A) :=
  imap (fun i x => (i, x)) l.

(** [str(n)] for a non-negative integer. *)
Definition str_of_nat (n : nat) : string := pretty n.

(** [sorted(names)]: ascending in the order of [str]. *)
Definition sorted (l : list string) : list string := merge_sort String.le l.

End PyStr.

(** ** Python dictionaries: association lists in insertion order *)
Module PyDict.
Section Dict.
Context {V : Type}.

Definition keys (d : list (string * V)) : list string := d.*1.

Fixpoint get (k : string) (d : list (string * V)) : option V :=
  match d with
  | [] => None
  | (k', v) :: d' => if decide (k = k') then Some v else get k d'
  end.

(** [d[k] = v]: an existing key keeps its position, a new key goes last. *)
Fixpoint set (k : string) (v : V) (d : list (string * V)) : list (string * V) :=
  match d with
  | [] => [(k, v)]
  | (k', v') :: d' =>
      if decide (k = k') then (k, v) :: d' else (k', v') :: set k v d'
  end.

Definition mem (k : string) (d : list (string * V)) : bool :=
  bool_decide (k ∈ keys d).

(** The invariant of every Python dictionary. *)
Definition wf (d : list (string * V)) : Prop := NoDup (keys d).
End Dict.
End PyDict.

(** ** JSON documents and [json.dumps(obj, indent=2)] *)
#[warnings="-register-all"]
Inductive json : Type :=
| JNull
| JBool (b : bool)
| JNum (n : nat)
| JStr (s : string)
| JArr (items : list json)
| JObj (members : list (string * json)).

Module Json.

Definition hex_digit (n : nat) : ascii :=
  ascii_of_nat (if (n <? 10)%nat then 48 + n else 87 + n).

(** One character of a string, as [ensure_ascii=True] writes it. *)
Definition escape_char (c : ascii) : string :=
  let n := PyStr.code c in
  if (n =? 34)%nat then "\" +:+ PyStr.dquote
  else if (n =? 92)%nat then "\\"
  else if (n =? 8)%nat then "\b"
  else if (n =? 12)%nat then "\f"
  else if (n =? 10)%nat then "\n"
  else if (n =? 13)%nat then "\r"
  else if (n =? 9)%nat then "\t"
  else if PyStr.in_range 32 126 c then String c ""
  else "\u00" +:+ String (hex_digit (n / 16)) (String (hex_digit (n mod 16)) "").

Fixpoint escape (s : string) : string :=
  match s with
  | EmptyString => EmptyString
  | String c s' => escape_char c +:+ escape s'
  end.

Definition quote (s : string) : string := PyStr.dquote +:+ escape s +:+ PyStr.dquote.

Fixpoint spaces (n : nat) : string :=
  match n with
  | O => ""
  | S k => String " " (spaces k)
  end.

Definition block (opening closing : string) (level : nat) (items : list string) : string :=
  match items with
  | [] => opening +:+ closing
  | _ =>
      opening +:+ PyStr.newline +:+ spaces (2 * S level)
      +:+ PyStr.join ("," +:+ PyStr.newline +:+ spaces (2 * S level)) items
      +:+ PyStr.newline +:+ spaces (2 * level) +:+ closing
  end.

Fixpoint dumps_at (level : nat) (j : json) : string :=
  match j with
  | JNull => "null"
  | JBool true => "true"
  | JBool false => "false"
  | JNum n => PyStr.str_of_nat n
  | JStr s => quote s
  | JArr items => block "[" "]" level (map (dumps_at (S level)) items)
  | JObj members =>
      block "{" "}" level
        (map (fun kv => quote (fst kv) +:+ ": " +:+ dumps_at (S level) (snd kv)) members)
  end.

Definition dumps (j : json) : string := dumps_at 0 j.

Definition of_strings (l : list string) : json := JArr (map JStr l).

Definition member (k : string) (j : json) : option json :=
  match j with
  | JObj members => PyDict.get k members
  | _ => None
  end.

End Json.

(** ** Files, printed output and exceptions *)

(** A path is the tuple of its parts, as [pathlib] has it: an absolute
    path starts with the part ["/"]. *)
Definition path : Type := list string.

Inductive exn : Type :=
| FileNotFoundError (p : path)
| FileExistsError (p : path)
| NotADirectoryError (p : path)
| IsADirectoryError (p : path)
| JSONDecodeError (p : path)
| KeyError (k : string)
| TypeError
| AttributeError (attr : string)
| SystemExit (code : nat).

Record world : Type := World {
  files : gmap path string;
  dirs : gset path;
  stdout : list string
}.

Module Py.

Definition M (A : Type) : Type := world -> (exn + A) * world.

Definition ret {A} (a : A) : M A := fun w => (inr a, w).
Definition raise {A} (e : exn) : M A := fun w => (inl e, w).
Definition bind {A B} (m : M A) (k : A -> M B) : M B :=
  fun w => match m w with
           | (inl e, w') => (inl e, w')
           | (inr a, w') => k a w'
           end.

(** [try: m  except Exception as e: handler(e)]; [SystemExit] is not an
    [Exception] and passes through. *)
Definition try_except {A} (m : M A) (handler : exn -> M A) : M A :=
  fun w => match m w with
           | (inl (SystemExit code), w') => (inl (SystemExit code), w')
           | (inl e, w') => handler e w'
           | (inr a, w') => (inr a, w')
           end.

Definition of_path (s : string) : path :=
  (if String.prefix "/" s then ["/"] else [])
  ++ filter (fun part => part <> "" /\ part <> ".") (PyStr.split_on "/" s).

Definition path_str (p : path) : string :=
  match p with
  | [] => "."
  | "/" :: rest => "/" +:+ PyStr.join "/" rest
  | _ => PyStr.join "/" p
  end.

Definition is_dir (w : world) (p : path) : bool :=
  bool_decide (p = [] \/ p = ["/"] \/ p ∈ dirs w).

Definition is_file (w : world) (p : path) : bool :=
  bool_decide (is_Some (files w !! p)).

Definition path_exists (w : world) (p : path) : bool := is_dir w p || is_file w p.

Definition parent (p : path) : path := removelast p.

(** The proper prefixes of [p] and [p] itself, shortest first. *)
Definition ancestors (p : path) : list path :=
  map (fun n => take n p) (seq 1 (length p)).

Definition print (line : string) : M unit :=
  fun w => (inr tt, World (files w) (dirs w) (stdout w ++ [line])).

(** [open(p, "r")] followed by [read()] *)
Definition read_text (p : path) : M string :=
  fun w => match files w !! p with
           | Some text => (inr text, w)
           | None => if is_dir w p then (inl (IsADirectoryError p), w)
                     else (inl (FileNotFoundError p), w)
           end.

(** [p.write_text(text)]: the file is created or overwritten in place. *)
Definition write_text (p : path) (text : string) : M unit :=
  fun w => if is_dir w p then (inl (IsADirectoryError p), w)
           else if is_dir w (parent p)
                then (inr tt, World (<[p := text]> (files w)) (dirs w) (stdout w))
                else (inl (FileNotFoundError p), w).

(** [p.mkdir(parents=True, exist_ok=True)] *)
Definition mkdir_p (p : path) : M unit :=
  fun w => match list_find (fun q => is_file w q = true) (ancestors p) with
           | Some (_, q) =>
               (inl (if decide (q = p) then FileExistsError q
                     else NotADirectoryError q), w)
           | None =>
               (inr tt, World (files w) (list_to_set (ancestors p) ∪ dirs w) (stdout w))
           end.

(** What the interpreter reports when the program ends. *)
Record outcome : Type := Outcome {
  exit_code : nat;
  traceback : option exn;
  final : world
}.

Definition run (prog : M unit) (w : world) : outcome :=
  match prog w with
  | (inr tt, w') => Outcome 0 None w'
  | (inl (SystemExit code), w') => Outcome code None w'
  | (inl e, w') => Outcome 1 (Some e) w'
  end.

End Py.

#[global] Instance py_ret : MRet Py.M := @Py.ret.
#[global] Instance py_bind : MBind Py.M := fun A B k m => Py.bind m k.

(** [len(x)] and [x.keys()] on a value read from a JSON document. *)
Definition py_len (j : json) : Py.M nat :=
  match j with
  | JObj members => Py.ret (length members)
  | JArr items => Py.ret (length items)
  | JStr s => Py.ret (String.length s)
  | _ => Py.raise TypeError
  end.

Definition py_keys (j : json) : Py.M (list string) :=
  match j with
  | JObj members => Py.ret (PyDict.keys members)
  | _ => Py.raise (AttributeError "keys")
  end.

(** [data[key]] on a value read from a JSON document. *)
Definition py_getitem (j : json) (key : string) : Py.M json :=
  match j with
  | JObj members =>
      match PyDict.get key members with
      | Some v => Py.ret v
      | None => Py.raise (KeyError key)
      end
  | _ => Py.raise TypeError
  end.

(** ** tools/generate_headers.py *)
Module GenerateHeaders.

Record generator : Type := Generator {
  metadata_dir : path;
  output_dir : path;
  icons_data : json
}.

Definition init (metadata_dir output_dir : string) : generator :=
  Generator (Py.of_path metadata_dir) (Py.of_path output_dir) (JObj []).

Definition is_word_char (c : ascii) : bool :=
  PyStr.is_lower c || PyStr.is_upper c || PyStr.is_digit c
  || Ascii.eqb c "_".

(** [re.sub(r"[^a-zA-Z0-9_]", "_", name)] *)
Definition sub_non_word (name : string) : string :=
  PyStr.map_chars (fun c => if is_word_char c then c else "_"%char) name.

(** [re.sub(r"^(\d)", r"Icon_\1", s)]: the pattern can only match at
    position 0; group 1 is the digit found there. *)
Definition sub_leading_digit (s : string) : string :=
  match s with
  | String d rest =>
      if PyStr.is_digit d then "Icon_" +:+ String d "" +:+ rest else s
  | EmptyString => s
  end.

Definition cpp_keywords : list string :=
  ["delete"; "new"; "class"; "struct"; "enum"; "union"; "typedef";
   "static"; "const"; "volatile"; "inline"; "virtual"; "explicit";
   "operator"; "template"; "typename"; "namespace"; "using"; "public";
   "private"; "protected"; "friend"; "extern"; "register"; "auto";
   "void"; "char"; "short"; "int"; "long"; "float"; "double"; "signed";
   "unsigned"; "bool"; "true"; "false"; "if"; "else"; "for"; "while";
   "do"; "switch"; "case"; "default"; "break"; "continue"; "return";
   "goto"; "try"; "catch"; "throw"; "sizeof"].

Definition _name_to_enum (name : string) : string :=
  let enum_name := sub_non_word name in
  let enum_name := sub_leading_digit enum_name in
  if bool_decide (enum_name ∈ cpp_keywords)
  then "icon_" +:+ enum_name
  else enum_name.

Definition _get_enum_header_template : string :=
  "/**
 * QtLucide - use Lucide icons in your Qt Application
 *
 * AUTO-GENERATED FILE - DO NOT EDIT MANUALLY
 * Generated from Lucide icon metadata
 *
 * MIT Licensed
 * Copyright 2025 Max Qian. All Rights Reserved.
 */

#ifndef QTLUCIDEENUMS_H
#define QTLUCIDEENUMS_H

namespace lucide {

/**
 * @brief Enumeration of all available Lucide icons
 */
enum class Icons {
{{ENUM_VALUES}}
};

/**
 * @brief Total number of available icons
 */
constexpr int ICON_COUNT = {{ICON_COUNT}};

} // namespace lucide

#endif // QTLUCIDEENUMS_H".

Definition _get_strings_header_template : string :=
  "/**
 * QtLucide - use Lucide icons in your Qt Application
 *
 * AUTO-GENERATED FILE - DO NOT EDIT MANUALLY
 * Generated from Lucide icon metadata
 *
 * MIT Licensed
 * Copyright 2025 Max Qian. All Rights Reserved.
 */

#ifndef QTLUCIDESTRINGS_H
#define QTLUCIDESTRINGS_H

#include " +:+ PyStr.dquote +:+ "QtLucideEnums.h" +:+ PyStr.dquote +:+ "
#include <QHash>
#include <QString>

namespace lucide {

/**
 * @brief Mapping from icon enum to string name
 */
static const QHash<Icons, QString> ICON_TO_STRING_MAP = {
{{STRING_MAPPINGS}}
};

/**
 * @brief Mapping from string name to icon enum
 */
static QHash<QString, Icons> createStringToIconMap() {
    QHash<QString, Icons> map;
    for (auto it = ICON_TO_STRING_MAP.begin(); it != ICON_TO_STRING_MAP.end(); ++it) {
        map[it.value()] = it.key();
    }
    return map;
}

static const QHash<QString, Icons> STRING_TO_ICON_MAP = createStringToIconMap();

} // namespace lucide

#endif // QTLUCIDESTRINGS_H".

(** One element of [enum_values]. *)
Definition enum_value (i : nat) (icon_name : string) : string :=
  "    " +:+ _name_to_enum icon_name +:+ " = " +:+ PyStr.str_of_nat i.

(** The list [enum_values] of [generate_enums_header]. *)
Definition enum_values (keys : list string) : list string :=
  map (fun entry => enum_value (fst entry) (snd entry))
      (PyStr.enumerate (PyStr.sorted keys)).

(** The text written to [QtLucideEnums.h]. *)
Definition enums_header (keys : list string) (count : nat) : string :=
  let enum_content := PyStr.join ("," +:+ PyStr.newline) (enum_values keys) in
  let header_content :=
    PyStr.replace "{{ENUM_VALUES}}" enum_content _get_enum_header_template in
  PyStr.replace "{{ICON_COUNT}}" (PyStr.str_of_nat count) header_content.

(** The pairs [(enum_name, icon_name)] of [generate_strings_header]. *)
Definition string_pairs (keys : list string) : list (string * string) :=
  map (fun icon_name => (_name_to_enum icon_name, icon_name)) (PyStr.sorted keys).

Definition string_entry (entry : string * string) : string :=
  "    {Icons::" +:+ fst entry +:+ ", " +:+ PyStr.dquote +:+ snd entry
  +:+ PyStr.dquote +:+ "}".

Definition string_entries (keys : list string) : list string :=
  map string_entry (string_pairs keys).

(** The text written to [QtLucideStrings.h]. *)
Definition strings_header (keys : list string) : string :=
  let strings_content := PyStr.join ("," +:+ PyStr.newline) (string_entries keys) in
  PyStr.replace "{{STRING_MAPPINGS}}" strings_content _get_strings_header_template.

(** The generated [ICON_TO_STRING_MAP]: a [QHash] built from the
    initializer list, a later entry replacing an earlier one with the
    same key.  An enumerator is identified by its symbol. *)
Definition table_of (entries : list (string * string)) : gmap string string :=
  foldl (fun m entry => <[fst entry := snd entry]> m) ∅ entries.

Definition ICON_TO_STRING_MAP (keys : list string) : gmap string string :=
  table_of (string_pairs keys).

(** The generated [createStringToIconMap]: [map[it.value()] = it.key()]
    for the entries [it] of [ICON_TO_STRING_MAP], in the order in which
    the hash enumerates them. *)
Definition createStringToIconMap (entries : list (string * string))
  : gmap string string :=
  foldl (fun m it => <[snd it := fst it]> m) ∅ entries.

Section WithJsonLoad.
(** [json.loads] of the standard library. *)
Variable json_load : string -> option json.

Definition load_metadata (self : generator) : Py.M generator :=
  let icons_file := metadata_dir self ++ ["icons.json"] in
  text ← Py.read_text icons_file;
  match json_load text with
  | None => Py.raise (JSONDecodeError icons_file)
  | Some data =>
      icons ← py_getitem data "icons";
      let self := Generator (metadata_dir self) (output_dir self) icons in
      n ← py_len (icons_data self);
      Py.print ("Loaded metadata for " +:+ PyStr.str_of_nat n +:+ " icons");;
      mret self
  end.

Definition generate_enums_header (self : generator) : Py.M unit :=
  keys ← py_keys (icons_data self);
  count ← py_len (icons_data self);
  let output_file := output_dir self ++ ["QtLucideEnums.h"] in
  Py.write_text output_file (enums_header keys count);;
  n ← py_len (icons_data self);
  Py.print ("Generated " +:+ Py.path_str output_file +:+ " with "
            +:+ PyStr.str_of_nat n +:+ " enum values").

Definition generate_strings_header (self : generator) : Py.M unit :=
  keys ← py_keys (icons_data self);
  let output_file := output_dir self ++ ["QtLucideStrings.h"] in
  Py.write_text output_file (strings_header keys);;
  n ← py_len (icons_data self);
  Py.print ("Generated " +:+ Py.path_str output_file +:+ " with "
            +:+ PyStr.str_of_nat n +:+ " string mappings").

Definition generate_headers (self : generator) : Py.M unit :=
  Py.mkdir_p (output_dir self);;
  generate_enums_header self;;
  generate_strings_header self;;
  Py.print "Header generation complete".

(** [main], [argv] being [sys.argv]. *)
Definition main (argv : list string) : Py.M unit :=
  match argv with
  | [_; metadata_dir; output_dir] =>
      let generator := init metadata_dir output_dir in
      generator ← load_metadata generator;
      generate_headers generator
  | _ =>
      Py.print "Usage: python generate_headers.py <metadata_dir> <output_dir>";;
      Py.raise (SystemExit 1)
  end.
End WithJsonLoad.

End GenerateHeaders.

(** ** tools/generate_qrc.py *)
Module GenerateQrc.

Record generator : Type := Generator {
  metadata_dir : path;
  svg_dir : path;
  output_file : path;
  icons_data : json
}.

Definition init (metadata_dir svg_dir output_file : string) : generator :=
  Generator (Py.of_path metadata_dir) (Py.of_path svg_dir)
            (Py.of_path output_file) (JObj []).

Definition _get_qrc_template : string :=
  "<RCC>
    <qresource prefix=" +:+ PyStr.dquote +:+ "/lucide" +:+ PyStr.dquote +:+ ">
{{FILE_ENTRIES}}
    </qresource>
</RCC>".

Definition file_entry (icon_name : string) : string :=
  let svg_file := "svg/" +:+ icon_name +:+ ".svg" in
  "        <file alias=" +:+ PyStr.dquote +:+ icon_name +:+ PyStr.dquote
  +:+ ">" +:+ svg_file +:+ "</file>".

Definition file_entries (keys : list string) : list string :=
  map file_entry (PyStr.sorted keys).

(** The text written to the resource manifest. *)
Definition qrc_content (keys : list string) : string :=
  PyStr.replace "{{FILE_ENTRIES}}" (PyStr.join PyStr.newline (file_entries keys))
                _get_qrc_template.

Section WithJsonLoad.
Variable json_load : string -> option json.

Definition load_metadata (self : generator) : Py.M generator :=
  let icons_file := metadata_dir self ++ ["icons.json"] in
  text ← Py.read_text icons_file;
  match json_load text with
  | None => Py.raise (JSONDecodeError icons_file)
  | Some data =>
      icons ← py_getitem data "icons";
      mret (Generator (metadata_dir self) (svg_dir self) (output_file self) icons)
  end.

Definition generate_qrc (self : generator) : Py.M unit :=
  Py.mkdir_p (Py.parent (output_file self));;
  keys ← py_keys (icons_data self);
  Py.write_text (output_file self) (qrc_content keys);;
  n ← py_len (icons_data self);
  Py.print ("Generated " +:+ Py.path_str (output_file self) +:+ " with "
            +:+ PyStr.str_of_nat n +:+ " icon files").

Definition main (argv : list string) : Py.M unit :=
  match argv with
  | [_; metadata_dir; svg_dir; output_file] =>
      let generator := init metadata_dir svg_dir output_file in
      generator ← load_metadata generator;
      generate_qrc generator
  | _ =>
      Py.print "Usage: python generate_qrc.py <metadata_dir> <svg_dir> <output_qrc>";;
      Py.raise (SystemExit 1)
  end.
End WithJsonLoad.

End GenerateQrc.
(** ** The metadata store shared by the two metadata writers *)
Module Metadata.

(** One record of [icons.json]. *)
Record icon : Type := Icon {
  name : string;
  svg_file : string;
  tags : list string;
  categories : list string;
  contributors : list string
}.

Definition icon_json (r : icon) : json :=
  JObj [("name", JStr (name r));
        ("svg_file", JStr (svg_file r));
        ("tags", Json.of_strings (tags r));
        ("categories", Json.of_strings (categories r));
        ("contributors", Json.of_strings (contributors r))].

Definition icons_json (icons_data : list (string * icon)) : json :=
  JObj (map (fun kv => (fst kv, icon_json (snd kv))) icons_data).

(** The dictionary serialized to [icons.json]. *)
Definition store (icons_data : list (string * icon)) : json :=
  JObj [("icons", icons_json icons_data);
        ("count", JNum (length icons_data));
        ("version", JStr "1.0.0")].

(** [if label not in index: index[label] = []] followed by
    [index[label].append(icon_name)]. *)
Definition index_append (label icon_name : string)
    (index : list (string * list string)) : list (string * list string) :=
  PyDict.set label (default [] (PyDict.get label index) ++ [icon_name]) index.

(** The two loops that build [categories] and [tags]; [labels] selects
    the field of the record. *)
Definition build_index (labels : icon -> list string)
    (icons_data : list (string * icon)) : list (string * list string) :=
  foldl (fun index kv =>
           foldl (fun index label => index_append label (fst kv) index)
                 index (labels (snd kv)))
        [] icons_data.

Definition index_json (index : list (string * list string)) : json :=
  JObj (map (fun kv => (fst kv, Json.of_strings (snd kv))) index).

End Metadata.

(** ** tools/build_resources.py *)
Module BuildResources.
Import Metadata.

Record builder : Type := Builder {
  project_root : path;
  svg_dir : path;
  metadata_dir : path;
  include_dir : path
}.

(** [__init__]: the paths, and the two directories that must exist. *)
Definition init (project_root : path) : Py.M builder :=
  let self :=
    Builder project_root
            (project_root ++ ["resources"; "icons"; "svg"])
            (project_root ++ ["resources"; "icons"; "metadata"])
            (project_root ++ ["include"; "QtLucide"]) in
  Py.mkdir_p (metadata_dir self);;
  Py.mkdir_p (include_dir self);;
  mret self.

Definition any_in (words : list string) (name : string) : bool :=
  existsb (fun word => PyStr.contains word name) words.

Definition category_keywords : list (string * list string) :=
  [("navigation", ["arrow"; "chevron"; "menu"; "home"; "back"; "forward"]);
   ("files", ["file"; "folder"; "document"; "save"; "download"; "upload"]);
   ("communication", ["mail"; "message"; "phone"; "chat"; "send"]);
   ("media", ["play"; "pause"; "stop"; "music"; "video"; "camera"]);
   ("social", ["heart"; "star"; "like"; "share"; "user"; "users"]);
   ("system", ["settings"; "cog"; "gear"; "power"; "battery"; "wifi"]);
   ("editing", ["edit"; "pen"; "pencil"; "brush"; "cut"; "copy"; "paste"]);
   ("business", ["briefcase"; "chart"; "graph"; "money"; "bank"; "credit"])].

Definition _categorize_icon (name : string) : list string :=
  let categories :=
    foldl (fun categories entry =>
             if any_in (snd entry) name
             then categories ++ [fst entry] else categories)
          [] category_keywords in
  match categories with
  | [] => categories ++ ["general"]
  | _ => categories
  end.

Section Runs.
(** [list(set(l))]: the distinct elements of [l] in the order in which
    the interpreter's set enumerates them. *)
Variable list_of_set : list string -> list string.
(** The stems of the files that [svg_dir.glob("*.svg")] lists, in its
    order. *)
Variable glob_stems : list string.

Definition _generate_tags_from_name (name : string) : list string :=
  let tags := [] in
  let parts :=
    PyStr.split_ws
      (PyStr.map_chars (fun c => if Ascii.eqb c "-" then " "%char else c) name) in
  let tags := tags ++ parts in
  let tags := if any_in ["arrow"; "chevron"] name
              then tags ++ ["navigation"] else tags in
  let tags := if any_in ["file"; "folder"; "document"] name
              then tags ++ ["files"] else tags in
  let tags := if any_in ["user"; "person"; "people"] name
              then tags ++ ["users"] else tags in
  let tags := if any_in ["heart"; "star"; "like"] name
              then tags ++ ["social"] else tags in
  list_of_set tags.

Definition scan_svg_files (self : builder) : Py.M (list string) :=
  fun w =>
    if Py.path_exists w (svg_dir self)
    then (Py.print ("Found " +:+ PyStr.str_of_nat (length glob_stems)
                    +:+ " SVG files");;
          mret glob_stems) w
    else (Py.print ("Warning: SVG directory " +:+ Py.path_str (svg_dir self)
                    +:+ " does not exist");;
          mret []) w.

(** The dictionary [icons_data] of [generate_metadata_from_svg]. *)
Definition icons_of (svg_names : list string) : list (string * icon) :=
  foldl (fun icons_data svg_name =>
           PyDict.set svg_name
             (Icon svg_name ("svg/" +:+ svg_name +:+ ".svg")
                   (_generate_tags_from_name svg_name)
                   (_categorize_icon svg_name) [])
             icons_data)
        [] svg_names.

Definition _generate_categories_and_tags (self : builder)
    (icons_data : list (string * icon)) : Py.M unit :=
  let categories := build_index Metadata.categories icons_data in
  let tags := build_index Metadata.tags icons_data in
  Py.write_text (metadata_dir self ++ ["categories.json"])
                (Json.dumps (index_json categories));;
  Py.write_text (metadata_dir self ++ ["tags.json"])
                (Json.dumps (index_json tags)).

Definition generate_metadata_from_svg (self : builder)
  : Py.M (list (string * icon)) :=
  svg_names ← scan_svg_files self;
  let icons_data := icons_of svg_names in
  Py.write_text (metadata_dir self ++ ["icons.json"])
                (Json.dumps (store icons_data));;
  _generate_categories_and_tags self icons_data;;
  Py.print ("Generated metadata for " +:+ PyStr.str_of_nat (length icons_data)
            +:+ " icons");;
  mret icons_data.
End Runs.

End BuildResources.

(** ** tools/process_lucide_icons.py *)
Module ProcessLucide.
Import Metadata.

(** The optional [<name>.json] next to an SVG file: its [tags],
    [categories] and [contributors] members, when present. *)
Record sidecar : Type := Sidecar {
  sc_tags : option (list string);
  sc_categories : option (list string);
  sc_contributors : option (list string)
}.

(** One file of [source_dir.glob("*.svg")]. *)
Record svg_source : Type := SvgSource {
  stem : string;
  (** [None]: reading the file raises. *)
  svg_content : option string;
  (** [None]: no such file; [Some None]: the file does not hold a JSON
      object. *)
  metadata_file : option (option sidecar)
}.

Record processor : Type := Processor {
  source_dir : path;
  output_dir : path;
  icons_data : list (string * icon)
}.

Section Runs.
(** [optimize_svg], the rewriting of the SVG text. *)
Variable optimize_svg : string -> string.

Definition process_single_icon (self : processor) (svg : svg_source)
  : Py.M (bool * processor) :=
  Py.try_except
    (let icon_name := stem svg in
     let svg_path := source_dir self ++ [icon_name +:+ ".svg"] in
     content ← match svg_content svg with
               | Some text => mret text
               | None => Py.raise (FileNotFoundError svg_path)
               end;
     metadata ← match metadata_file svg with
                | None => mret (Sidecar None None None)
                | Some (Some m) => mret m
                | Some None =>
                    Py.raise (JSONDecodeError
                                (source_dir self ++ [icon_name +:+ ".json"]))
                end;
     let optimized_svg := optimize_svg content in
     Py.write_text (output_dir self ++ ["svg"; icon_name +:+ ".svg"])
                   optimized_svg;;
     mret (true,
           Processor (source_dir self) (output_dir self)
             (PyDict.set icon_name
                (Icon icon_name ("svg/" +:+ icon_name +:+ ".svg")
                      (default [] (sc_tags metadata))
                      (default [] (sc_categories metadata))
                      (default [] (sc_contributors metadata)))
                (icons_data self))))
    (* the message of the exception, which follows the path, is left out *)
    (fun e =>
       Py.print ("Error processing "
                 +:+ Py.path_str (source_dir self ++ [stem svg +:+ ".svg"]));;
       mret (false, self)).

Definition generate_metadata (self : processor) : Py.M unit :=
  let metadata := output_dir self ++ ["metadata"] in
  Py.write_text (metadata ++ ["icons.json"])
                (Json.dumps (store (icons_data self)));;
  let categories := build_index Metadata.categories (icons_data self) in
  Py.write_text (metadata ++ ["categories.json"])
                (Json.dumps (index_json categories));;
  let tags := build_index Metadata.tags (icons_data self) in
  Py.write_text (metadata ++ ["tags.json"]) (Json.dumps (index_json tags));;
  Py.print ("Generated metadata for "
            +:+ PyStr.str_of_nat (length (icons_data self)) +:+ " icons");;
  Py.print ("Categories: " +:+ PyStr.str_of_nat (length categories));;
  Py.print ("Tags: " +:+ PyStr.str_of_nat (length tags)).

Fixpoint process_all (self : processor) (icon_files : list svg_source)
    (processed_count : nat) : Py.M (nat * processor) :=
  match icon_files with
  | [] => mret (processed_count, self)
  | svg_file :: rest =>
      '(ok, self) ← process_single_icon self svg_file;
      process_all self rest
                  (if ok : bool then processed_count + 1 else processed_count)
  end.

(** [process_icons]; the two sub-directories are made right after their
    parent, so that [mkdir(exist_ok=True)] and [mkdir_p] agree on them. *)
Definition process_icons (self : processor) (icon_files : list svg_source)
  : Py.M processor :=
  Py.print "Processing Lucide icons...";;
  Py.mkdir_p (output_dir self);;
  Py.mkdir_p (output_dir self ++ ["svg"]);;
  Py.mkdir_p (output_dir self ++ ["metadata"]);;
  Py.print ("Found " +:+ PyStr.str_of_nat (length icon_files) +:+ " SVG files");;
  '(processed_count, self) ← process_all self icon_files 0;
  Py.print ("Successfully processed " +:+ PyStr.str_of_nat processed_count
            +:+ " icons");;
  generate_metadata self;;
  mret self.
End Runs.

End ProcessLucide.

(** ** tools/validate_icon_usage.py *)
Module ValidateUsage.

(** A place of use: the file, relative to the project root, and the line. *)
Definition usage : Type := (string * nat)%type.

Record validator : Type := Validator {
  project_root : path;
  available_icons : list string;
  icon_usage : list (string * list usage);
  invalid_icons : list (string * list usage)
}.

Definition init (project_root : path) : validator :=
  Validator project_root [] [] [].

(** Where [load_available_icons] finds the names, as the file system
    answers: the generated strings header, the metadata store or the SVG
    directory.  An inner [None] stands for a read that raises. *)
Inductive icon_source : Type :=
| StringsHeader (matches : option (list string))
| MetadataFile (names : option (option (list string)))
| SvgDirectory (stems : option (list string))
| NoDefinitions.

(** One line of a source file, by what [re.findall] returns on it: for
    the two [string_patterns] and for the three [qtlucide_patterns]. *)
Record source_line : Type := SourceLine {
  literals : list string;
  calls : list string
}.

(** A file found by [rglob]: its path relative to the project root and
    its lines, [None] when reading it raises. *)
Definition source_file : Type := (string * option (list source_line))%type.

Definition non_icon_words : list string :=
  ["error"; "warning"; "info"; "debug"; "test"; "example"; "sample";
   "main"; "window"; "widget"; "button"; "label"; "layout"; "dialog";
   "application"; "version"; "author"; "license"; "copyright"; "true";
   "false"; "null"; "undefined"; "none"; "empty"; "color"; "size";
   "width"; "height"; "opacity"; "scale-factor"; "geometry"; "icon";
   "svg"; "png"; "ico"; "pdf"; "icns"; "selected"; "hovered"; "favorite";
   "name"; "format"; "mode"; "clicked"; "about"; "value"; "count";
   "icons"; "px"; "ms"; "theme"; "system"; "light"; "dark"; "compact";
   "grid"; "language"; "en"; "black"; "white"; "non-existent-icon";
   "test-icon"; "invalid-icon"; "example-icon"; "heart-icon";
   "icon-heart"; "test-null"; "not-a-color"; "not-a-number";
   "corrupted-test"; "null-painter"; "invalid-painter";
   "exception-painter"; "test-painter"; "memory-test-painter";
   "replacement-painter"; "lifetime-painter"; "non-existent"; "invalid";
   "unknown"; "high-contrast"; "color-disabled"; "test-option";
   "test-value"; "race-painter"; "extreme-painter"; "memory-painter";
   "slow-painter"; "categories"; "contributors"; "favorites";
   "timestamp"; "usage"; "recent"; "criteria"; "quotes"; "with";
   "nested"; "level1"; "level2"; "level3"; "value1"; "value2"; "inner";
   "x64"; "arrows"; "communication"; "media"; "cal"; "arrow"].

Definition is_name_char (c : ascii) : bool :=
  PyStr.is_lower c || PyStr.is_digit c || Ascii.eqb c "-".

(** [[a-z0-9-]*[a-z0-9]] up to the end of the string. *)
Fixpoint shape_tail (s : string) : bool :=
  match s with
  | EmptyString => false
  | String c EmptyString => PyStr.is_lower c || PyStr.is_digit c
  | String c s' => is_name_char c && shape_tail s'
  end.

Definition icon_shape (s : string) : bool :=
  match s with
  | String c rest => PyStr.is_lower c && shape_tail rest
  | EmptyString => false
  end.

Fixpoint without_final_newline (s : string) : option string :=
  match s with
  | EmptyString => None
  | String c EmptyString =>
      if Ascii.eqb c (ascii_of_nat 10) then Some EmptyString else None
  | String c s' => String c <$> without_final_newline s'
  end.

(** [re.match(r"^[a-z][a-z0-9-]*[a-z0-9]$", name)]; [$] also matches
    before a final newline. *)
Definition matches_shape (name : string) : bool :=
  icon_shape name
  || match without_final_newline name with
     | Some core => icon_shape core
     | None => false
     end.

Definition _looks_like_icon_name (name : string) : bool :=
  if (String.length name <? 2)%nat || (50 <? String.length name)%nat then false
  else if negb (matches_shape name) then false
  else if bool_decide (name ∈ non_icon_words) then false
  else true.

Definition scan_line (line_num : nat) (line : source_line) : list usage :=
  map (fun m => (m, line_num)) (filter (fun m => _looks_like_icon_name m = true) (literals line))
  ++ map (fun m => (m, line_num)) (calls line).

Definition scan_file_for_icons (lines : option (list source_line)) : list usage :=
  match lines with
  | Some lines => concat (imap (fun i line => scan_line (S i) line) lines)
  | None => []
  end.

(** [scan_directory]; [found] lists the files in the order of the two
    loops over extensions and [rglob]. *)
Definition scan_directory (self : validator) (found : list source_file)
  : validator :=
  foldl (fun self file =>
           let usages := scan_file_for_icons (snd file) in
           let rel_path := fst file in
           foldl (fun self u =>
                    let icon_name := fst u in
                    Validator (project_root self) (available_icons self)
                      (PyDict.set icon_name
                         (default [] (PyDict.get icon_name (icon_usage self))
                          ++ [(rel_path, snd u)])
                         (icon_usage self))
                      (invalid_icons self))
                 self usages)
        self found.

Definition validate_usage (self : validator) : bool * validator :=
  foldl (fun st entry =>
           let all_valid := fst st in
           let self := snd st in
           if bool_decide (fst entry ∈ available_icons self)
           then (all_valid, self)
           else (false,
                 Validator (project_root self) (available_icons self)
                   (icon_usage self)
                   (PyDict.set (fst entry) (snd entry) (invalid_icons self))))
        (true, self) (icon_usage self).

(** [len(intersection) / len(union)] of the two word sets, as the exact
    quotient. *)
Definition _words_similarity (name1 name2 : string) : Q :=
  let words1 := remove_dups (PyStr.split_on "-" name1) in
  let words2 := remove_dups (PyStr.split_on "-" name2) in
  match words1, words2 with
  | [], _ | _, [] => 0
  | _, _ =>
      let intersection := list_intersection words1 words2 in
      let union := list_union words1 words2 in
      Z.of_nat (length intersection) # Pos.of_nat (length union)
  end.

Definition suggest_corrections (self : validator) (invalid_icon : string)
  : list string :=
  let suggestions :=
    foldl (fun suggestions available =>
             if PyStr.contains invalid_icon available
                || PyStr.contains available invalid_icon
             then suggestions ++ [available]
             else if negb (Qle_bool (_words_similarity invalid_icon available) (1 # 2))
                  then suggestions ++ [available]
                  else suggestions)
          [] (available_icons self) in
  take 5 suggestions.

(** What [print_report] prints. *)
Record report : Type := Report {
  available_count : nat;
  used_count : nat;
  invalid_count : nat;
  invalid_entries : list (string * list usage * list string)
}.

Definition print_report (self : validator) : report :=
  Report (length (available_icons self)) (length (icon_usage self))
         (length (invalid_icons self))
         (map (fun entry => (fst entry, snd entry, suggest_corrections self (fst entry)))
              (invalid_icons self)).

Section Runs.
(** [set(l)] followed by iteration: the distinct elements of [l] in the
    order in which the interpreter's set enumerates them. *)
Variable list_of_set : list string -> list string.

Definition load_available_icons (self : validator) (source : icon_source)
  : bool * validator :=
  let loaded names :=
    (true, Validator (project_root self) (list_of_set names)
                     (icon_usage self) (invalid_icons self)) in
  match source with
  | StringsHeader (Some matches) => loaded matches
  | MetadataFile (Some (Some names)) => loaded names
  | MetadataFile (Some None) => (true, self)
  | SvgDirectory (Some stems) => loaded stems
  | StringsHeader None | MetadataFile None | SvgDirectory None
  | NoDefinitions => (false, self)
  end.

(** [run_validation]; [examples] and [tests] are [None] when the
    directory does not exist. *)
Definition run_validation (self : validator) (source : icon_source)
    (examples tests : option (list source_file))
  : bool * option report * validator :=
  let '(ok, self) := load_available_icons self source in
  if negb ok then (false, None, self)
  else
    let self := match examples with
                | Some found => scan_directory self found
                | None => self
                end in
    let self := match tests with
                | Some found => scan_directory self found
                | None => self
                end in
    let '(is_valid, self) := validate_usage self in
    (is_valid, Some (print_report self), self).

(** The exit status of [main]. *)
Definition main (argv : list string) (source : icon_source)
    (examples tests : option (list source_file)) : nat :=
  match argv with
  | _ :: project_root :: _ =>
      let validator := init (Py.of_path project_root) in
      if fst (fst (run_validation validator source examples tests))
      then 0%nat else 1%nat
  | _ => 1%nat
  end.
End Runs.

End ValidateUsage.

(** ** tools/check_example_icons.py *)
Module CheckExamples.

Definition common_mappings : list (string * list string) :=
  [("edit", ["pencil"; "pen"; "square-pen"]);
   ("home", ["house"; "house-plus"]);
   ("delete", ["trash"; "trash-2"]);
   ("remove", ["x"; "minus"; "trash"]);
   ("add", ["plus"; "plus-circle"]);
   ("close", ["x"; "x-circle"]);
   ("options", ["settings"; "cog"]);
   ("config", ["settings"; "cog"]);
   ("preferences", ["settings"; "sliders-horizontal"])].

(** [if icon not in suggestions: suggestions.append(icon)] *)
Definition append_new (suggestions : list string) (icon : string) : list string :=
  if bool_decide (icon ∈ suggestions) then suggestions else suggestions ++ [icon].

Definition substring_match (invalid_icon icon : string) : bool :=
  PyStr.contains invalid_icon icon || PyStr.contains icon invalid_icon.

(** [invalid_words.intersection(icon_words)] is not empty. *)
Definition shares_word (invalid_icon icon : string) : bool :=
  let invalid_words := remove_dups (PyStr.split_on "-" invalid_icon) in
  let icon_words := remove_dups (PyStr.split_on "-" icon) in
  match list_intersection invalid_words icon_words with
  | [] => false
  | _ => true
  end.

(** [available_icons] is the set in the order of its iteration. *)
Definition suggest_similar_icons (invalid_icon : string)
    (available_icons : list string) : list string :=
  let suggestions := [] in
  let suggestions :=
    match PyDict.get invalid_icon common_mappings with
    | Some mapped =>
        suggestions
        ++ filter (fun icon => icon ∈ available_icons) mapped
    | None => suggestions
    end in
  let suggestions :=
    foldl (fun suggestions icon =>
             if substring_match invalid_icon icon
             then append_new suggestions icon else suggestions)
          suggestions available_icons in
  let suggestions :=
    foldl (fun suggestions icon =>
             if shares_word invalid_icon icon
             then append_new suggestions icon else suggestions)
          suggestions available_icons in
  take 5 suggestions.

End CheckExamples.

(** ** Vocabulary for the statements about categories *)
Module CategorySpec.

(** The labels of the keyword table that have a keyword inside the
    name, in the order of the table. *)
Definition matched (name : string) : list string :=
  map fst (List.filter (fun entry => BuildResources.any_in (snd entry) name)
                       BuildResources.category_keywords).

(** No keyword of any category occurs in the name. *)
Definition no_keyword_in (name : string) : Prop :=
  forall label keywords kw,
    (label, keywords) ∈ BuildResources.category_keywords -> kw ∈ keywords ->
    PyStr.contains kw name = false.

End CategorySpec.

(** ** Vocabulary for the statements about the label indices *)
Module IndexSpec.

(** The pairs (label, icon name) in the order in which the two nested
    loops of the index construction visit them. *)
Definition visits (labels : Metadata.icon -> list string)
    (icons_data : list (string * Metadata.icon)) : list (string * string) :=
  flat_map (fun kv => map (fun label => (label, fst kv)) (labels (snd kv)))
           icons_data.

(** One visit: the body of the inner loop. *)
Definition add_visit (index : list (string * list string)) (p : string * string)
  : list (string * list string) := Metadata.index_append (fst p) (snd p) index.

(** The icon names visited with a given label, in that order. *)
Definition carriers (labels : Metadata.icon -> list string) (label : string)
    (icons_data : list (string * Metadata.icon)) : list string :=
  map snd (filter (fun p => fst p = label) (visits labels icons_data)).

End IndexSpec.

(** ** Vocabulary for the statements about the usage validator *)
Module ValidatorSpec.

(** The candidate names found in a list of scanned files. *)
Definition found_names (found : list ValidateUsage.source_file) : list string :=
  flat_map (fun file => map fst (ValidateUsage.scan_file_for_icons (snd file))) found.

(** The candidate names of a run over the two source trees. *)
Definition candidates (examples tests : option (list ValidateUsage.source_file))
  : list string :=
  found_names (default [] examples) ++ found_names (default [] tests).

End ValidatorSpec.

(** ** Vocabulary for the statements about suggestions *)
Module SuggestionSpec.

Definition words (name : string) : list string :=
  remove_dups (PyStr.split_on "-" name).

(** The test of [suggest_corrections]: containment in either direction,
    or a similarity above one half. *)
Definition close_to (invalid_icon available : string) : bool :=
  PyStr.contains invalid_icon available
  || PyStr.contains available invalid_icon
  || negb (Qle_bool (ValidateUsage._words_similarity invalid_icon available) (1 # 2)).

(** The three ranks of [suggest_similar_icons]. *)
Definition synonyms (invalid_icon : string) (available_icons : list string)
  : list string :=
  filter (fun icon => icon ∈ available_icons)
         (default [] (PyDict.get invalid_icon CheckExamples.common_mappings)).

Definition substring_matches (invalid_icon : string) (available_icons : list string)
  : list string :=
  filter (fun icon => CheckExamples.substring_match invalid_icon icon = true
                      /\ icon ∉ synonyms invalid_icon available_icons)
         available_icons.

Definition word_matches (invalid_icon : string) (available_icons : list string)
  : list string :=
  filter (fun icon => CheckExamples.shares_word invalid_icon icon = true
                      /\ icon ∉ synonyms invalid_icon available_icons
                                  ++ substring_matches invalid_icon available_icons)
         available_icons.

End SuggestionSpec.

(** ** Vocabulary for the statements about the metadata store *)
Module StoreSpec.

(** The [count] member of a store is the number of members of its
    [icons] object. *)
Definition count_matches (doc : json) : Prop :=
  exists members,
    Json.member "icons" doc = Some (JObj members)
    /\ Json.member "count" doc = Some (JNum (length members)).

End StoreSpec.

(** ** Vocabulary for the statements about repeated runs *)
Module RunSpec.

(** [f] is a way in which the interpreter may enumerate a set of strings:
    the distinct elements, in some order. *)
Definition set_order (f : list string -> list string) : Prop :=
  forall l, f l ≡ₚ remove_dups l.

(** The three artifacts of one run of metadata synthesis and header
    generation: icons.json, QtLucideEnums.h and QtLucideStrings.h. *)
Definition icons_json_text (list_of_set : list string -> list string)
    (glob_stems : list string) : string :=
  Json.dumps (Metadata.store (BuildResources.icons_of list_of_set glob_stems)).

Definition enums_text (list_of_set : list string -> list string)
    (glob_stems : list string) : string :=
  let keys := PyDict.keys (BuildResources.icons_of list_of_set glob_stems) in
  GenerateHeaders.enums_header keys (length keys).

Definition strings_text (list_of_set : list string -> list string)
    (glob_stems : list string) : string :=
  GenerateHeaders.strings_header
    (PyDict.keys (BuildResources.icons_of list_of_set glob_stems)).

End RunSpec.

(** ** The fixed text of the generated headers around the placeholders *)
Module HeaderLayout.




Definition strings_head : string :=
  "/**
 * QtLucide - use Lucide icons in your Qt Application
 *
 * AUTO-GENERATED FILE - DO NOT EDIT MANUALLY
 * Generated from Lucide icon metadata
 *
 * MIT Licensed
 * Copyright 2025 Max Qian. All Rights Reserved.
 */

#ifndef QTLUCIDESTRINGS_H
#define QTLUCIDESTRINGS_H

#include " +:+ PyStr.dquote +:+ "QtLucideEnums.h" +:+ PyStr.dquote +:+ "
#include <QHash>
#include <QString>

namespace lucide {

/**
 * @brief Mapping from icon enum to string name
 */
static const QHash<Icons, QString> ICON_TO_STRING_MAP = {
".

Definition strings_tail : string :=
  "
};

/**
 * @brief Mapping from string name to icon enum
 */
static QHash<QString, Icons> createStringToIconMap() {
    QHash<QString, Icons> map;
    for (auto it = ICON_TO_STRING_MAP.begin(); it != ICON_TO_STRING_MAP.end(); ++it) {
        map[it.value()] = it.key();
    }
    return map;
}

static const QHash<QString, Icons> STRING_TO_ICON_MAP = createStringToIconMap();

} // namespace lucide

#endif // QTLUCIDESTRINGS_H".

End HeaderLayout.

(** ** The symbol derivation as the specification words it

    Three steps over a name: every character outside the identifier
    alphabet becomes an underscore; a leading digit gets the marker
    prefix; a reserved word gets the escape prefix. *)
Module SymbolSpec.



Definition escape : string := "icon_".






End SymbolSpec.

(** ** The fixed text of the resource manifest around the placeholder *)
Module QrcLayout.

Definition qrc_head : string :=
  "<RCC>
    <qresource prefix=" +:+ PyStr.dquote +:+ "/lucide" +:+ PyStr.dquote +:+ ">
".

Definition qrc_tail : string :=
  "
    </qresource>
</RCC>".

End QrcLayout.

(** ** Vocabulary for the statements about tags *)
Module TagSpec.

(** [name.replace('-', ' ').split()] *)
Definition parts (name : string) : list string :=
  PyStr.split_ws
    (PyStr.map_chars (fun c => if Ascii.eqb c "-" then " "%char else c) name).

(** The four keyword groups of [_generate_tags_from_name]. *)
Definition groups : list (string * list string) :=
  [("navigation", ["arrow"; "chevron"]);
   ("files", ["file"; "folder"; "document"]);
   ("users", ["user"; "person"; "people"]);
   ("social", ["heart"; "star"; "like"])].

(** The labels of the groups that have a keyword inside the name. *)
Definition group_tags (name : string) : list string :=
  flat_map (fun g => if BuildResources.any_in (snd g) name then [fst g] else []) groups.

(** A character that can occur in a tag cut out of the name. *)
Definition tag_char (c : ascii) : bool :=
  negb (PyStr.is_space c) && negb (Ascii.eqb c "-").

End TagSpec.

(** ** Vocabulary for the statements about the Lucide import *)
Module ImportSpec.

(** The line printed for a file that is skipped, up to the message of
    the exception. *)
Definition error_line (self : ProcessLucide.processor) (svg : ProcessLucide.svg_source)
  : string :=
  "Error processing "
  +:+ Py.path_str (ProcessLucide.source_dir self ++ [ProcessLucide.stem svg +:+ ".svg"]).

End ImportSpec.

(** ** Vocabulary for the statements about the usage dictionary *)
Module UsageSpec.
Import ValidateUsage.

(** One step of the inner loop of [scan_directory]: the usage [u] of a
    file is appended to the list of its name. *)
Definition add_usage (rel_path : string) (self : validator) (u : usage) : validator :=
  Validator (project_root self) (available_icons self)
            (PyDict.set (fst u)
                        (default [] (PyDict.get (fst u) (icon_usage self))
                         ++ [(rel_path, snd u)])
                        (icon_usage self))
            (invalid_icons self).

(** Every list of [before] is the front of the list of the same name in
    [after]. *)
Definition usage_grows (before after : list (string * list usage)) : Prop :=
  forall k us, PyDict.get k before = Some us ->
               exists more, PyDict.get k after = Some (us ++ more).

Definition entries_nonempty (d : list (string * list usage)) : Prop :=
  forall k us, PyDict.get k d = Some us -> us <> [].

End UsageSpec.

(** ** tools/check_example_icons.py: the run of the checker *)
Module ExampleChecker.
Import CheckExamples.

(** [Path.touch()]: an existing path is left as it is, a new file is
    created empty in an existing directory. *)
Definition touch (p : path) : Py.M unit :=
  fun w =>
    if Py.path_exists w p then (inr tt, w)
    else if Py.is_dir w (Py.parent p)
         then (inr tt, World (<[p := ""]> (files w)) (dirs w) (stdout w))
         else match list_find (fun q => Py.is_file w q = true)
                              (Py.ancestors (Py.parent p)) with
              | Some _ => (inl (NotADirectoryError p), w)
              | None => (inl (FileNotFoundError p), w)
              end.

(** [if p.exists(): yes  else: no] *)
Definition if_exists {A} (p : path) (yes no : Py.M A) : Py.M A :=
  fun w => if Py.path_exists w p then yes w else no w.

(** [for x in l: st = body(st, x)] *)
Fixpoint for_each {A S} (body : S -> A -> Py.M S) (st : S) (l : list A) : Py.M S :=
  match l with
  | [] => mret st
  | x :: rest => st ← body st x; for_each body st rest
  end.

Definition strings_file (project_root : path) : path :=
  project_root ++ ["include"; "QtLucide"; "QtLucideStrings.h"].

(** [("m_sampleIcons" in line or "sampleIcons" in line) and "<<" in line] *)
Definition opens_icon_list (line : string) : bool :=
  (PyStr.contains "m_sampleIcons" line || PyStr.contains "sampleIcons" line)
  && PyStr.contains "<<" line.

(** [len(match) >= 2 and len(match) <= 30 and "-" in match
     or len(match) <= 15] *)
Definition kept (m : string) : bool :=
  (2 <=? String.length m)%nat && (String.length m <=? 30)%nat && PyStr.contains "-" m
  || (String.length m <=? 15)%nat.

(** [";" in line and "<<" not in line] *)
Definition closes_icon_list (line : string) : bool :=
  PyStr.contains ";" line && negb (PyStr.contains "<<" line).

(** The two example files, relative to the project root. *)
Definition example_files : list path :=
  [["examples"; "basic_usage"; "MainWindow.cpp"];
   ["examples"; "gallery"; "main.cpp"]].

(** The table of [generate_icon_fix_suggestions]. *)
Definition reference_mappings : list (string * list string) :=
  [("edit", ["pencil"; "pen"; "square-pen"]);
   ("home", ["house"; "house-plus"]);
   ("delete", ["trash"; "trash-2"]);
   ("remove", ["x"; "minus"; "trash"]);
   ("add", ["plus"; "plus-circle"]);
   ("close", ["x"; "x-circle"]);
   ("menu", ["menu"; "more-horizontal"]);
   ("options", ["settings"; "cog"]);
   ("config", ["settings"; "cog"]);
   ("preferences", ["settings"; "sliders-horizontal"])].

(** What the loop over the table writes for one entry; text outside
    ASCII is held as its UTF-8 bytes. *)
Definition mapping_line (available_icons : list string)
    (entry : string * list string) : string :=
  match filter (fun icon => icon ∈ available_icons) (snd entry) with
  | [] => ""
  | first :: alternatives =>
      "- `" +:+ fst entry +:+ "` → `" +:+ first +:+ "`"
      +:+ match alternatives with
          | [] => ""
          | _ => " (alternatives: " +:+ PyStr.join ", " alternatives +:+ ")"
          end
      +:+ PyStr.newline
  end.

(** The text written to ICON_NAME_FIXES.md. *)
Definition reference_text (available_icons : list string) : string :=
  "# QtLucide Icon Name Reference" +:+ PyStr.newline +:+ PyStr.newline
  +:+ "Common icon name mappings for QtLucide (based on Lucide icons):"
  +:+ PyStr.newline +:+ PyStr.newline
  +:+ String.concat "" (map (mapping_line available_icons) reference_mappings)
  +:+ PyStr.newline +:+ "## All Available Icons ("
  +:+ PyStr.str_of_nat (length available_icons) +:+ " total)"
  +:+ PyStr.newline +:+ PyStr.newline
  +:+ "```" +:+ PyStr.newline
  +:+ String.concat "" (map (fun icon => icon +:+ PyStr.newline)
                            (PyStr.sorted available_icons))
  +:+ "```" +:+ PyStr.newline.

Section Runs.
(** [set(l)] followed by iteration, as for the validator. *)
Variable list_of_set : list string -> list string.
(** [re.findall] on the text of the strings header, for the pattern of
    the table entries. *)
Variable findall_entries : string -> list string.
(** [re.findall] on one line, for the pattern of a streamed literal. *)
Variable findall_streamed : string -> list string.
(** [str(e)] *)
Variable str_of_exn : exn -> string.

Definition load_available_icons (project_root : path) : Py.M (list string) :=
  let strings_file := strings_file project_root in
  if_exists strings_file
    (Py.try_except
       (content ← Py.read_text strings_file;
        let matches := findall_entries content in
        mret (list_of_set matches))
       (fun e => Py.print ("Error loading icons: " +:+ str_of_exn e);;
                 mret []))
    (Py.print ("Error: " +:+ Py.path_str strings_file +:+ " not found");;
     mret []).

(** The body of the loop over the numbered lines. *)
Definition icon_list_step (st : bool * list (string * nat))
    (numbered : nat * string) : bool * list (string * nat) :=
  let in_icon_list := fst st in
  let icons := snd st in
  let line_num := fst numbered in
  let line := snd numbered in
  let in_icon_list := if opens_icon_list line then true else in_icon_list in
  if in_icon_list
  then
    let matches := findall_streamed line in
    let icons := icons ++ map (fun m => (m, line_num)) (List.filter kept matches) in
    let in_icon_list := if closes_icon_list line then false else in_icon_list in
    (in_icon_list, icons)
  else (in_icon_list, icons).

(** The loop of [extract_icon_list_from_cpp] over [enumerate(lines, 1)]. *)
Definition scan_icon_lists (lines : list string) : bool * list (string * nat) :=
  foldl icon_list_step (false, []) (imap (fun i line => (S i, line)) lines).

Definition extract_icon_list_from_cpp (file_path : path) : Py.M (list (string * nat)) :=
  Py.try_except
    (content ← Py.read_text file_path;
     let lines := PyStr.split_on (ascii_of_nat 10) content in
     mret (snd (scan_icon_lists lines)))
    (fun e => Py.print ("Error reading " +:+ Py.path_str file_path +:+ ": "
                        +:+ str_of_exn e);;
              mret []).

(** The lines printed for one invalid icon. *)
Definition report_invalid (available_icons : list string) (u : string * nat)
  : Py.M unit :=
  Py.print ("    Line " +:+ PyStr.str_of_nat (snd u) +:+ ": '" +:+ fst u +:+ "'");;
  let suggestions := suggest_similar_icons (fst u) available_icons in
  match suggestions with
  | [] => mret tt
  | _ => Py.print ("      Suggestions: " +:+ PyStr.join ", " (take 3 suggestions))
  end.

(** The loop over the icons of one file: the invalid ones, the verdict
    and the count. *)
Definition check_icons (available_icons : list string) (all_valid : bool)
    (total_checked : nat) (icons : list (string * nat))
  : list (string * nat) * bool * nat :=
  foldl (fun st u =>
           let invalid_icons := fst (fst st) in
           let all_valid := snd (fst st) in
           let total_checked := (snd st + 1)%nat in
           if bool_decide (fst u ∈ available_icons)
           then (invalid_icons, all_valid, total_checked)
           else (invalid_icons ++ [u], false, total_checked))
        ([], all_valid, total_checked) icons.

(** The body of the loop over the example files; [st] holds [all_valid]
    and [total_checked]. *)
Definition check_file (project_root : path) (available_icons : list string)
    (st : bool * nat) (rel : path) : Py.M (bool * nat) :=
  let file_path := project_root ++ rel in
  if_exists file_path
    (Py.print (PyStr.newline +:+ "Checking " +:+ Py.path_str rel +:+ "...");;
     icons ← extract_icon_list_from_cpp file_path;
     match icons with
     | [] => Py.print "  No icon lists found";; mret st
     | _ =>
         let checked := check_icons available_icons (fst st) (snd st) icons in
         let invalid_icons := fst (fst checked) in
         match invalid_icons with
         | [] => Py.print ("  ✅ All " +:+ PyStr.str_of_nat (length icons)
                           +:+ " icons are valid")
         | _ => Py.print ("  ❌ Found " +:+ PyStr.str_of_nat (length invalid_icons)
                          +:+ " invalid icons:");;
                for_each (fun _ u => report_invalid available_icons u) tt
                         invalid_icons
         end;;
         mret (snd (fst checked), snd checked)
     end)
    (mret st).

Definition check_examples (project_root : path) : Py.M bool :=
  Py.print "QtLucide Example Icon Checker";;
  Py.print "========================================";;
  available_icons ← load_available_icons project_root;
  match available_icons with
  | [] => mret false
  | _ =>
      Py.print ("Loaded " +:+ PyStr.str_of_nat (length available_icons)
                +:+ " available icons");;
      let examples_dir := project_root ++ ["examples"] in
      if_exists examples_dir
        (st ← for_each (check_file project_root available_icons) (true, 0%nat)
                       example_files;
         let all_valid := fst st in
         let total_checked := snd st in
         Py.print (PyStr.newline +:+ "Summary:");;
         Py.print ("  Total icons checked: " +:+ PyStr.str_of_nat total_checked);;
         Py.print ("  Result: " +:+ if all_valid : bool then "PASS" else "FAIL");;
         mret all_valid)
        (Py.print "No examples directory found";; mret true)
  end.

Definition generate_icon_fix_suggestions (project_root : path) : Py.M unit :=
  available_icons ← load_available_icons project_root;
  match available_icons with
  | [] => mret tt
  | _ =>
      let fix_file := project_root ++ ["ICON_NAME_FIXES.md"] in
      Py.write_text fix_file (reference_text available_icons);;
      Py.print ("Generated icon reference: " +:+ Py.path_str fix_file)
  end.

Definition main (argv : list string) : Py.M unit :=
  match argv with
  | _ :: root :: rest =>
      let project_root := Py.of_path root in
      let stamp_file := match rest with
                        | stamp :: _ => Some (Py.of_path stamp)
                        | [] => None
                        end in
      success ← check_examples project_root;
      generate_icon_fix_suggestions project_root;;
      if success : bool
      then
        Py.print (PyStr.newline +:+ "✅ All example icons are valid!");;
        match stamp_file with
        | Some stamp_file =>
            touch stamp_file;;
            Py.print ("Created stamp file: " +:+ Py.path_str stamp_file)
        | None => mret tt
        end;;
        Py.raise (SystemExit 0)
      else
        Py.print (PyStr.newline +:+ "❌ Some example icons need fixing!");;
        Py.print "See ICON_NAME_FIXES.md for suggestions.";;
        Py.raise (SystemExit 1)
  | _ =>
      Py.print "Usage: check_example_icons.py <project_root> [stamp_file]";;
      Py.raise (SystemExit 1)
  end.
End Runs.

End ExampleChecker.

(** ** Vocabulary for the statements about the example checker *)
Module ExampleSpec.
Import ExampleChecker.

(** The world after some more lines were printed. *)
Definition printed (w : world) (lines : list string) : world :=
  World (files w) (dirs w) (stdout w ++ lines).

(** A computation that ends with [v], having printed and done nothing
    else. *)
Definition only_prints {A} (m : Py.M A) (w : world) (v : A) : Prop :=
  exists lines, m w = (inr v, printed w lines).

(** Line [i] (from 0) is read inside an icon list: a line at or before
    it opens a list and no line in between closes it. *)
Definition open_at (lines : list string) (i : nat) : Prop :=
  exists j opener,
    j <= i /\ lines !! j = Some opener /\ opens_icon_list opener = true
    /\ forall k line, j < k < i -> lines !! k = Some line ->
                      closes_icon_list line = false.

Section Spec.
Variable list_of_set : list string -> list string.
Variable findall_entries : string -> list string.
Variable findall_streamed : string -> list string.

(** The available names: those of the strings header when it can be
    read, none otherwise. *)
Definition available_of (w : world) (project_root : path) : list string :=
  match files w !! strings_file project_root with
  | Some content => list_of_set (findall_entries content)
  | None => []
  end.

(** The icons extracted from a file, none when it cannot be read. *)
Definition extracted (w : world) (file_path : path) : list (string * nat) :=
  match files w !! file_path with
  | Some content =>
      snd (scan_icon_lists findall_streamed (PyStr.split_on (ascii_of_nat 10) content))
  | None => []
  end.

(** Every icon extracted from the file is an available name. *)
Definition file_valid (w : world) (project_root rel : path) : bool :=
  forallb (fun u => bool_decide (fst u ∈ available_of w project_root))
          (extracted w (project_root ++ rel)).

(** The verdict on the examples of a project. *)
Definition verdict (w : world) (project_root : path) : bool :=
  match available_of w project_root with
  | [] => false
  | _ => if Py.path_exists w (project_root ++ ["examples"])
         then forallb (file_valid w project_root) example_files
         else true
  end.
End Spec.

End ExampleSpec.

(* ================================================================== *)
(** * Properties *)
(* ================================================================== *)

(** ** Sorting *)
Section Sorting.

Lemma sorted_Sorted (l : list string) : Sorted String.le (PyStr.sorted l).
Proof. apply (Sorted_merge_sort String.le). Qed.

Lemma sorted_Permutation (l : list string) : PyStr.sorted l ≡ₚ l.
Proof. apply merge_sort_Permutation. Qed.

Lemma sorted_length (l : list string) : length (PyStr.sorted l) = length l.
Proof. by rewrite sorted_Permutation. Qed.

Lemma sorted_elem_of (l : list string) (x : string) : x ∈ PyStr.sorted l <-> x ∈ l.
Proof. by rewrite sorted_Permutation. Qed.

(** The result depends on the elements only, not on their order. *)
Lemma sorted_order_irrelevant (l1 l2 : list string) :
  l1 ≡ₚ l2 -> PyStr.sorted l1 = PyStr.sorted l2.
Proof.
  intros Hp. apply (Sorted_unique String.le); auto using sorted_Sorted.
  by rewrite !sorted_Permutation.
Qed.

Lemma sorted_of_Sorted (l : list string) : Sorted String.le l -> PyStr.sorted l = l.
Proof.
  intros Hs. apply (Sorted_unique String.le); auto using sorted_Sorted, sorted_Permutation.
Qed.


End Sorting.

(** ** Symbol derivation *)
Section SymbolDerivation.
Import GenerateHeaders.







Example name_to_enum_hyphen : _name_to_enum "arrow-left" = "arrow_left".
Proof. reflexivity. Qed.
Example name_to_enum_digit : _name_to_enum "3d-box" = "Icon_3d_box".
Proof. reflexivity. Qed.
Example name_to_enum_keyword : _name_to_enum "delete" = "icon_delete".
Proof. reflexivity. Qed.
Example name_to_enum_collision : _name_to_enum "a!b" = _name_to_enum "a_b".
Proof. reflexivity. Qed.

(** The symbol is made of identifier characters only. *)
Lemma sub_non_word_chars (name : string) :
  PyStr.all_chars is_word_char (sub_non_word name) = true.
Proof.
  unfold sub_non_word.
  induction name as [|c name IH]; [done|].
  cbn [PyStr.map_chars PyStr.all_chars].
  rewrite IH, andb_true_r. destruct (is_word_char c) eqn:Hc; [done|reflexivity].
Qed.

Lemma all_chars_app (p : ascii -> bool) (s1 s2 : string) :
  PyStr.all_chars p (s1 +:+ s2) = PyStr.all_chars p s1 && PyStr.all_chars p s2.
Proof.
  induction s1 as [|c s1 IH]; [done|].
  change (String c s1 +:+ s2) with (String c (s1 +:+ s2)).
  cbn [PyStr.all_chars]. by rewrite IH, andb_assoc.
Qed.

Lemma name_to_enum_chars (name : string) :
  PyStr.all_chars is_word_char (_name_to_enum name) = true.
Proof.
  unfold _name_to_enum.
  assert (PyStr.all_chars is_word_char (sub_leading_digit (sub_non_word name)) = true) as H.
  { pose proof (sub_non_word_chars name) as H. unfold sub_leading_digit.
    destruct (sub_non_word name) as [|d rest]; [done|].
    destruct (PyStr.is_digit d); [|done].
    change ("Icon_" +:+ String d "" +:+ rest) with ("Icon_" +:+ String d rest).
    by rewrite all_chars_app, H. }
  case_bool_decide; [|done]. by rewrite all_chars_app, H.
Qed.

End SymbolDerivation.

(** ** Text replacement in the header templates *)
Section Replace.



Lemma all_chars_impl (p q : ascii -> bool) (s : string) :
  (forall c, p c = true -> q c = true) ->
  PyStr.all_chars p s = true -> PyStr.all_chars q s = true.
Proof.
  intros Hpq. induction s as [|c s IH]; [done|]. cbn [PyStr.all_chars].
  rewrite !andb_true_iff. intros [Hc Hs]. auto.
Qed.



End Replace.

(** ** The enumeration header *)
Section Enumeration.
Import GenerateHeaders HeaderLayout.





Lemma enum_values_order_irrelevant (keys1 keys2 : list string) :
  keys1 ≡ₚ keys2 -> enum_values keys1 = enum_values keys2.
Proof. intros H. unfold enum_values. by rewrite (sorted_order_irrelevant _ _ H). Qed.







End Enumeration.

Section EnumerationOrdinals.
Import GenerateHeaders HeaderLayout.




End EnumerationOrdinals.

(** ** The two lookup tables *)
Section LookupTables.
Import GenerateHeaders.

Lemma table_of_snoc (entries : list (string * string)) (e : string * string) :
  table_of (entries ++ [e]) = <[fst e := snd e]> (table_of entries).
Proof. unfold table_of. by rewrite foldl_app. Qed.

Lemma table_of_lookup_Some (entries : list (string * string)) (k v : string) :
  table_of entries !! k = Some v -> (k, v) ∈ entries.
Proof.
  induction entries as [|[k' v'] entries IH] using rev_ind; [done|].
  rewrite table_of_snoc, lookup_insert. simpl. case_decide as Hk.
  - intros [= <-]. subst. apply elem_of_app. right. apply list_elem_of_here.
  - intros H. apply IH in H. apply elem_of_app. by left.
Qed.


Lemma string_pairs_elem_of (keys : list string) (k v : string) :
  (k, v) ∈ string_pairs keys <-> k = _name_to_enum v /\ v ∈ keys.
Proof.
  unfold string_pairs. rewrite list_elem_of_fmap. split.
  - intros (n & [= -> ->] & Hn). by rewrite <- sorted_elem_of.
  - intros [-> Hv]. exists v. by rewrite sorted_elem_of.
Qed.

(** Every entry of the symbol-to-name table binds the symbol of a name of
    the catalog to that name. *)
Lemma ICON_TO_STRING_MAP_entry (keys : list string) (k v : string) :
  ICON_TO_STRING_MAP keys !! k = Some v -> k = _name_to_enum v /\ v ∈ keys.
Proof. intros H. by apply string_pairs_elem_of, table_of_lookup_Some. Qed.


Lemma createStringToIconMap_snoc (entries : list (string * string)) (e : string * string) :
  createStringToIconMap (entries ++ [e])
  = <[snd e := fst e]> (createStringToIconMap entries).
Proof. unfold createStringToIconMap. by rewrite foldl_app. Qed.

(** When the key of every entry is a function of its value, the inverse
    table does not depend on the order of enumeration. *)
Lemma createStringToIconMap_lookup (f : string -> string)
    (entries : list (string * string)) (k v : string) :
  (forall e, e ∈ entries -> fst e = f (snd e)) ->
  (k, v) ∈ entries ->
  createStringToIconMap entries !! v = Some k.
Proof.
  induction entries as [|[k' v'] entries IH] using rev_ind; [by intros _ ?%elem_of_nil|].
  intros Hf Hin. rewrite createStringToIconMap_snoc, lookup_insert. simpl.
  assert (k = f v) as -> by (apply (Hf (k, v) Hin)).
  case_decide as Hv.
  - subst. f_equal. apply (Hf (k', v)). apply elem_of_app. right. apply list_elem_of_here.
  - apply IH; [intros e He; apply Hf, elem_of_app; by left|].
    apply elem_of_app in Hin as [Hin|Hin]; [done|].
    apply list_elem_of_singleton in Hin. congruence.
Qed.



(** The two tables are inverse of each other, entry by entry. *)
Lemma lookup_tables_inverse
    (keys : list string) (entries : list (string * string)) (k v : string) :
  entries ≡ₚ map_to_list (ICON_TO_STRING_MAP keys) ->
  ICON_TO_STRING_MAP keys !! k = Some v <-> createStringToIconMap entries !! v = Some k.
Proof.
  intros Hentries.
  assert (forall e, e ∈ entries -> fst e = _name_to_enum (snd e)) as Hf.
  { intros [k' v']. rewrite Hentries, elem_of_map_to_list.
    intros H. by apply ICON_TO_STRING_MAP_entry in H as [-> _]. }
  split.
  - intros H. apply (createStringToIconMap_lookup _name_to_enum); [done|].
    by rewrite Hentries, elem_of_map_to_list.
  - intros H.
    assert (forall es, createStringToIconMap es !! v = Some k -> (k, v) ∈ es) as Hback.
    { induction es as [|[k' v'] es IH] using rev_ind; [done|].
      rewrite createStringToIconMap_snoc, lookup_insert. simpl. case_decide.
      - intros [= <-]. subst. apply elem_of_app. right. apply list_elem_of_here.
      - intros H'. apply IH in H'. apply elem_of_app. by left. }
    apply Hback in H. by rewrite Hentries, elem_of_map_to_list in H.
Qed.

End LookupTables.

(** ** Loops that append to a list, and substrings *)
Section Loops.

Lemma foldl_append_if {A B} (p : A -> bool) (f : A -> B) (l : list A) (acc : list B) :
  foldl (fun acc x => if p x then acc ++ [f x] else acc) acc l
  = acc ++ map f (List.filter p l).
Proof.
  revert acc. induction l as [|x l IH]; intros acc; simpl.
  - by rewrite app_nil_r.
  - rewrite IH. destruct (p x); simpl; [|done]. by rewrite <- app_assoc.
Qed.

Lemma prefix_spec (s1 s2 : string) :
  String.prefix s1 s2 = true <-> exists post, s2 = s1 +:+ post.
Proof.
  revert s2. induction s1 as [|a s1 IH]; intros s2.
  - destruct s2; simpl; split; eauto.
  - destruct s2 as [|b s2]; simpl.
    + split; [done|]. by intros [post Hpost].
    + destruct (ascii_dec a b) as [->|Hne].
      * rewrite IH. split; intros [post Hpost]; exists post.
        -- by rewrite Hpost.
        -- by injection Hpost.
      * split; [done|]. intros [post Hpost]. by injection Hpost.
Qed.

(** [contains sub s] is Python's [sub in s]: [sub] is a contiguous part
    of [s]. *)
Lemma contains_spec (sub s : string) :
  PyStr.contains sub s = true <-> exists pre post, s = pre +:+ sub +:+ post.
Proof.
  induction s as [|c s IH].
  - cbn [PyStr.contains]. rewrite orb_false_r, prefix_spec. split.
    + intros [post Hpost]. by exists "", post.
    + intros (pre & post & H). destruct pre; [by exists post|done].
  - cbn [PyStr.contains]. rewrite orb_true_iff, prefix_spec, IH. split.
    + intros [[post H]|(pre & post & H)].
      * by exists "", post.
      * exists (String c pre), post. by rewrite H.
    + intros (pre & post & H). destruct pre as [|c' pre].
      * left. by exists post.
      * right. injection H as _ H. by exists pre, post.
Qed.

End Loops.

(** ** Dictionaries *)
Section DictFacts.
Context {V : Type}.
Implicit Types (d : list (string * V)) (k : string) (v : V).

Lemma dict_get_set d k k' v :
  PyDict.get k' (PyDict.set k v d) = if decide (k' = k) then Some v else PyDict.get k' d.
Proof.
  induction d as [|[k0 v0] d IH]; cbn [PyDict.set PyDict.get].
  - by destruct (decide (k' = k)).
  - destruct (decide (k = k0)) as [->|Hne]; cbn [PyDict.get].
    + by destruct (decide (k' = k0)).
    + rewrite IH. destruct (decide (k' = k0)) as [->|Hne']; [|done].
      by rewrite decide_False by done.
Qed.

Lemma dict_keys_set d k v :
  PyDict.keys (PyDict.set k v d)
  = if bool_decide (k ∈ PyDict.keys d) then PyDict.keys d else PyDict.keys d ++ [k].
Proof.
  unfold PyDict.keys. induction d as [|[k0 v0] d IH].
  - done.
  - cbn [PyDict.set]. destruct (decide (k = k0)) as [->|Hk].
    + rewrite bool_decide_eq_true_2; [done|]. apply list_elem_of_here.
    + rewrite !fmap_cons, IH. cbn [fst]. case_bool_decide as Hin.
      * rewrite bool_decide_eq_true_2; [done|]. by apply list_elem_of_further.
      * rewrite bool_decide_eq_false_2; [done|].
        intros [?|?]%elem_of_cons; congruence.
Qed.

Lemma dict_set_length d k v :
  length (PyDict.set k v d)
  = if bool_decide (k ∈ PyDict.keys d) then length d else S (length d).
Proof.
  rewrite <- (length_fmap fst (PyDict.set k v d)), <- (length_fmap fst d).
  fold (PyDict.keys (PyDict.set k v d)). rewrite dict_keys_set.
  case_bool_decide; [done|]. rewrite length_app. simpl. unfold PyDict.keys. lia.
Qed.

Lemma dict_wf_set d k v : PyDict.wf d -> PyDict.wf (PyDict.set k v d).
Proof.
  unfold PyDict.wf. intros Hd. rewrite dict_keys_set. case_bool_decide as Hin; [done|].
  apply NoDup_app. split_and!; [done| |apply NoDup_singleton].
  intros x Hx [->|[]%elem_of_nil]%elem_of_cons. done.
Qed.

Lemma dict_set_elem_of d k v k' v' :
  (k', v') ∈ PyDict.set k v d -> (k' = k /\ v' = v) \/ (k', v') ∈ d.
Proof.
  induction d as [|[k0 v0] d IH]; cbn [PyDict.set].
  - intros [[= -> ->]|[]%elem_of_nil]%elem_of_cons. by left.
  - destruct (decide (k = k0)) as [->|Hne].
    + intros [[= -> ->]|Hin]%elem_of_cons; [by left|].
      right. by apply list_elem_of_further.
    + intros [[= -> ->]|Hin]%elem_of_cons.
      * right. apply list_elem_of_here.
      * destruct (IH Hin) as [?|?]; [by left|]. right. by apply list_elem_of_further.
Qed.

Lemma dict_get_elem_of d k v :
  PyDict.get k d = Some v -> (k, v) ∈ d.
Proof.
  induction d as [|[k0 v0] d IH]; cbn [PyDict.get]; [done|].
  destruct (decide (k = k0)) as [->|Hne].
  - intros [= ->]. apply list_elem_of_here.
  - intros Hget. by apply list_elem_of_further, IH.
Qed.

Lemma dict_get_None d k : PyDict.get k d = None <-> k ∉ PyDict.keys d.
Proof.
  unfold PyDict.keys. induction d as [|[k0 v0] d IH]; cbn [PyDict.get].
  - split; [intros _; apply not_elem_of_nil|done].
  - rewrite fmap_cons. cbn [fst]. destruct (decide (k = k0)) as [->|Hne].
    + split; [done|]. intros Hnot. destruct Hnot. apply list_elem_of_here.
    + rewrite IH. split.
      * intros Hnot [?|?]%elem_of_cons; congruence.
      * intros Hnot Hin. apply Hnot. by apply list_elem_of_further.
Qed.

Lemma dict_get_Some_wf d k v :
  PyDict.wf d -> (k, v) ∈ d -> PyDict.get k d = Some v.
Proof.
  unfold PyDict.wf, PyDict.keys. induction d as [|[k0 v0] d IH]; cbn [PyDict.get].
  - by intros _ ?%elem_of_nil.
  - rewrite fmap_cons, NoDup_cons. cbn [fst]. intros [Hk0 Hd] [[= -> ->]|Hin]%elem_of_cons.
    + by rewrite decide_True.
    + rewrite decide_False; [by apply IH|].
      intros ->. apply Hk0. apply list_elem_of_fmap. by exists (k0, v).
Qed.

(** A dictionary filled key by key from a list. *)
Lemma dict_fill_elem_of (g : string -> V) (l : list string) d k v :
  (k, v) ∈ foldl (fun d n => PyDict.set n (g n) d) d l ->
  (k ∈ l /\ v = g k) \/ (k, v) ∈ d.
Proof.
  revert d. induction l as [|n l IH]; intros d; simpl; [by right|].
  intros H. destruct (IH _ H) as [[Hk ->]|Hd].
  - left. split; [by apply list_elem_of_further|done].
  - destruct (dict_set_elem_of _ _ _ _ _ Hd) as [[-> ->]|?]; [|by right].
    left. split; [apply list_elem_of_here|done].
Qed.

Lemma dict_fill_keys (g : string -> V) (l : list string) d :
  NoDup (PyDict.keys d ++ l) ->
  PyDict.keys (foldl (fun d n => PyDict.set n (g n) d) d l) = PyDict.keys d ++ l.
Proof.
  revert d. induction l as [|n l IH]; intros d Hnd; simpl.
  - by rewrite app_nil_r.
  - rewrite IH; rewrite dict_keys_set.
    + rewrite bool_decide_eq_false_2; [by rewrite <- app_assoc|].
      apply NoDup_app in Hnd as (_ & Hdisj & _). intros Hin.
      apply (Hdisj n Hin), list_elem_of_here.
    + rewrite bool_decide_eq_false_2; [by rewrite <- app_assoc|].
      apply NoDup_app in Hnd as (_ & Hdisj & _). intros Hin.
      apply (Hdisj n Hin), list_elem_of_here.
Qed.

End DictFacts.

(** ** Categories of the records *)
Section Categories.
Import Metadata BuildResources CategorySpec.

Lemma any_in_spec (words : list string) (name : string) :
  any_in words name = true
  <-> exists word, word ∈ words /\ PyStr.contains word name = true.
Proof.
  unfold any_in. rewrite existsb_exists.
  split; intros (w & Hw & Hc); exists w; split; try done; by apply list_elem_of_In.
Qed.

Lemma categorize_icon_matched (name : string) :
  _categorize_icon name
  = match matched name with [] => ["general"] | labels => labels end.
Proof.
  unfold _categorize_icon. rewrite foldl_append_if. fold (matched name).
  by destruct (matched name).
Qed.

Lemma matched_elem_of (name label : string) :
  label ∈ matched name
  <-> exists keywords, (label, keywords) ∈ category_keywords
                       /\ any_in keywords name = true.
Proof.
  unfold matched. rewrite list_elem_of_fmap. split.
  - intros ([l kws] & -> & Hin). apply list_elem_of_In, filter_In in Hin as [Hin Hany].
    exists kws. split; [by apply list_elem_of_In|done].
  - intros (kws & Hin & Hany). exists (label, kws). split; [done|].
    apply list_elem_of_In, filter_In. split; [by apply list_elem_of_In|done].
Qed.

Lemma general_not_a_category (keywords : list string) :
  ("general", keywords) ∉ category_keywords.
Proof.
  intros Hin. apply list_elem_of_In in Hin. simpl in Hin.
  repeat (destruct Hin as [Hin|Hin]; [discriminate|]). done.
Qed.

Lemma icons_of_record (list_of_set : list string -> list string)
    (glob_stems : list string) (key : string) (r : icon) :
  (key, r) ∈ icons_of list_of_set glob_stems ->
  key ∈ glob_stems /\ name r = key /\ categories r = _categorize_icon key.
Proof.
  unfold icons_of. intros Hin.
  apply (dict_fill_elem_of
           (fun n => Icon n ("svg/" +:+ n +:+ ".svg")
                          (_generate_tags_from_name list_of_set n)
                          (_categorize_icon n) [])) in Hin.
  destruct Hin as [[Hk ->]|[]%elem_of_nil]. done.
Qed.

End Categories.

Section CategoriesClaim.
Import Metadata BuildResources CategorySpec.

Lemma matched_nil (name : string) : matched name = [] <-> no_keyword_in name.
Proof.
  split.
  - intros Hnil label keywords kw Hin Hkw.
    destruct (PyStr.contains kw name) eqn:Hc; [|done].
    assert (label ∈ matched name) as Hl.
    { apply matched_elem_of. exists keywords. split; [done|].
      apply any_in_spec. by exists kw. }
    rewrite Hnil in Hl. by apply elem_of_nil in Hl.
  - intros Hno. destruct (matched name) as [|label labels] eqn:Hm; [done|].
    assert (label ∈ matched name) as Hl by (rewrite Hm; apply list_elem_of_here).
    apply matched_elem_of in Hl as (keywords & Hin & Hany).
    apply any_in_spec in Hany as (kw & Hkw & Hc).
    by rewrite (Hno label keywords kw Hin Hkw) in Hc.
Qed.

Lemma categorize_icon_spec (name label : string) :
  label ∈ _categorize_icon name
  <-> (exists keywords kw,
          (label, keywords) ∈ category_keywords /\ kw ∈ keywords
          /\ PyStr.contains kw name = true)
      \/ (label = "general" /\ no_keyword_in name).
Proof.
  rewrite categorize_icon_matched.
  destruct (matched name) as [|l ls] eqn:Hm.
  - assert (no_keyword_in name) as Hno by (by apply matched_nil).
    split.
    + intros [->|[]%elem_of_nil]%elem_of_cons. by right.
    + intros [(keywords & kw & Hin & Hkw & Hc)|[-> _]]; [|apply list_elem_of_here].
      by rewrite (Hno label keywords kw Hin Hkw) in Hc.
  - rewrite <- Hm, matched_elem_of. split.
    + intros (keywords & Hin & (kw & Hkw & Hc)%any_in_spec). left. by exists keywords, kw.
    + intros [(keywords & kw & Hin & Hkw & Hc)|[-> Hno]].
      * exists keywords. split; [done|]. apply any_in_spec. by exists kw.
      * apply matched_nil in Hno. by rewrite Hno in Hm.
Qed.

Lemma categorize_icon_nonempty (name : string) : _categorize_icon name <> [].
Proof. rewrite categorize_icon_matched. by destruct (matched name). Qed.

Lemma categorize_icon_general (name : string) :
  no_keyword_in name -> _categorize_icon name = ["general"].
Proof. intros Hno%matched_nil. by rewrite categorize_icon_matched, Hno. Qed.

End CategoriesClaim.

(** ** Running the programs *)
Section Running.

Lemma bind_inr {A B} (m : Py.M A) (k : A -> Py.M B) (w w' : world) (a : A) :
  m w = (inr a, w') -> (x ← m; k x) w = k a w'.
Proof. intros H. unfold mbind, py_bind, Py.bind. by rewrite H. Qed.

Lemma bind_inl {A B} (m : Py.M A) (k : A -> Py.M B) (w w' : world) (e : exn) :
  m w = (inl e, w') -> (x ← m; k x) w = (inl e, w').
Proof. intros H. unfold mbind, py_bind, Py.bind. by rewrite H. Qed.

Lemma write_text_inr (p : path) (text : string) (w : world) :
  Py.is_dir w p = false -> Py.is_dir w (Py.parent p) = true ->
  Py.write_text p text w
  = (inr tt, World (<[p := text]> (files w)) (dirs w) (stdout w)).
Proof. intros Hp Hparent. unfold Py.write_text. by rewrite Hp, Hparent. Qed.

Lemma parent_snoc (p : path) (part : string) : Py.parent (p ++ [part]) = p.
Proof. unfold Py.parent. apply removelast_last. Qed.

End Running.

Section ImportedRecords.
Import Metadata ProcessLucide.

(** What [process_single_icon] stores for a readable file. *)
Lemma process_single_icon_stores (optimize_svg : string -> string)
    (self : processor) (svg : svg_source) (w : world) (content : string)
    (m : sidecar) :
  svg_content svg = Some content ->
  (metadata_file svg = None /\ m = Sidecar None None None)
  \/ metadata_file svg = Some (Some m) ->
  Py.is_dir w (output_dir self ++ ["svg"; stem svg +:+ ".svg"]) = false ->
  Py.is_dir w (output_dir self ++ ["svg"]) = true ->
  exists self' w',
    process_single_icon optimize_svg self svg w = (inr (true, self'), w')
    /\ PyDict.get (stem svg) (icons_data self')
       = Some (Icon (stem svg) ("svg/" +:+ stem svg +:+ ".svg")
                    (default [] (sc_tags m)) (default [] (sc_categories m))
                    (default [] (sc_contributors m))).
Proof.
  intros Hcontent Hmeta Hfile Hdir.
  assert (Py.is_dir w (Py.parent (output_dir self ++ ["svg"; stem svg +:+ ".svg"])) = true)
    as Hparent.
  { replace (output_dir self ++ ["svg"; stem svg +:+ ".svg"])
      with ((output_dir self ++ ["svg"]) ++ [stem svg +:+ ".svg"])
      by (by rewrite <- app_assoc).
    by rewrite parent_snoc. }
  unfold process_single_icon, Py.try_except.
  rewrite Hcontent.
  assert (match metadata_file svg with
          | None => mret (Sidecar None None None)
          | Some (Some m0) => mret m0
          | Some None =>
              Py.raise (JSONDecodeError (source_dir self ++ [stem svg +:+ ".json"]))
          end = (mret m : Py.M sidecar)) as ->.
  { destruct Hmeta as [[-> ->]| ->]; reflexivity. }
  unfold mbind, py_bind, Py.bind, mret, py_ret, Py.ret.
  rewrite (write_text_inr _ _ _ Hfile Hparent).
  eexists _, _. split; [reflexivity|].
  cbn [icons_data]. rewrite dict_get_set. by rewrite decide_True.
Qed.

End ImportedRecords.

Section RecordCategories.
Import Metadata CategorySpec.

(** C7 (amended): every record that the resource builder synthesizes has
    a non-empty category list: a label of the keyword table is in it
    exactly when the name contains one of the label's keywords as a
    substring, several labels may be in it, and it is exactly
    [general] when no keyword is in the name.  A record of the Lucide
    import carries the categories of its metadata file unchanged, the
    empty list when there is none. *)
Theorem record_categories :
  (forall (list_of_set : list string -> list string) (glob_stems : list string)
          (key : string) (r : icon),
      (key, r) ∈ BuildResources.icons_of list_of_set glob_stems ->
      categories r <> []
      /\ (forall label,
             label ∈ categories r
             <-> (exists keywords kw,
                     (label, keywords) ∈ BuildResources.category_keywords
                     /\ kw ∈ keywords /\ PyStr.contains kw key = true)
                 \/ (label = "general" /\ no_keyword_in key))
      /\ (no_keyword_in key -> categories r = ["general"]))
  /\ BuildResources._categorize_icon "file-pen" = ["files"; "editing"]
  /\ (forall (optimize_svg : string -> string) (self : ProcessLucide.processor)
             (svg : ProcessLucide.svg_source) (w : world) (content : string)
             (m : ProcessLucide.sidecar),
         ProcessLucide.svg_content svg = Some content ->
         (ProcessLucide.metadata_file svg = None
          /\ m = ProcessLucide.Sidecar None None None)
         \/ ProcessLucide.metadata_file svg = Some (Some m) ->
         Py.is_dir w (ProcessLucide.output_dir self
                      ++ ["svg"; ProcessLucide.stem svg +:+ ".svg"]) = false ->
         Py.is_dir w (ProcessLucide.output_dir self ++ ["svg"]) = true ->
         exists self' w' r,
           ProcessLucide.process_single_icon optimize_svg self svg w
           = (inr (true, self'), w')
           /\ PyDict.get (ProcessLucide.stem svg) (ProcessLucide.icons_data self')
              = Some r
           /\ categories r = default [] (ProcessLucide.sc_categories m)).
Proof.
  split; [|split].
  - intros list_of_set glob_stems key r Hin.
    apply icons_of_record in Hin as (_ & _ & ->). split_and!.
    + apply categorize_icon_nonempty.
    + apply categorize_icon_spec.
    + apply categorize_icon_general.
  - reflexivity.
  - intros optimize_svg self svg w content m Hcontent Hmeta Hfile Hdir.
    destruct (process_single_icon_stores optimize_svg self svg w content m
                Hcontent Hmeta Hfile Hdir) as (self' & w' & Hrun & Hget).
    eexists self', w', _. split_and!; [done|done|reflexivity].
Qed.

Lemma record_categories_witness :
  categories (Icon "zebra" "svg/zebra.svg" ["zebra"] ["general"] []) <> []
  /\ exists self' w' r,
       ProcessLucide.process_single_icon (fun text => text)
         (ProcessLucide.Processor ["lucide"] ["out"] [])
         (ProcessLucide.SvgSource "zebra" (Some "<svg/>")
            (Some (Some (ProcessLucide.Sidecar None (Some ["animals"]) None))))
         (World ∅ {[ ["out"; "svg"] ]} [])
       = (inr (true, self'), w')
       /\ PyDict.get "zebra" (ProcessLucide.icons_data self') = Some r
       /\ categories r = ["animals"].
Proof.
  split.
  - apply (proj1 record_categories (fun l => l) ["arrow-left"; "zebra"] "zebra").
    apply list_elem_of_In. vm_compute. right. left. reflexivity.
  - apply (proj2 (proj2 record_categories) (fun text => text)
             (ProcessLucide.Processor ["lucide"] ["out"] [])
             (ProcessLucide.SvgSource "zebra" (Some "<svg/>")
                (Some (Some (ProcessLucide.Sidecar None (Some ["animals"]) None))))
             (World ∅ {[ ["out"; "svg"] ]} []) "<svg/>"
             (ProcessLucide.Sidecar None (Some ["animals"]) None)).
    + reflexivity.
    + right. reflexivity.
    + vm_compute. reflexivity.
    + vm_compute. reflexivity.
Defined.

(** A catalog written by the Lucide import in which a record has no
    category at all: the file has no metadata next to it. *)
Lemma import_record_without_category :
  exists self' w',
    ProcessLucide.process_icons (fun text => text)
      (ProcessLucide.Processor ["lucide"] ["out"] [])
      [ProcessLucide.SvgSource "zebra" (Some "<svg/>") None]
      (World ∅ ∅ [])
    = (inr self', w')
    /\ ~ (forall key r, (key, r) ∈ ProcessLucide.icons_data self' -> categories r <> []).
Proof.
  eexists _, _. split; [vm_compute; reflexivity|].
  intros H. apply (H "zebra" (Icon "zebra" "svg/zebra.svg" [] [] [])); [|reflexivity].
  apply list_elem_of_here.
Qed.

End RecordCategories.

(** ** The category and tag indices *)
Section Indices.
Import Metadata IndexSpec.

Lemma build_index_visits (labels : icon -> list string)
    (icons_data : list (string * icon)) (index : list (string * list string)) :
  foldl (fun index kv =>
           foldl (fun index label => index_append label (fst kv) index)
                 index (labels (snd kv)))
        index icons_data
  = foldl add_visit index (visits labels icons_data).
Proof.
  revert index. induction icons_data as [|kv icons_data IH]; intros index; [done|].
  cbn [foldl visits flat_map]. rewrite foldl_app, <- IH. f_equal.
  generalize (labels kv.2) as ls. clear. intros ls. revert index.
  induction ls as [|l ls IH]; intros index; [done|]. cbn [foldl map]. apply IH.
Qed.

Lemma index_lookup_visits (label : string) (ps : list (string * string))
    (index : list (string * list string)) :
  PyDict.get label (foldl add_visit index ps)
  = match map snd (filter (fun p => fst p = label) ps) with
    | [] => PyDict.get label index
    | names => Some (default [] (PyDict.get label index) ++ names)
    end.
Proof.
  revert index. induction ps as [|[l n] ps IH]; intros index; [done|].
  cbn [foldl]. rewrite IH. unfold add_visit, index_append. cbn [fst snd].
  rewrite dict_get_set.
  destruct (decide (label = l)) as [->|Hne].
  - rewrite filter_cons_True by done. cbn [map snd default].
    destruct (map snd (filter _ ps)) as [|n' names]; [done|].
    unfold id. by rewrite <- app_assoc.
  - rewrite filter_cons_False by (cbn; congruence). done.
Qed.

Lemma index_lookup (labels : icon -> list string) (label : string)
    (icons_data : list (string * icon)) :
  PyDict.get label (build_index labels icons_data)
  = match carriers labels label icons_data with
    | [] => None
    | names => Some names
    end.
Proof.
  unfold build_index. rewrite build_index_visits, index_lookup_visits.
  fold (carriers labels label icons_data).
  by destruct (carriers labels label icons_data).
Qed.

Lemma carriers_elem_of (labels : icon -> list string) (label : string)
    (icons_data : list (string * icon)) (n : string) :
  n ∈ carriers labels label icons_data
  <-> exists r, (n, r) ∈ icons_data /\ label ∈ labels r.
Proof.
  unfold carriers, visits. rewrite list_elem_of_fmap. split.
  - intros ([l n'] & -> & [Hl Hin]%list_elem_of_filter). cbn in Hl. subst l.
    apply list_elem_of_In, in_flat_map in Hin as ([k r] & Hkr & Hin).
    apply in_map_iff in Hin as (l & [= <- <-] & Hl).
    exists r. split; by apply list_elem_of_In.
  - intros (r & Hin & Hl). exists (label, n). split; [done|].
    apply list_elem_of_filter. split; [done|].
    apply list_elem_of_In, in_flat_map. exists (n, r).
    split; [by apply list_elem_of_In|].
    apply in_map_iff. exists label. split; [done|by apply list_elem_of_In].
Qed.

Lemma carriers_cons (labels : icon -> list string) (label : string)
    (kv : string * icon) (icons_data : list (string * icon)) :
  carriers labels label (kv :: icons_data)
  = map (fun _ => fst kv) (filter (fun l => l = label) (labels (snd kv)))
    ++ carriers labels label icons_data.
Proof.
  unfold carriers, visits. cbn [flat_map]. rewrite filter_app, map_app. f_equal.
  induction (labels kv.2) as [|l ls IH]; [done|]. cbn [map].
  destruct (decide (l = label)) as [->|Hne].
  - rewrite !filter_cons_True by done. cbn [map snd]. by rewrite IH.
  - rewrite !filter_cons_False by (cbn; congruence). apply IH.
Qed.

Lemma carriers_sorted (labels : icon -> list string) (label : string)
    (icons_data : list (string * icon)) :
  Sorted String.le (PyDict.keys icons_data) ->
  Sorted String.le (carriers labels label icons_data).
Proof.
  intros Hs%(Sorted_StronglySorted _). apply StronglySorted_Sorted.
  unfold PyDict.keys in Hs.
  induction icons_data as [|[k r] icons_data IH]; [constructor|].
  rewrite fmap_cons in Hs. apply StronglySorted_inv in Hs as [Hs Hk].
  rewrite carriers_cons. cbn [fst snd].
  assert (Forall (String.le k) (carriers labels label icons_data)) as Hrest.
  { apply Forall_forall. intros n (r' & Hin & _)%carriers_elem_of.
    rewrite Forall_forall in Hk. apply Hk. apply list_elem_of_fmap. by exists (n, r'). }
  induction (filter (fun l => l = label) (labels r)) as [|l ls IHl]; [by apply IH|].
  cbn [map app]. constructor; [done|].
  apply Forall_app. split; [|done].
  apply Forall_forall. intros x (l' & -> & _)%list_elem_of_fmap. reflexivity.
Qed.

End Indices.

Section IndexClaim.
Import Metadata IndexSpec.

Lemma filter_eq_NoDup (label : string) (ls : list string) :
  NoDup ls ->
  filter (fun l => l = label) ls = if decide (label ∈ ls) then [label] else [].
Proof.
  induction 1 as [|l ls Hl Hnd IH].
  - by rewrite decide_False by apply not_elem_of_nil.
  - destruct (decide (l = label)) as [->|Hne].
    + rewrite filter_cons_True by done. rewrite IH.
      rewrite decide_False by done.
      by rewrite decide_True by apply list_elem_of_here.
    + rewrite filter_cons_False by done. rewrite IH.
      destruct (decide (label ∈ ls)) as [Hin|Hnin].
      * by rewrite decide_True by (by apply list_elem_of_further).
      * rewrite decide_False; [done|]. intros [?|?]%elem_of_cons; congruence.
Qed.

Lemma carriers_NoDup_labels (labels : icon -> list string) (label : string)
    (icons_data : list (string * icon)) :
  (forall kv, kv ∈ icons_data -> NoDup (labels (snd kv))) ->
  carriers labels label icons_data
  = map fst (filter (fun kv => label ∈ labels (snd kv)) icons_data).
Proof.
  induction icons_data as [|kv icons_data IH]; intros Hnd; [done|].
  rewrite carriers_cons, IH by (intros kv' Hkv'; apply Hnd; by apply list_elem_of_further).
  rewrite filter_eq_NoDup by (apply Hnd, list_elem_of_here).
  destruct (decide (label ∈ labels kv.2)) as [Hin|Hnin].
  - by rewrite filter_cons_True by done.
  - by rewrite filter_cons_False by done.
Qed.

(** C4 (amended): in the category index and in the tag index (the
    dictionaries serialized to categories.json and tags.json) every
    label maps to the icon names that carry the label, listed in the
    order of the catalog, that is the order in which the files were
    scanned, a name appearing once when the labels of its record are
    distinct; the list is in lexicographic order when the catalog is. *)
Theorem label_index_order (labels : icon -> list string)
    (icons_data : list (string * icon)) (label : string) :
  PyDict.get label (build_index labels icons_data)
  = match carriers labels label icons_data with
    | [] => None
    | names => Some names
    end
  /\ (forall n, n ∈ carriers labels label icons_data
                <-> exists r, (n, r) ∈ icons_data /\ label ∈ labels r)
  /\ ((forall kv, kv ∈ icons_data -> NoDup (labels (snd kv))) ->
      carriers labels label icons_data
      = map fst (filter (fun kv => label ∈ labels (snd kv)) icons_data))
  /\ (Sorted String.le (PyDict.keys icons_data) ->
      Sorted String.le (carriers labels label icons_data)).
Proof.
  split_and!.
  - apply index_lookup.
  - apply carriers_elem_of.
  - apply carriers_NoDup_labels.
  - apply carriers_sorted.
Qed.

Lemma label_index_order_witness :
  carriers categories "navigation"
    (BuildResources.icons_of (fun l => l) ["arrow-left"; "zebra-arrow"; "zoo"])
  = ["arrow-left"; "zebra-arrow"]
  /\ Sorted String.le
       (carriers categories "navigation"
          (BuildResources.icons_of (fun l => l) ["arrow-left"; "zebra-arrow"; "zoo"])).
Proof.
  pose proof (label_index_order categories
                (BuildResources.icons_of (fun l => l) ["arrow-left"; "zebra-arrow"; "zoo"])
                "navigation") as (_ & _ & Hdistinct & Hsorted).
  split.
  - rewrite Hdistinct; [reflexivity|].
    intros kv Hkv. apply list_elem_of_In in Hkv. vm_compute in Hkv.
    destruct Hkv as [<-|[<-|[<-|[]]]]; apply (bool_decide_unpack _); vm_compute; exact I.
  - apply Hsorted. apply (bool_decide_unpack _). vm_compute. exact I.
Defined.

(** Two files scanned in the order zebra-arrow, arrow-left: both indices
    list the two names in that order, which is not the sorted one. *)
Lemma index_in_scan_order :
  let icons_data := BuildResources.icons_of (fun l => l) ["zebra-arrow"; "arrow-left"] in
  PyDict.get "navigation" (build_index categories icons_data)
  = Some ["zebra-arrow"; "arrow-left"]
  /\ PyDict.get "arrow" (build_index tags icons_data)
     = Some ["zebra-arrow"; "arrow-left"]
  /\ PyStr.sorted ["zebra-arrow"; "arrow-left"] = ["arrow-left"; "zebra-arrow"]
  /\ ~ Sorted String.le ["zebra-arrow"; "arrow-left"].
Proof.
  split_and!; [reflexivity..|].
  intros Hs. apply Sorted_inv in Hs as [_ Hhd]. apply HdRel_inv in Hhd.
  vm_compute in Hhd. exact Hhd.
Qed.

End IndexClaim.

(** ** The usage validator *)
Section Validator.
Import ValidateUsage ValidatorSpec.

Lemma scan_usages_fields (self : validator) (rel_path : string) (usages : list usage) :
  let self' :=
    foldl (fun self u =>
             Validator (project_root self) (available_icons self)
               (PyDict.set (fst u)
                  (default [] (PyDict.get (fst u) (icon_usage self)) ++ [(rel_path, snd u)])
                  (icon_usage self))
               (invalid_icons self))
          self usages in
  project_root self' = project_root self
  /\ available_icons self' = available_icons self
  /\ invalid_icons self' = invalid_icons self
  /\ (forall k, k ∈ PyDict.keys (icon_usage self')
                <-> k ∈ PyDict.keys (icon_usage self) \/ k ∈ map fst usages).
Proof.
  revert self. induction usages as [|u usages IH]; intros self; cbn [foldl].
  - split_and!; try done. intros k. cbn. rewrite elem_of_nil. tauto.
  - destruct (IH (Validator (project_root self) (available_icons self)
                    (PyDict.set (fst u)
                       (default [] (PyDict.get (fst u) (icon_usage self))
                        ++ [(rel_path, snd u)])
                       (icon_usage self))
                    (invalid_icons self))) as (Hr & Ha & Hi & Hk).
    cbn [project_root available_icons invalid_icons icon_usage] in *.
    split_and!; try done. intros k. rewrite Hk, dict_keys_set.
    cbn [map]. rewrite elem_of_cons.
    case_bool_decide as Hin.
    + split; [tauto|]. intros [?|[->|?]]; tauto.
    + rewrite elem_of_app, list_elem_of_singleton. tauto.
Qed.

Lemma scan_directory_fields (self : validator) (found : list source_file) :
  project_root (scan_directory self found) = project_root self
  /\ available_icons (scan_directory self found) = available_icons self
  /\ invalid_icons (scan_directory self found) = invalid_icons self
  /\ (forall k, k ∈ PyDict.keys (icon_usage (scan_directory self found))
                <-> k ∈ PyDict.keys (icon_usage self) \/ k ∈ found_names found).
Proof.
  unfold scan_directory. revert self.
  induction found as [|file found IH]; intros self; cbn [foldl].
  - split_and!; try done. intros k. cbn. rewrite elem_of_nil. tauto.
  - pose proof (scan_usages_fields self (fst file) (scan_file_for_icons (snd file)))
      as (Hr & Ha & Hi & Hk). cbn zeta in *.
    destruct (IH (foldl
                    (fun self u =>
                       Validator (project_root self) (available_icons self)
                         (PyDict.set (fst u)
                            (default [] (PyDict.get (fst u) (icon_usage self))
                             ++ [(fst file, snd u)])
                            (icon_usage self))
                         (invalid_icons self))
                    self (scan_file_for_icons (snd file))))
      as (Hr' & Ha' & Hi' & Hk').
    split_and!; try congruence.
    intros k. rewrite Hk', Hk. unfold found_names. cbn [flat_map].
    rewrite elem_of_app. tauto.
Qed.

Lemma validate_entries (self : validator) (all_valid : bool)
    (entries : list (string * list usage)) :
  let st := foldl (fun st entry =>
                     let all_valid := fst st in
                     let self := snd st in
                     if bool_decide (fst entry ∈ available_icons self)
                     then (all_valid, self)
                     else (false,
                           Validator (project_root self) (available_icons self)
                             (icon_usage self)
                             (PyDict.set (fst entry) (snd entry) (invalid_icons self))))
                  (all_valid, self) entries in
  available_icons (snd st) = available_icons self
  /\ icon_usage (snd st) = icon_usage self
  /\ (fst st = true
      <-> all_valid = true /\ forall k, k ∈ PyDict.keys entries -> k ∈ available_icons self)
  /\ (forall k, k ∈ PyDict.keys (invalid_icons (snd st))
                <-> k ∈ PyDict.keys (invalid_icons self)
                    \/ (k ∈ PyDict.keys entries /\ k ∉ available_icons self)).
Proof.
  revert self all_valid. induction entries as [|[k0 us] entries IH];
    intros self all_valid; cbn [foldl fst snd].
  - split_and!; try done.
    + split; [intros ->; split; [done|]; by intros k ?%elem_of_nil|tauto].
    + intros k. cbn. rewrite elem_of_nil. tauto.
  - unfold PyDict.keys. rewrite fmap_cons. cbn [fst]. fold (PyDict.keys entries).
    case_bool_decide as Hk0.
    + destruct (IH self all_valid) as (Ha & Hu & Hv & Hi). cbn zeta in *.
      split_and!; try done.
      * rewrite Hv. split; intros [-> Hall]; (split; [done|]).
        -- intros k [->|?]%elem_of_cons; auto.
        -- intros k Hk. apply Hall. by apply list_elem_of_further.
      * intros k. rewrite Hi, elem_of_cons. split; [tauto|].
        intros [?|[[->|?] ?]]; tauto.
    + destruct (IH (Validator (project_root self) (available_icons self)
                      (icon_usage self)
                      (PyDict.set k0 us (invalid_icons self))) false)
        as (Ha & Hu & Hv & Hi).
      cbn zeta in *. cbn [available_icons icon_usage invalid_icons] in *.
      split_and!; try done.
      * rewrite Hv. split; [by intros [? _]|]. intros [_ Hall].
        destruct Hk0. apply Hall, list_elem_of_here.
      * intros k. rewrite Hi, dict_keys_set, elem_of_cons.
        case_bool_decide as Hin.
        -- split; [tauto|]. intros [?|[[->|?] ?]]; tauto.
        -- rewrite elem_of_app, list_elem_of_singleton. split; [|tauto].
           intros [[?| ->]|[? ?]]; tauto.
Qed.

Lemma validate_usage_spec (self : validator) :
  available_icons (snd (validate_usage self)) = available_icons self
  /\ icon_usage (snd (validate_usage self)) = icon_usage self
  /\ (fst (validate_usage self) = true
      <-> forall k, k ∈ PyDict.keys (icon_usage self) -> k ∈ available_icons self)
  /\ (forall k, k ∈ PyDict.keys (invalid_icons (snd (validate_usage self)))
                <-> k ∈ PyDict.keys (invalid_icons self)
                    \/ (k ∈ PyDict.keys (icon_usage self) /\ k ∉ available_icons self)).
Proof.
  destruct (validate_entries self true (icon_usage self)) as (Ha & Hu & Hv & Hi).
  cbn zeta in *. unfold validate_usage. split_and!; try done.
  rewrite Hv. tauto.
Qed.

End Validator.

Section ValidatorExit.
Import ValidateUsage ValidatorSpec.
Variable list_of_set : list string -> list string.

Lemma load_available_icons_fields (self self' : validator) (source : icon_source)
    (ok : bool) :
  load_available_icons list_of_set self source = (ok, self') ->
  icon_usage self' = icon_usage self /\ invalid_icons self' = invalid_icons self.
Proof.
  unfold load_available_icons.
  destruct source as [[?|]|[[?|]|]|[?|]|]; intros [= <- <-]; done.
Qed.

(** The state before validation: the names in use are the candidates. *)
Lemma scanned_usage (self : validator)
    (examples tests : option (list source_file)) :
  let scanned :=
    match tests with
    | Some found =>
        scan_directory
          match examples with Some found => scan_directory self found | None => self end
          found
    | None => match examples with Some found => scan_directory self found | None => self end
    end in
  available_icons scanned = available_icons self
  /\ invalid_icons scanned = invalid_icons self
  /\ (forall k, k ∈ PyDict.keys (icon_usage scanned)
                <-> k ∈ PyDict.keys (icon_usage self) \/ k ∈ candidates examples tests).
Proof.
  unfold candidates.
  destruct examples as [ex|], tests as [ts|]; cbn [default found_names flat_map].
  - pose proof (scan_directory_fields self ex) as (_ & Ha1 & Hi1 & Hk1).
    pose proof (scan_directory_fields (scan_directory self ex) ts) as (_ & Ha2 & Hi2 & Hk2).
    split_and!; try congruence.
    intros k. rewrite Hk2, Hk1, elem_of_app. tauto.
  - pose proof (scan_directory_fields self ex) as (_ & Ha1 & Hi1 & Hk1).
    split_and!; try done.
    all: intros k; rewrite Hk1, elem_of_app, elem_of_nil; tauto.
  - pose proof (scan_directory_fields self ts) as (_ & Ha1 & Hi1 & Hk1).
    split_and!; try done.
    all: intros k; rewrite Hk1, elem_of_app, elem_of_nil; tauto.
  - split_and!; try done.
    all: intros k; rewrite elem_of_app, elem_of_nil; tauto.
Qed.

Lemma run_validation_loaded (root : path) (source : icon_source)
    (examples tests : option (list source_file)) (self0 : validator) :
  load_available_icons list_of_set (init root) source = (true, self0) ->
  exists rep self',
    run_validation list_of_set (init root) source examples tests
    = (bool_decide (Forall (fun c => c ∈ available_icons self0)
                           (candidates examples tests)),
       Some rep, self')
    /\ available_icons self' = available_icons self0
    /\ rep = print_report self'
    /\ (forall k, k ∈ PyDict.keys (invalid_icons self')
                  <-> k ∈ candidates examples tests /\ k ∉ available_icons self0).
Proof.
  intros Hload. unfold run_validation. rewrite Hload. cbn [negb].
  destruct (load_available_icons_fields _ _ _ _ Hload) as [Hu0 Hi0].
  cbn [init icon_usage invalid_icons] in Hu0, Hi0.
  pose proof (scanned_usage self0 examples tests) as (Ha & Hi & Hk). cbn zeta in *.
  set (scanned := match tests with
                  | Some found => scan_directory _ found
                  | None => _
                  end) in *.
  pose proof (validate_usage_spec scanned) as (Ha' & Hu' & Hv & Hinv).
  destruct (validate_usage scanned) as [is_valid self'] eqn:Hval. cbn [fst snd] in *.
  exists (print_report self'), self'. split_and!.
  - f_equal. f_equal. apply eq_true_iff_eq.
    rewrite Hv, bool_decide_eq_true, Forall_forall.
    split; intros Hall c Hc.
    + rewrite <- Ha. apply Hall, Hk. by right.
    + rewrite Ha. apply Hk in Hc as [Hc|Hc]; [|by apply Hall].
      rewrite Hu0 in Hc. by apply elem_of_nil in Hc.
  - congruence.
  - done.
  - intros k. rewrite Hinv, Hi, Hi0, Hk, Hu0, Ha. cbn. rewrite !elem_of_nil. tauto.
Qed.

End ValidatorExit.

Section ValidatorClaim.
Import ValidateUsage ValidatorSpec.

(** C8: once the available names are loaded, the validator exits with a
    non-zero status as soon as one scanned candidate is not among them,
    whatever suggestions exist for it; when every candidate is among
    them, the report has no invalid entry and the exit status is 0. *)
Theorem validator_exit_signal
    (list_of_set : list string -> list string)
    (program project_root : string) (more : list string)
    (source : icon_source) (examples tests : option (list source_file))
    (loaded : validator) :
  load_available_icons list_of_set (init (Py.of_path project_root)) source
  = (true, loaded) ->
  ((exists c, c ∈ candidates examples tests /\ c ∉ available_icons loaded) ->
   main list_of_set (program :: project_root :: more) source examples tests <> 0%nat)
  /\ ((forall c, c ∈ candidates examples tests -> c ∈ available_icons loaded) ->
      main list_of_set (program :: project_root :: more) source examples tests = 0%nat
      /\ exists rep self',
           run_validation list_of_set (init (Py.of_path project_root)) source
                          examples tests
           = (true, Some rep, self')
           /\ invalid_count rep = 0%nat
           /\ invalid_entries rep = []
           /\ invalid_icons self' = []).
Proof.
  intros Hload.
  destruct (run_validation_loaded list_of_set _ source examples tests loaded Hload)
    as (rep & self' & Hrun & Ha & -> & Hinv).
  unfold main. rewrite Hrun. cbn [fst]. split.
  - intros (c & Hc & Hnot). rewrite bool_decide_eq_false_2; [done|].
    rewrite Forall_forall. intros Hall. by apply Hnot, Hall.
  - intros Hall. rewrite bool_decide_eq_true_2 by (by apply Forall_forall).
    split; [done|]. exists (print_report self'), self'.
    assert (invalid_icons self' = []) as Hnil.
    { destruct (invalid_icons self') as [|[k us] rest]; [done|].
      assert (k ∈ PyDict.keys ((k, us) :: rest)) as Hk by apply list_elem_of_here.
      apply Hinv in Hk as [Hc Hnot]. destruct Hnot. by apply Hall. }
    split_and!; try done.
    + unfold print_report. cbn [invalid_count]. by rewrite Hnil.
    + unfold print_report. cbn [invalid_entries]. by rewrite Hnil.
Qed.

Lemma validator_exit_signal_witness :
  main (fun l => l) ["validate_icon_usage.py"; "project"]
       (StringsHeader (Some ["pen"; "house"]))
       (Some [("examples/main.cpp",
               Some [SourceLine ["pen"] []; SourceLine ["edit"] ["house"]])])
       None <> 0%nat
  /\ main (fun l => l) ["validate_icon_usage.py"; "project"]
          (StringsHeader (Some ["pen"; "house"]))
          (Some [("examples/main.cpp",
                  Some [SourceLine ["pen"] []; SourceLine [] ["house"]])])
          None = 0%nat.
Proof.
  split.
  - apply (proj1 (validator_exit_signal (fun l => l) "validate_icon_usage.py" "project" []
                    (StringsHeader (Some ["pen"; "house"])) _ None _ eq_refl)).
    exists "edit". split.
    + apply (bool_decide_unpack _). vm_compute. exact I.
    + apply (bool_decide_unpack _). vm_compute. exact I.
  - apply (proj2 (validator_exit_signal (fun l => l) "validate_icon_usage.py" "project" []
                    (StringsHeader (Some ["pen"; "house"])) _ None _ eq_refl)).
    intros c Hc. apply list_elem_of_In in Hc. vm_compute in Hc.
    destruct Hc as [<-|[<-|[]]]; apply (bool_decide_unpack _); vm_compute; exact I.
Defined.

End ValidatorClaim.

(** ** Suggestions *)
Section Suggestions.
Import SuggestionSpec.

Lemma suggest_loop_filter (invalid_icon : string) (l acc : list string) :
  foldl (fun suggestions available =>
           if PyStr.contains invalid_icon available
              || PyStr.contains available invalid_icon
           then suggestions ++ [available]
           else if negb (Qle_bool (ValidateUsage._words_similarity invalid_icon available)
                                  (1 # 2))
                then suggestions ++ [available]
                else suggestions)
        acc l
  = acc ++ List.filter (close_to invalid_icon) l.
Proof.
  revert acc. induction l as [|a l IH]; intros acc; cbn [foldl List.filter].
  - by rewrite app_nil_r.
  - unfold close_to at 1.
    destruct (PyStr.contains invalid_icon a || PyStr.contains a invalid_icon) eqn:Hsub;
      cbn [orb].
    + rewrite IH. by rewrite <- app_assoc.
    + destruct (negb _); rewrite IH; [by rewrite <- app_assoc|done].
Qed.

Lemma suggest_corrections_filter (self : ValidateUsage.validator) (invalid_icon : string) :
  ValidateUsage.suggest_corrections self invalid_icon
  = take 5 (List.filter (close_to invalid_icon) (ValidateUsage.available_icons self)).
Proof.
  unfold ValidateUsage.suggest_corrections. by rewrite suggest_loop_filter.
Qed.

Lemma filter_NoDup_bool {A} (p : A -> bool) (l : list A) :
  NoDup l -> NoDup (List.filter p l).
Proof.
  induction 1 as [|x l Hx Hl IH]; cbn [List.filter]; [constructor|].
  destruct (p x); [|done]. constructor; [|done].
  intros Hin. apply Hx. apply list_elem_of_In in Hin. apply filter_In in Hin as [Hin _].
  by apply list_elem_of_In.
Qed.

Lemma take_NoDup {A} (n : nat) (l : list A) : NoDup l -> NoDup (take n l).
Proof.
  intros Hl. rewrite <- (take_drop n l) in Hl. by apply NoDup_app in Hl as [? _].
Qed.

Lemma append_new_loop (p : string -> bool) (l acc : list string) :
  NoDup l ->
  foldl (fun suggestions icon =>
           if p icon then CheckExamples.append_new suggestions icon else suggestions)
        acc l
  = acc ++ filter (fun icon => p icon = true /\ icon ∉ acc) l.
Proof.
  intros Hl. revert acc. induction Hl as [|x l Hx Hl IH]; intros acc; cbn [foldl].
  - by rewrite app_nil_r.
  - assert (forall acc' : list string,
               (forall i, i ∈ l -> i ∉ acc' <-> i ∉ acc) ->
               filter (fun icon => p icon = true /\ icon ∉ acc') l
               = filter (fun icon => p icon = true /\ icon ∉ acc) l) as Hext.
    { intros acc' Hacc. clear IH Hx Hl. induction l as [|y l IHl]; [done|].
      assert (forall i, i ∈ l -> i ∉ acc' <-> i ∉ acc) as Hl
          by (intros i Hi; apply Hacc; by apply list_elem_of_further).
      specialize (Hacc y (list_elem_of_here _ _)).
      destruct (decide (p y = true /\ y ∉ acc)) as [Hy|Hy].
      - rewrite !filter_cons_True by tauto. by rewrite IHl.
      - rewrite !filter_cons_False by tauto. by apply IHl. }
    destruct (p x) eqn:Hp; unfold CheckExamples.append_new.
    + case_bool_decide as Hin.
      * rewrite IH. by rewrite filter_cons_False by tauto.
      * rewrite IH, filter_cons_True by done. rewrite <- app_assoc. cbn [app].
        do 2 f_equal. apply Hext. intros i Hi.
        rewrite not_elem_of_app, list_elem_of_singleton. split; [tauto|].
        intros Hacc. split; [done|]. by intros ->.
    + rewrite IH. rewrite filter_cons_False; [done|]. rewrite Hp. by intros [? _].
Qed.

Lemma suggest_similar_icons_ranks (invalid_icon : string) (available_icons : list string) :
  NoDup available_icons ->
  CheckExamples.suggest_similar_icons invalid_icon available_icons
  = take 5 (synonyms invalid_icon available_icons
            ++ substring_matches invalid_icon available_icons
            ++ word_matches invalid_icon available_icons).
Proof.
  intros Hnd. unfold CheckExamples.suggest_similar_icons. f_equal.
  assert (match PyDict.get invalid_icon CheckExamples.common_mappings with
          | Some mapped => [] ++ filter (fun icon => icon ∈ available_icons) mapped
          | None => []
          end = synonyms invalid_icon available_icons) as ->.
  { unfold synonyms. by destruct (PyDict.get _ _). }
  rewrite !append_new_loop by done. by rewrite <- app_assoc.
Qed.

Lemma common_mappings_distinct :
  Forall (fun entry => NoDup (snd entry)) CheckExamples.common_mappings.
Proof. apply (bool_decide_unpack _). vm_compute. exact I. Qed.

Lemma synonyms_NoDup (invalid_icon : string) (available_icons : list string) :
  NoDup (synonyms invalid_icon available_icons).
Proof.
  unfold synonyms. apply NoDup_filter.
  destruct (PyDict.get _ _) as [mapped|] eqn:Hget; [|constructor].
  apply dict_get_elem_of in Hget.
  pose proof common_mappings_distinct as Hall. rewrite Forall_forall in Hall.
  apply (Hall _ Hget).
Qed.

Lemma ranks_NoDup (invalid_icon : string) (available_icons : list string) :
  NoDup available_icons ->
  NoDup (synonyms invalid_icon available_icons
         ++ substring_matches invalid_icon available_icons
         ++ word_matches invalid_icon available_icons).
Proof.
  intros Hnd. rewrite app_assoc. apply NoDup_app. split_and!.
  - apply NoDup_app. split_and!.
    + apply synonyms_NoDup.
    + intros x Hx [[_ Hnot] _]%list_elem_of_filter. done.
    + by apply NoDup_filter.
  - intros x Hx [[_ Hnot] _]%list_elem_of_filter. done.
  - by apply NoDup_filter.
Qed.

End Suggestions.

Section Similarity.
Import SuggestionSpec.

Lemma split_on_nonempty (sep : ascii) (s : string) : PyStr.split_on sep s <> [].
Proof.
  destruct s as [|c s]; cbn [PyStr.split_on]; [done|].
  destruct (Ascii.eqb c sep); [done|]. by destruct (PyStr.split_on sep s).
Qed.

Lemma words_nonempty (name : string) : words name <> [].
Proof.
  unfold words. intros Hnil.
  destruct (PyStr.split_on "-" name) as [|w ws] eqn:Hs; [by apply split_on_nonempty in Hs|].
  assert (w ∈ remove_dups (w :: ws)) as Hw by (apply elem_of_remove_dups, list_elem_of_here).
  rewrite Hnil in Hw. by apply elem_of_nil in Hw.
Qed.

Lemma words_similarity_ratio (name1 name2 : string) :
  ValidateUsage._words_similarity name1 name2
  = (Z.of_nat (length (list_intersection (words name1) (words name2)))
     # Pos.of_nat (length (list_union (words name1) (words name2))))%Q.
Proof.
  unfold ValidateUsage._words_similarity. fold (words name1) (words name2).
  pose proof (words_nonempty name1). pose proof (words_nonempty name2).
  by destruct (words name1), (words name2).
Qed.

(** The similarity exceeds one half exactly when the common words are
    more than half of all the words. *)
Lemma similarity_above_half (name1 name2 : string) :
  negb (Qle_bool (ValidateUsage._words_similarity name1 name2) (1 # 2)) = true
  <-> length (list_union (words name1) (words name2))
      < 2 * length (list_intersection (words name1) (words name2)).
Proof.
  rewrite words_similarity_ratio, negb_true_iff, <- not_true_iff_false, Qle_bool_iff.
  unfold Qle. cbn [Qnum Qden].
  assert (length (list_union (words name1) (words name2)) <> 0) as Hunion.
  { unfold list_union. rewrite length_app.
    pose proof (words_nonempty name2). destruct (words name2); [done|]. cbn. lia. }
  rewrite <- (positive_nat_Z (Pos.of_nat _)), Nat2Pos.id by done. lia.
Qed.

End Similarity.

Section SuggestionClaim.
Import SuggestionSpec ValidatorSpec.

Lemma scan_line_literal (line_num : nat) (line : ValidateUsage.source_line)
    (literal : string) :
  literal ∈ ValidateUsage.literals line ->
  ValidateUsage._looks_like_icon_name literal = true ->
  (literal, line_num) ∈ ValidateUsage.scan_line line_num line.
Proof.
  intros Hin Hlooks. unfold ValidateUsage.scan_line. apply elem_of_app. left.
  apply list_elem_of_fmap. exists literal. split; [done|].
  by apply list_elem_of_filter.
Qed.

(** C2 (amended): a literal ["edit"] in a scanned file is a candidate, and
    when [edit] is not an available name the usage validator flags it as
    invalid and reports for it the suggestions of [suggest_corrections]:
    the first 5, in the order in which the available set is enumerated,
    of the available names that contain the candidate, are contained in
    it, or share more than half of their hyphen-separated words with it;
    they are distinct, and no synonym table is consulted.  The synonym
    table belongs to the example checker: [suggest_similar_icons] gives
    at most 5 distinct suggestions, first the synonyms of the table that
    are available, in the order of the table, then the names that contain
    the candidate or are contained in it, then the names that share a
    hyphen-separated word with it; for [edit] the list begins with pencil,
    pen, square-pen when these three are available. *)
Theorem suggestions_of_validators :
  (forall line_num line,
      "edit" ∈ ValidateUsage.literals line ->
      ("edit", line_num) ∈ ValidateUsage.scan_line line_num line)
  /\ (forall (list_of_set : list string -> list string) (root : path)
             (source : ValidateUsage.icon_source)
             (examples tests : option (list ValidateUsage.source_file))
             (loaded : ValidateUsage.validator),
         ValidateUsage.load_available_icons list_of_set (ValidateUsage.init root) source
         = (true, loaded) ->
         "edit" ∈ candidates examples tests ->
         "edit" ∉ ValidateUsage.available_icons loaded ->
         exists rep self' usages,
           ValidateUsage.run_validation list_of_set (ValidateUsage.init root) source
                                        examples tests
           = (false, Some rep, self')
           /\ ValidateUsage.available_icons self' = ValidateUsage.available_icons loaded
           /\ ("edit", usages, ValidateUsage.suggest_corrections self' "edit")
              ∈ ValidateUsage.invalid_entries rep)
  /\ (forall (self : ValidateUsage.validator) (invalid_icon : string),
         ValidateUsage.suggest_corrections self invalid_icon
         = take 5 (List.filter (close_to invalid_icon)
                               (ValidateUsage.available_icons self))
         /\ length (ValidateUsage.suggest_corrections self invalid_icon) <= 5
         /\ (NoDup (ValidateUsage.available_icons self) ->
             NoDup (ValidateUsage.suggest_corrections self invalid_icon)))
  /\ (forall invalid_icon available,
         close_to invalid_icon available = true
         <-> PyStr.contains invalid_icon available = true
             \/ PyStr.contains available invalid_icon = true
             \/ length (list_union (words invalid_icon) (words available))
                < 2 * length (list_intersection (words invalid_icon) (words available)))
  /\ (forall (invalid_icon : string) (available_icons : list string),
         NoDup available_icons ->
         CheckExamples.suggest_similar_icons invalid_icon available_icons
         = take 5 (synonyms invalid_icon available_icons
                   ++ substring_matches invalid_icon available_icons
                   ++ word_matches invalid_icon available_icons)
         /\ length (CheckExamples.suggest_similar_icons invalid_icon available_icons) <= 5
         /\ NoDup (CheckExamples.suggest_similar_icons invalid_icon available_icons))
  /\ (forall available_icons : list string,
         NoDup available_icons ->
         "pencil" ∈ available_icons -> "pen" ∈ available_icons ->
         "square-pen" ∈ available_icons ->
         exists rest,
           CheckExamples.suggest_similar_icons "edit" available_icons
           = ["pencil"; "pen"; "square-pen"] ++ rest).
Proof.
  split_and!.
  - intros line_num line Hin. by apply scan_line_literal.
  - intros list_of_set root source examples tests loaded Hload Hcand Hnot.
    destruct (run_validation_loaded list_of_set root source examples tests loaded Hload)
      as (rep & self' & Hrun & Ha & -> & Hinv).
    rewrite bool_decide_eq_false_2 in Hrun.
    2:{ rewrite Forall_forall. intros Hall. by apply Hnot, Hall. }
    assert ("edit" ∈ PyDict.keys (ValidateUsage.invalid_icons self')) as Hedit
        by (by apply Hinv).
    apply list_elem_of_fmap in Hedit as ([k usages] & Hk & Hin). cbn in Hk. subst k.
    exists (ValidateUsage.print_report self'), self', usages. split_and!; [done|done|].
    unfold ValidateUsage.print_report. cbn [ValidateUsage.invalid_entries].
    apply list_elem_of_fmap. by exists ("edit", usages).
  - intros self invalid_icon. rewrite suggest_corrections_filter. split_and!.
    + done.
    + rewrite length_take. lia.
    + intros Hnd. by apply take_NoDup, filter_NoDup_bool.
  - intros invalid_icon available. unfold close_to.
    rewrite !orb_true_iff, similarity_above_half. tauto.
  - intros invalid_icon available_icons Hnd.
    rewrite suggest_similar_icons_ranks by done. split_and!.
    + done.
    + rewrite length_take. lia.
    + by apply take_NoDup, ranks_NoDup.
  - intros available_icons Hnd Hpencil Hpen Hsquare.
    rewrite suggest_similar_icons_ranks by done.
    assert (synonyms "edit" available_icons = ["pencil"; "pen"; "square-pen"]) as ->.
    { unfold synonyms.
      change (default [] (PyDict.get "edit" CheckExamples.common_mappings))
        with ["pencil"; "pen"; "square-pen"].
      by rewrite !filter_cons_True by done. }
    eexists. reflexivity.
Qed.

End SuggestionClaim.

Section SuggestionExamples.
Import SuggestionSpec ValidatorSpec.

Lemma suggestions_of_validators_witness :
  (exists rep self' usages,
      ValidateUsage.run_validation (fun l => l) (ValidateUsage.init ["project"])
        (ValidateUsage.StringsHeader (Some ["pencil"; "pen"; "square-pen"]))
        (Some [("examples/main.cpp", Some [ValidateUsage.SourceLine ["edit"] []])])
        None
      = (false, Some rep, self')
      /\ ValidateUsage.available_icons self' = ["pencil"; "pen"; "square-pen"]
      /\ ("edit", usages, ValidateUsage.suggest_corrections self' "edit")
         ∈ ValidateUsage.invalid_entries rep)
  /\ (exists rest,
         CheckExamples.suggest_similar_icons "edit"
           ["pen"; "edit-3"; "square-pen"; "pencil"]
         = ["pencil"; "pen"; "square-pen"] ++ rest).
Proof.
  destruct suggestions_of_validators as (_ & Hflag & _ & _ & _ & Hedit). split.
  - apply (Hflag (fun l => l) ["project"]
             (ValidateUsage.StringsHeader (Some ["pencil"; "pen"; "square-pen"]))
             (Some [("examples/main.cpp", Some [ValidateUsage.SourceLine ["edit"] []])])
             None _ eq_refl).
    + apply (bool_decide_unpack _). vm_compute. exact I.
    + apply (bool_decide_unpack _). vm_compute. exact I.
  - apply Hedit; apply (bool_decide_unpack _); vm_compute; exact I.
Defined.

(** The usage validator on a file that uses ["edit"], with pencil, pen
    and square-pen available: [edit] is reported as invalid, without
    any suggestion. *)
Lemma edit_without_synonyms :
  exists self',
    ValidateUsage.run_validation (fun l => l) (ValidateUsage.init ["project"])
      (ValidateUsage.StringsHeader (Some ["pencil"; "pen"; "square-pen"]))
      (Some [("examples/main.cpp", Some [ValidateUsage.SourceLine ["edit"] []])])
      None
    = (false,
       Some (ValidateUsage.Report 3 1 1 [("edit", [("examples/main.cpp", 1)], [])]),
       self')
    /\ ValidateUsage.suggest_corrections self' "edit" = []
    /\ ~ (["pencil"; "pen"; "square-pen"]
          `prefix_of` ValidateUsage.suggest_corrections self' "edit").
Proof.
  eexists. split_and!; [vm_compute; reflexivity|reflexivity|].
  intros [rest Hrest]. vm_compute in Hrest. discriminate Hrest.
Qed.

End SuggestionExamples.

(** ** A missing metadata store *)
Section MissingStore.

Lemma read_text_missing (p : path) (w : world) :
  files w !! p = None -> Py.is_dir w p = false ->
  Py.read_text p w = (inl (FileNotFoundError p), w).
Proof. intros Hfile Hdir. unfold Py.read_text. by rewrite Hfile, Hdir. Qed.

(** C9: when icons.json is missing, the header generator and the
    manifest generator both end with exit status 1 and a traceback of
    [FileNotFoundError] that names the missing file; no catalog is made
    up, and the files, the directories and the printed output are what
    they were before the run. *)
Theorem missing_metadata_store
    (json_load : string -> option json) (program metadata_dir : string) (w : world) :
  files w !! (Py.of_path metadata_dir ++ ["icons.json"]) = None ->
  Py.is_dir w (Py.of_path metadata_dir ++ ["icons.json"]) = false ->
  (forall output_dir,
      Py.run (GenerateHeaders.main json_load [program; metadata_dir; output_dir]) w
      = Py.Outcome 1 (Some (FileNotFoundError (Py.of_path metadata_dir ++ ["icons.json"]))) w)
  /\ (forall svg_dir output_file,
         Py.run (GenerateQrc.main json_load [program; metadata_dir; svg_dir; output_file]) w
         = Py.Outcome 1 (Some (FileNotFoundError (Py.of_path metadata_dir ++ ["icons.json"]))) w).
Proof.
  intros Hfile Hdir. split.
  - intros output_dir. unfold Py.run, GenerateHeaders.main.
    rewrite (bind_inl _ _ w w (FileNotFoundError (Py.of_path metadata_dir ++ ["icons.json"])));
      [done|].
    unfold GenerateHeaders.load_metadata, GenerateHeaders.init.
    cbn [GenerateHeaders.metadata_dir].
    by rewrite (bind_inl _ _ w w _ (read_text_missing _ _ Hfile Hdir)).
  - intros svg_dir output_file. unfold Py.run, GenerateQrc.main.
    rewrite (bind_inl _ _ w w (FileNotFoundError (Py.of_path metadata_dir ++ ["icons.json"])));
      [done|].
    unfold GenerateQrc.load_metadata, GenerateQrc.init.
    cbn [GenerateQrc.metadata_dir].
    by rewrite (bind_inl _ _ w w _ (read_text_missing _ _ Hfile Hdir)).
Qed.

Lemma missing_metadata_store_witness :
  let w := World {[ ["include"; "QtLucideEnums.h"] := "old" ]} {[ ["include"] ]} [] in
  Py.run (GenerateHeaders.main (fun _ => None)
            ["generate_headers.py"; "resources/icons/metadata"; "include"]) w
  = Py.Outcome 1 (Some (FileNotFoundError ["resources"; "icons"; "metadata"; "icons.json"])) w.
Proof.
  intros w.
  apply (proj1 (missing_metadata_store (fun _ => None) "generate_headers.py"
                  "resources/icons/metadata" w eq_refl eq_refl)).
Defined.

End MissingStore.

(** ** The metadata store *)
Section Store.
Import Metadata StoreSpec.

Lemma store_count (icons_data : list (string * icon)) : count_matches (store icons_data).
Proof.
  exists (map (fun kv => (fst kv, icon_json (snd kv))) icons_data).
  split; [reflexivity|]. cbn. by rewrite length_map.
Qed.

Lemma metadata_paths_differ (dir : path) (a b : string) :
  a <> b -> dir ++ [a] <> dir ++ [b].
Proof. intros Hne Heq. apply app_inv_head in Heq. congruence. Qed.

(** The three files of the metadata directory, written in place. *)
Lemma write_three (dir : path) (t1 t2 t3 : string) (w : world) :
  Py.is_dir w dir = true ->
  Py.is_dir w (dir ++ ["icons.json"]) = false ->
  Py.is_dir w (dir ++ ["categories.json"]) = false ->
  Py.is_dir w (dir ++ ["tags.json"]) = false ->
  exists w',
    (Py.write_text (dir ++ ["icons.json"]) t1;;
     Py.write_text (dir ++ ["categories.json"]) t2;;
     Py.write_text (dir ++ ["tags.json"]) t3) w = (inr tt, w')
    /\ files w' !! (dir ++ ["icons.json"]) = Some t1
    /\ files w' !! (dir ++ ["categories.json"]) = Some t2
    /\ files w' !! (dir ++ ["tags.json"]) = Some t3
    /\ dirs w' = dirs w /\ stdout w' = stdout w.
Proof.
  intros Hdir H1 H2 H3.
  set (w1 := World (<[dir ++ ["icons.json"] := t1]> (files w)) (dirs w) (stdout w)).
  set (w2 := World (<[dir ++ ["categories.json"] := t2]> (files w1)) (dirs w1) (stdout w1)).
  set (w3 := World (<[dir ++ ["tags.json"] := t3]> (files w2)) (dirs w2) (stdout w2)).
  exists w3. split_and!.
  - rewrite (bind_inr _ _ w w1 tt)
      by (apply write_text_inr; [done|by rewrite parent_snoc]).
    rewrite (bind_inr _ _ w1 w2 tt)
      by (apply write_text_inr; [done|by rewrite parent_snoc]).
    apply write_text_inr; [done|by rewrite parent_snoc].
  - cbn [w3 w2 w1 files]. rewrite !lookup_insert_ne by (by apply metadata_paths_differ).
    apply lookup_insert_eq.
  - cbn [w3 w2 files]. rewrite lookup_insert_ne by (by apply metadata_paths_differ).
    apply lookup_insert_eq.
  - apply lookup_insert_eq.
  - done.
  - done.
Qed.

End Store.

Section StoreRuns.
Import Metadata StoreSpec.

Lemma bind_write_text {B} (p : path) (text : string) (k : unit -> Py.M B) (w : world) :
  Py.is_dir w p = false -> Py.is_dir w (Py.parent p) = true ->
  (Py.write_text p text ≫= k) w
  = k tt (World (<[p := text]> (files w)) (dirs w) (stdout w)).
Proof. intros Hp Hparent. apply bind_inr. by apply write_text_inr. Qed.

Lemma bind_print {B} (line : string) (k : unit -> Py.M B) (w : world) :
  (Py.print line ≫= k) w = k tt (World (files w) (dirs w) (stdout w ++ [line])).
Proof. by apply bind_inr. Qed.

(** The resource builder writes the store of the catalog it made. *)
Lemma builder_writes_store (list_of_set : list string -> list string)
    (glob_stems : list string) (self : BuildResources.builder) (w : world) :
  Py.is_dir w (BuildResources.metadata_dir self) = true ->
  Py.is_dir w (BuildResources.metadata_dir self ++ ["icons.json"]) = false ->
  Py.is_dir w (BuildResources.metadata_dir self ++ ["categories.json"]) = false ->
  Py.is_dir w (BuildResources.metadata_dir self ++ ["tags.json"]) = false ->
  let icons_data :=
    BuildResources.icons_of list_of_set
      (if Py.path_exists w (BuildResources.svg_dir self) then glob_stems else []) in
  exists w',
    BuildResources.generate_metadata_from_svg list_of_set glob_stems self w
    = (inr icons_data, w')
    /\ files w' !! (BuildResources.metadata_dir self ++ ["icons.json"])
       = Some (Json.dumps (store icons_data)).
Proof.
  intros Hdir H1 H2 H3 icons_data.
  unfold BuildResources.generate_metadata_from_svg,
    BuildResources._generate_categories_and_tags.
  unfold mbind at 1, py_bind, Py.bind at 1, BuildResources.scan_svg_files.
  subst icons_data.
  destruct (Py.path_exists w (BuildResources.svg_dir self));
    rewrite bind_print; unfold mret, py_ret, Py.ret.
  all: rewrite bind_write_text by (try done; by rewrite parent_snoc).
  all: unfold mbind at 1, py_bind, Py.bind at 1.
  all: rewrite bind_write_text by (try done; by rewrite parent_snoc).
  all: rewrite write_text_inr by (try done; by rewrite parent_snoc).
  all: rewrite bind_print.
  all: eexists; split; [reflexivity|]; cbn [files].
  all: rewrite !lookup_insert_ne by (by apply metadata_paths_differ).
  all: apply lookup_insert_eq.
Qed.

(** The Lucide import writes the store of the catalog it made. *)
Lemma import_writes_store (self : ProcessLucide.processor) (w : world) :
  let metadata := ProcessLucide.output_dir self ++ ["metadata"] in
  Py.is_dir w metadata = true ->
  Py.is_dir w (metadata ++ ["icons.json"]) = false ->
  Py.is_dir w (metadata ++ ["categories.json"]) = false ->
  Py.is_dir w (metadata ++ ["tags.json"]) = false ->
  exists w',
    ProcessLucide.generate_metadata self w = (inr tt, w')
    /\ files w' !! (metadata ++ ["icons.json"])
       = Some (Json.dumps (store (ProcessLucide.icons_data self))).
Proof.
  intros metadata Hdir H1 H2 H3. subst metadata.
  unfold ProcessLucide.generate_metadata.
  rewrite bind_write_text by (try done; by rewrite parent_snoc).
  rewrite bind_write_text by (try done; by rewrite parent_snoc).
  rewrite bind_write_text by (try done; by rewrite parent_snoc).
  rewrite !bind_print.
  eexists; split; [reflexivity|]; cbn [files].
  rewrite !lookup_insert_ne by (by apply metadata_paths_differ).
  apply lookup_insert_eq.
Qed.

End StoreRuns.

Section StoreClaim.
Import Metadata StoreSpec.

(** C10: in the store that either metadata writer puts into icons.json,
    the [count] member is the number of members of the [icons] object;
    for an empty catalog the count is 0 and [icons] is empty. *)
Theorem store_count_invariant :
  (forall icons_data : list (string * icon), count_matches (store icons_data))
  /\ store [] = JObj [("icons", JObj []); ("count", JNum 0); ("version", JStr "1.0.0")]
  /\ (forall (list_of_set : list string -> list string) (glob_stems : list string)
             (self : BuildResources.builder) (w : world),
         Py.is_dir w (BuildResources.metadata_dir self) = true ->
         Py.is_dir w (BuildResources.metadata_dir self ++ ["icons.json"]) = false ->
         Py.is_dir w (BuildResources.metadata_dir self ++ ["categories.json"]) = false ->
         Py.is_dir w (BuildResources.metadata_dir self ++ ["tags.json"]) = false ->
         exists icons_data w',
           BuildResources.generate_metadata_from_svg list_of_set glob_stems self w
           = (inr icons_data, w')
           /\ files w' !! (BuildResources.metadata_dir self ++ ["icons.json"])
              = Some (Json.dumps (store icons_data))
           /\ count_matches (store icons_data)
           /\ (Py.path_exists w (BuildResources.svg_dir self) = false ->
               icons_data = []))
  /\ (forall (self : ProcessLucide.processor) (w : world),
         Py.is_dir w (ProcessLucide.output_dir self ++ ["metadata"]) = true ->
         Py.is_dir w (ProcessLucide.output_dir self ++ ["metadata"] ++ ["icons.json"])
         = false ->
         Py.is_dir w (ProcessLucide.output_dir self ++ ["metadata"] ++ ["categories.json"])
         = false ->
         Py.is_dir w (ProcessLucide.output_dir self ++ ["metadata"] ++ ["tags.json"])
         = false ->
         exists w',
           ProcessLucide.generate_metadata self w = (inr tt, w')
           /\ files w' !! (ProcessLucide.output_dir self ++ ["metadata"] ++ ["icons.json"])
              = Some (Json.dumps (store (ProcessLucide.icons_data self)))
           /\ count_matches (store (ProcessLucide.icons_data self))).
Proof.
  split_and!.
  - apply store_count.
  - reflexivity.
  - intros list_of_set glob_stems self w Hdir H1 H2 H3.
    destruct (builder_writes_store list_of_set glob_stems self w Hdir H1 H2 H3)
      as (w' & Hrun & Hfile).
    eexists _, w'. split_and!; [exact Hrun|exact Hfile|apply store_count|].
    by intros ->.
  - intros self w Hdir H1 H2 H3. rewrite !app_assoc in *.
    destruct (import_writes_store self w Hdir H1 H2 H3) as (w' & Hrun & Hfile).
    exists w'. split_and!; [done|done|apply store_count].
Qed.

Lemma store_count_invariant_witness :
  let self := BuildResources.Builder [] ["resources"; "icons"; "svg"]
                ["resources"; "icons"; "metadata"] ["include"; "QtLucide"] in
  let w := World ∅ {[ ["resources"; "icons"; "metadata"] ]} [] in
  (exists icons_data w',
      BuildResources.generate_metadata_from_svg (fun l => l) ["zebra"] self w
      = (inr icons_data, w')
      /\ files w' !! ["resources"; "icons"; "metadata"; "icons.json"]
         = Some (Json.dumps (store icons_data))
      /\ count_matches (store icons_data)
      /\ (Py.path_exists w ["resources"; "icons"; "svg"] = false -> icons_data = []))
  /\ exists w',
       ProcessLucide.generate_metadata (ProcessLucide.Processor ["lucide"] ["resources"; "icons"] [])
         w = (inr tt, w')
       /\ files w' !! ["resources"; "icons"; "metadata"; "icons.json"]
          = Some (Json.dumps (store []))
       /\ count_matches (store []).
Proof.
  intros self w.
  destruct store_count_invariant as (_ & _ & Hbuilder & Himport). split.
  - apply (Hbuilder (fun l => l) ["zebra"] self w); vm_compute; reflexivity.
  - apply (Himport (ProcessLucide.Processor ["lucide"] ["resources"; "icons"] []) w);
      vm_compute; reflexivity.
Defined.

End StoreClaim.

(** ** Repeated runs *)
Section Determinism.
Import RunSpec.

Lemma icons_of_keys (list_of_set : list string -> list string) (glob_stems : list string) :
  NoDup glob_stems ->
  PyDict.keys (BuildResources.icons_of list_of_set glob_stems) = glob_stems.
Proof.
  intros Hnd. unfold BuildResources.icons_of.
  rewrite (dict_fill_keys
             (fun n => Metadata.Icon n ("svg/" +:+ n +:+ ".svg")
                         (BuildResources._generate_tags_from_name list_of_set n)
                         (BuildResources._categorize_icon n) [])); done.
Qed.

Lemma icons_of_ext (f g : list string -> list string) (glob_stems : list string) :
  (forall l, f l = g l) ->
  BuildResources.icons_of f glob_stems = BuildResources.icons_of g glob_stems.
Proof.
  intros Hfg. unfold BuildResources.icons_of. generalize (@nil (string * Metadata.icon)).
  induction glob_stems as [|n l IH]; intros d; [done|]. cbn [foldl].
  rewrite IH. do 3 f_equal. unfold BuildResources._generate_tags_from_name. apply Hfg.
Qed.

Lemma strings_header_order_irrelevant (keys1 keys2 : list string) :
  keys1 ≡ₚ keys2 ->
  GenerateHeaders.strings_header keys1 = GenerateHeaders.strings_header keys2.
Proof.
  intros Hp. unfold GenerateHeaders.strings_header, GenerateHeaders.string_entries,
    GenerateHeaders.string_pairs.
  by rewrite (sorted_order_irrelevant _ _ Hp).
Qed.

Lemma enums_header_order_irrelevant (keys1 keys2 : list string) :
  keys1 ≡ₚ keys2 ->
  GenerateHeaders.enums_header keys1 (length keys1)
  = GenerateHeaders.enums_header keys2 (length keys2).
Proof.
  intros Hp. unfold GenerateHeaders.enums_header.
  by rewrite (enum_values_order_irrelevant _ _ Hp), Hp.
Qed.

(** C3 (amended): for a fixed set of input file names, the enumeration
    header and the lookup-table header are the same text in every run,
    whatever the order of the directory scan and whatever the order in
    which the interpreter enumerates sets; icons.json is the same text
    in two runs that scan the files in the same order and enumerate the
    tag sets in the same order. *)
Theorem generation_deterministic
    (list_of_set1 list_of_set2 : list string -> list string)
    (glob_stems1 glob_stems2 : list string) :
  NoDup glob_stems1 ->
  glob_stems1 ≡ₚ glob_stems2 ->
  enums_text list_of_set1 glob_stems1 = enums_text list_of_set2 glob_stems2
  /\ strings_text list_of_set1 glob_stems1 = strings_text list_of_set2 glob_stems2
  /\ (glob_stems1 = glob_stems2 ->
      (forall l, list_of_set1 l = list_of_set2 l) ->
      icons_json_text list_of_set1 glob_stems1 = icons_json_text list_of_set2 glob_stems2).
Proof.
  intros Hnd1 Hp.
  assert (NoDup glob_stems2) as Hnd2 by (by rewrite <- Hp).
  unfold enums_text, strings_text, icons_json_text.
  rewrite !icons_of_keys by done. split_and!.
  - by apply enums_header_order_irrelevant.
  - by apply strings_header_order_irrelevant.
  - intros <- Hext. by rewrite (icons_of_ext _ _ _ Hext).
Qed.

Lemma generation_deterministic_witness :
  enums_text (fun l => remove_dups l) ["zebra"; "arrow-left"]
  = enums_text (fun l => reverse (remove_dups l)) ["arrow-left"; "zebra"]
  /\ strings_text (fun l => remove_dups l) ["zebra"; "arrow-left"]
     = strings_text (fun l => reverse (remove_dups l)) ["arrow-left"; "zebra"].
Proof.
  destruct (generation_deterministic (fun l => remove_dups l)
              (fun l => reverse (remove_dups l))
              ["zebra"; "arrow-left"] ["arrow-left"; "zebra"]) as (He & Hs & _).
  - apply (bool_decide_unpack _). vm_compute. exact I.
  - apply perm_swap.
  - exact (conj He Hs).
Defined.

(** Two runs over the same file names whose icons.json differ: once
    because the directory is scanned in another order, once because the
    interpreter enumerates the tag set in another order. *)
Lemma icons_json_depends_on_order :
  set_order (fun l => remove_dups l)
  /\ set_order (fun l => reverse (remove_dups l))
  /\ ["zebra"; "arrow-left"] ≡ₚ ["arrow-left"; "zebra"]
  /\ icons_json_text (fun l => remove_dups l) ["zebra"; "arrow-left"]
     <> icons_json_text (fun l => remove_dups l) ["arrow-left"; "zebra"]
  /\ icons_json_text (fun l => remove_dups l) ["arrow-left"]
     <> icons_json_text (fun l => reverse (remove_dups l)) ["arrow-left"].
Proof.
  split_and!.
  - by intros l.
  - intros l. apply reverse_Permutation.
  - apply perm_swap.
  - vm_compute. discriminate.
  - vm_compute. discriminate.
Qed.

End Determinism.

(** ** What the header generator writes *)
Section HeaderRuns.

(** With a catalog loaded, [generate_enums_header] writes the text whose
    count constant is the number of records of the catalog. *)
Lemma generate_enums_header_writes (self : GenerateHeaders.generator)
    (members : list (string * json)) (w : world) :
  GenerateHeaders.icons_data self = JObj members ->
  Py.is_dir w (GenerateHeaders.output_dir self) = true ->
  Py.is_dir w (GenerateHeaders.output_dir self ++ ["QtLucideEnums.h"]) = false ->
  exists w',
    GenerateHeaders.generate_enums_header self w = (inr tt, w')
    /\ files w' !! (GenerateHeaders.output_dir self ++ ["QtLucideEnums.h"])
       = Some (GenerateHeaders.enums_header (PyDict.keys members) (length members))
    /\ dirs w' = dirs w.
Proof.
  intros Hdata Hdir Hfile. unfold GenerateHeaders.generate_enums_header.
  rewrite Hdata. cbn [py_keys py_len].
  rewrite (bind_inr _ _ w w (PyDict.keys members)) by done.
  rewrite (bind_inr _ _ w w (length members)) by done.
  rewrite bind_write_text by (try done; by rewrite parent_snoc).
  rewrite (bind_inr _ _ _ _ (length members)) by done.
  eexists. split_and!; [reflexivity| |done].
  cbn [files]. apply lookup_insert_eq.
Qed.

Lemma strings_template_mappings (content : string) :
  PyStr.replace "{{STRING_MAPPINGS}}" content GenerateHeaders._get_strings_header_template
  = HeaderLayout.strings_head +:+ content +:+ HeaderLayout.strings_tail.
Proof. vm_compute. reflexivity. Qed.

(** The text of [QtLucideStrings.h]: one initializer per name, in sorted
    order, between the fixed head and tail. *)
Lemma strings_header_layout (keys : list string) :
  GenerateHeaders.strings_header keys
  = HeaderLayout.strings_head
    +:+ PyStr.join ("," +:+ PyStr.newline) (GenerateHeaders.string_entries keys)
    +:+ HeaderLayout.strings_tail.
Proof. unfold GenerateHeaders.strings_header. apply strings_template_mappings. Qed.

End HeaderRuns.

(** ** The string primitives on examples *)
Section PrimitiveExamples.

Example contains_inside : PyStr.contains "row" "arrow-left" = true.
Proof. reflexivity. Qed.

Example contains_not : PyStr.contains "edit" "pencil" = false.
Proof. reflexivity. Qed.

Example contains_empty : PyStr.contains "" "" = true.
Proof. reflexivity. Qed.

Example split_on_hyphens :
  PyStr.split_on "-" "arrow--left-" = ["arrow"; ""; "left"; ""].
Proof. reflexivity. Qed.

Example split_ws_runs : PyStr.split_ws " arrow  left " = ["arrow"; "left"].
Proof. reflexivity. Qed.

Example replace_leftmost :
  PyStr.replace "{{X}}" "ab" "a{{{X}}{X}}{{X}}" = "a{ab{X}}ab".
Proof. reflexivity. Qed.

Example str_of_nat_120 : PyStr.str_of_nat 120 = "120".
Proof. reflexivity. Qed.

Example sorted_code_points :
  PyStr.sorted ["zebra"; "arrow-right"; "arrow-left"; "Arrow"; "arrow"]
  = ["Arrow"; "arrow"; "arrow-left"; "arrow-right"; "zebra"].
Proof. reflexivity. Qed.

Example tags_of_name :
  BuildResources._generate_tags_from_name (fun l => remove_dups l) "arrow-left"
  = ["arrow"; "left"; "navigation"].
Proof. reflexivity. Qed.

Example looks_like_edit : ValidateUsage._looks_like_icon_name "edit" = true.
Proof. reflexivity. Qed.

Example looks_like_excluded : ValidateUsage._looks_like_icon_name "arrow" = false.
Proof. reflexivity. Qed.

Example scenario_a_categories :
  map BuildResources._categorize_icon ["arrow-left"; "arrow-right"; "zebra"]
  = [["navigation"]; ["navigation"]; ["general"]].
Proof. reflexivity. Qed.

End PrimitiveExamples.

(** ** More on the symbols *)
Section Symbols.
Import GenerateHeaders.

Lemma sub_non_word_fixed (s : string) :
  PyStr.all_chars is_word_char s = true -> sub_non_word s = s.
Proof.
  unfold sub_non_word. induction s as [|c s IH]; [done|].
  cbn [PyStr.all_chars PyStr.map_chars]. intros [Hc Hs]%andb_true_iff.
  by rewrite Hc, IH.
Qed.

Lemma keywords_without_escape :
  forallb (fun k => negb (String.prefix "icon_" k)) cpp_keywords = true.
Proof. vm_compute. reflexivity. Qed.

Lemma escaped_not_keyword (s : string) : "icon_" +:+ s ∉ cpp_keywords.
Proof.
  intros Hin. pose proof keywords_without_escape as Hall.
  rewrite forallb_forall in Hall. apply list_elem_of_In in Hin.
  specialize (Hall _ Hin). apply negb_true_iff in Hall.
  assert (String.prefix "icon_" ("icon_" +:+ s) = true) as Hp
      by (apply prefix_spec; by exists s).
  congruence.
Qed.

Lemma name_to_enum_not_keyword (name : string) : _name_to_enum name ∉ cpp_keywords.
Proof.
  unfold _name_to_enum. case_bool_decide as Hk; [apply escaped_not_keyword|done].
Qed.

Lemma sub_leading_digit_head (s : string) (c : ascii) (rest : string) :
  sub_leading_digit s = String c rest -> PyStr.is_digit c = false.
Proof.
  unfold sub_leading_digit. destruct s as [|d s]; [done|].
  destruct (PyStr.is_digit d) eqn:Hd.
  - intros [= <- _]. reflexivity.
  - by intros [= <- _].
Qed.

Lemma name_to_enum_head (name : string) (c : ascii) (rest : string) :
  _name_to_enum name = String c rest -> PyStr.is_digit c = false.
Proof.
  unfold _name_to_enum. case_bool_decide as Hk.
  - intros [= <- _]. reflexivity.
  - apply sub_leading_digit_head.
Qed.




(** X2: Deriving the symbol of a symbol changes nothing. *)
Theorem name_to_enum_idempotent (name : string) :
  _name_to_enum (_name_to_enum name) = _name_to_enum name.
Proof.
  set (r := _name_to_enum name).
  assert (sub_non_word r = r) as Hsub by apply sub_non_word_fixed, name_to_enum_chars.
  assert (sub_leading_digit r = r) as Hdigit.
  { unfold sub_leading_digit. destruct r as [|c rest] eqn:Hr; [done|].
    by rewrite (name_to_enum_head name c rest Hr). }
  unfold _name_to_enum at 1. rewrite Hsub, Hdigit.
  rewrite bool_decide_eq_false_2; [done|]. apply name_to_enum_not_keyword.
Qed.

End Symbols.

(** ** The size of the symbol table *)
Section TableSize.
Import GenerateHeaders.








End TableSize.

(** ** The resource manifest *)
Section Manifest.
Import GenerateQrc QrcLayout.

Lemma qrc_template_entries (content : string) :
  PyStr.replace "{{FILE_ENTRIES}}" content _get_qrc_template
  = qrc_head +:+ content +:+ qrc_tail.
Proof. vm_compute. reflexivity. Qed.

(** X4: The manifest is the fixed head, one [<file>] line per name of the
    catalog, in lexicographic order of the names, and the fixed tail; the
    names are written as they are, and the text does not depend on the
    order of the catalog. *)
Theorem qrc_content_layout (keys keys' : list string) :
  qrc_content keys
  = qrc_head +:+ PyStr.join PyStr.newline (map file_entry (PyStr.sorted keys))
    +:+ qrc_tail
  /\ length (file_entries keys) = length keys
  /\ (keys ≡ₚ keys' -> qrc_content keys = qrc_content keys').
Proof.
  split_and!.
  - unfold qrc_content. apply qrc_template_entries.
  - unfold file_entries. by rewrite length_map, sorted_length.
  - intros Hp. unfold qrc_content, file_entries.
    by rewrite (sorted_order_irrelevant _ _ Hp).
Qed.

Lemma qrc_content_layout_witness :
  qrc_content ["zebra"; "arrow-left"] = qrc_content ["arrow-left"; "zebra"].
Proof.
  apply (proj2 (proj2 (qrc_content_layout ["zebra"; "arrow-left"] ["arrow-left"; "zebra"]))).
  apply perm_swap.
Defined.

End Manifest.

(** ** Runs of the two generators *)
Section GeneratorRuns.

Lemma mkdir_p_inr (p : path) (w : world) :
  (forall q, q ∈ Py.ancestors p -> Py.is_file w q = false) ->
  Py.mkdir_p p w
  = (inr tt, World (files w) (list_to_set (Py.ancestors p) ∪ dirs w) (stdout w)).
Proof.
  intros Hfree. unfold Py.mkdir_p.
  destruct (list_find _ _) as [[i q]|] eqn:Hfind; [|done].
  apply list_find_Some in Hfind as (Hq & Hfile & _).
  rewrite Hfree in Hfile; [done|]. by eapply list_elem_of_lookup_2.
Qed.

Lemma ancestors_length (p q : path) : q ∈ Py.ancestors p -> length q <= length p.
Proof.
  unfold Py.ancestors. intros (n & -> & _)%list_elem_of_fmap.
  rewrite length_take. lia.
Qed.

Lemma ancestors_self (p : path) : p <> [] -> p ∈ Py.ancestors p.
Proof.
  intros Hne. unfold Py.ancestors. apply list_elem_of_fmap.
  exists (length p). split; [by rewrite firstn_all|].
  apply list_elem_of_In, in_seq. destruct p; [done|]. cbn [length]. lia.
Qed.

Lemma is_dir_after_mkdir (p : path) (f : gmap path string) (d : gset path)
    (out : list string) :
  Py.is_dir (World f (list_to_set (Py.ancestors p) ∪ d) out) p = true.
Proof.
  unfold Py.is_dir. cbn [dirs]. apply bool_decide_eq_true.
  destruct p as [|part p]; [by left|]. right. right.
  apply elem_of_union. left. apply elem_of_list_to_set. by apply ancestors_self.
Qed.

Lemma is_dir_child_after_mkdir (p : path) (part : string) (w : world)
    (f : gmap path string) (out : list string) :
  Py.is_dir w (p ++ [part]) = false ->
  Py.is_dir (World f (list_to_set (Py.ancestors p) ∪ dirs w) out) (p ++ [part]) = false.
Proof.
  unfold Py.is_dir. cbn [dirs]. rewrite !bool_decide_eq_false.
  intros Hnot [?|[?|Hin]]; [tauto|tauto|].
  apply elem_of_union in Hin as [Hin|Hin]; [|tauto].
  apply elem_of_list_to_set, ancestors_length in Hin.
  rewrite length_app in Hin. cbn in Hin. lia.
Qed.

End GeneratorRuns.

Section HeaderMain.
Import GenerateHeaders.

Lemma read_text_inr (p : path) (text : string) (w : world) :
  files w !! p = Some text -> Py.read_text p w = (inr text, w).
Proof. intros H. unfold Py.read_text. by rewrite H. Qed.

Lemma py_getitem_member (data : json) (key : string) (v : json) (w : world) :
  Json.member key data = Some v -> py_getitem data key w = (inr v, w).
Proof.
  destruct data; try done. cbn [Json.member py_getitem]. by intros ->.
Qed.

Lemma load_metadata_inr (json_load : string -> option json) (self : generator)
    (w : world) (text : string) (data : json) (members : list (string * json)) :
  files w !! (metadata_dir self ++ ["icons.json"]) = Some text ->
  json_load text = Some data ->
  Json.member "icons" data = Some (JObj members) ->
  load_metadata json_load self w
  = (inr (Generator (metadata_dir self) (output_dir self) (JObj members)),
     World (files w) (dirs w)
           (stdout w ++ ["Loaded metadata for " +:+ PyStr.str_of_nat (length members)
                         +:+ " icons"])).
Proof.
  intros Hfile Hload Hicons. unfold load_metadata.
  rewrite (bind_inr _ _ w w text) by (by apply read_text_inr).
  rewrite Hload.
  rewrite (bind_inr _ _ w w (JObj members)) by (by apply py_getitem_member).
  cbn [icons_data py_len].
  rewrite (bind_inr _ _ w w (length members)) by done.
  by rewrite bind_print.
Qed.

Lemma generate_enums_header_inr (self : generator)
    (members : list (string * json)) (w : world) :
  icons_data self = JObj members ->
  Py.is_dir w (output_dir self) = true ->
  Py.is_dir w (output_dir self ++ ["QtLucideEnums.h"]) = false ->
  generate_enums_header self w
  = (inr tt,
     World (<[output_dir self ++ ["QtLucideEnums.h"]
              := enums_header (PyDict.keys members) (length members)]> (files w))
           (dirs w)
           (stdout w ++ ["Generated " +:+ Py.path_str (output_dir self ++ ["QtLucideEnums.h"])
                         +:+ " with " +:+ PyStr.str_of_nat (length members)
                         +:+ " enum values"])).
Proof.
  intros Hdata Hdir Hfile. unfold generate_enums_header.
  rewrite Hdata. cbn [py_keys py_len].
  rewrite (bind_inr _ _ w w (PyDict.keys members)) by done.
  rewrite (bind_inr _ _ w w (length members)) by done.
  rewrite bind_write_text by (try done; by rewrite parent_snoc).
  rewrite (bind_inr _ _ _ _ (length members)) by done.
  reflexivity.
Qed.

Lemma generate_strings_header_inr (self : generator)
    (members : list (string * json)) (w : world) :
  icons_data self = JObj members ->
  Py.is_dir w (output_dir self) = true ->
  Py.is_dir w (output_dir self ++ ["QtLucideStrings.h"]) = false ->
  generate_strings_header self w
  = (inr tt,
     World (<[output_dir self ++ ["QtLucideStrings.h"]
              := strings_header (PyDict.keys members)]> (files w))
           (dirs w)
           (stdout w ++ ["Generated "
                         +:+ Py.path_str (output_dir self ++ ["QtLucideStrings.h"])
                         +:+ " with " +:+ PyStr.str_of_nat (length members)
                         +:+ " string mappings"])).
Proof.
  intros Hdata Hdir Hfile. unfold generate_strings_header.
  rewrite Hdata. cbn [py_keys py_len].
  rewrite (bind_inr _ _ w w (PyDict.keys members)) by done.
  rewrite bind_write_text by (try done; by rewrite parent_snoc).
  rewrite (bind_inr _ _ _ _ (length members)) by done.
  reflexivity.
Qed.

(** X5: A run of the header generator on a store that holds an [icons]
    object: the output directory is made, the two headers are written
    with the texts of the catalog's names, nothing else is written, and
    the exit status is 0. *)
Theorem generate_headers_run (json_load : string -> option json)
    (program metadata_dir output_dir : string) (w : world)
    (text : string) (data : json) (members : list (string * json)) :
  let md := Py.of_path metadata_dir in
  let out := Py.of_path output_dir in
  files w !! (md ++ ["icons.json"]) = Some text ->
  json_load text = Some data ->
  Json.member "icons" data = Some (JObj members) ->
  (forall q, q ∈ Py.ancestors out -> Py.is_file w q = false) ->
  Py.is_dir w (out ++ ["QtLucideEnums.h"]) = false ->
  Py.is_dir w (out ++ ["QtLucideStrings.h"]) = false ->
  exists w',
    Py.run (main json_load [program; metadata_dir; output_dir]) w = Py.Outcome 0 None w'
    /\ files w'
       = <[out ++ ["QtLucideStrings.h"] := strings_header (PyDict.keys members)]>
           (<[out ++ ["QtLucideEnums.h"]
              := enums_header (PyDict.keys members) (length members)]> (files w))
    /\ dirs w' = list_to_set (Py.ancestors out) ∪ dirs w.
Proof.
  intros md out Hfile Hload Hicons Hfree Henums Hstrings.
  unfold Py.run, main, init.
  erewrite bind_inr; [|by eapply load_metadata_inr].
  unfold generate_headers. cbn [GenerateHeaders.output_dir].
  erewrite bind_inr; [|by apply mkdir_p_inr].
  erewrite bind_inr.
  2:{ apply (generate_enums_header_inr _ members); [done| |].
      - apply is_dir_after_mkdir.
      - by apply is_dir_child_after_mkdir. }
  erewrite bind_inr.
  2:{ apply (generate_strings_header_inr _ members); [done| |].
      - apply is_dir_after_mkdir.
      - by apply (is_dir_child_after_mkdir _ _ w). }
  eexists. split_and!; reflexivity.
Qed.

End HeaderMain.

Section HeaderMainExamples.
Import GenerateHeaders.

Lemma generate_headers_run_witness :
  let w := World {[ ["meta"; "icons.json"] := "{}" ]} ∅ [] in
  let load := fun _ : string => Some (JObj [("icons", JObj [("zebra", JObj [])])]) in
  exists w',
    Py.run (main load ["generate_headers.py"; "meta"; "include/QtLucide"]) w
    = Py.Outcome 0 None w'
    /\ files w'
       = <[["include"; "QtLucide"; "QtLucideStrings.h"] := strings_header ["zebra"]]>
           (<[["include"; "QtLucide"; "QtLucideEnums.h"] := enums_header ["zebra"] 1]>
              (files w))
    /\ dirs w' = list_to_set (Py.ancestors ["include"; "QtLucide"]) ∪ dirs w.
Proof.
  intros w load.
  apply (generate_headers_run load "generate_headers.py" "meta" "include/QtLucide" w "{}"
           (JObj [("icons", JObj [("zebra", JObj [])])]) [("zebra", JObj [])]).
  - reflexivity.
  - reflexivity.
  - reflexivity.
  - intros q Hq. apply list_elem_of_In in Hq. vm_compute in Hq.
    destruct Hq as [<-|[<-|[]]]; vm_compute; reflexivity.
  - vm_compute. reflexivity.
  - vm_compute. reflexivity.
Defined.

Lemma py_getitem_missing (data : json) (key : string) (w : world) :
  Json.member key data = None ->
  exists e, (e = KeyError key \/ e = TypeError) /\ py_getitem data key w = (inl e, w).
Proof.
  destruct data; cbn [Json.member py_getitem]; try (exists TypeError; by auto).
  intros ->. exists (KeyError key). by auto.
Qed.

(** X6: A store that cannot be decoded, or that has no [icons] member, stops
    both generators with exit status 1 before anything is made or
    written: the world after the run is the world before it. *)
Theorem malformed_metadata_store (json_load : string -> option json)
    (program metadata_dir : string) (w : world) (text : string) :
  files w !! (Py.of_path metadata_dir ++ ["icons.json"]) = Some text ->
  (json_load text = None ->
   forall e, e = JSONDecodeError (Py.of_path metadata_dir ++ ["icons.json"]) ->
     (forall output_dir,
         Py.run (main json_load [program; metadata_dir; output_dir]) w
         = Py.Outcome 1 (Some e) w)
     /\ (forall svg_dir output_file,
            Py.run (GenerateQrc.main json_load
                      [program; metadata_dir; svg_dir; output_file]) w
            = Py.Outcome 1 (Some e) w))
  /\ (forall data,
         json_load text = Some data ->
         Json.member "icons" data = None ->
         exists e,
           (e = KeyError "icons" \/ e = TypeError)
           /\ (forall output_dir,
                  Py.run (main json_load [program; metadata_dir; output_dir]) w
                  = Py.Outcome 1 (Some e) w)
           /\ (forall svg_dir output_file,
                  Py.run (GenerateQrc.main json_load
                            [program; metadata_dir; svg_dir; output_file]) w
                  = Py.Outcome 1 (Some e) w)).
Proof.
  intros Hfile.
  assert (forall e,
             (forall output_dir,
                 load_metadata json_load (init metadata_dir output_dir) w = (inl e, w)) ->
             (forall svg_dir output_file,
                 GenerateQrc.load_metadata json_load
                   (GenerateQrc.init metadata_dir svg_dir output_file) w = (inl e, w)) ->
             e <> SystemExit 1 -> (forall code, e <> SystemExit code) ->
             (forall output_dir,
                 Py.run (main json_load [program; metadata_dir; output_dir]) w
                 = Py.Outcome 1 (Some e) w)
             /\ (forall svg_dir output_file,
                    Py.run (GenerateQrc.main json_load
                              [program; metadata_dir; svg_dir; output_file]) w
                    = Py.Outcome 1 (Some e) w)) as Hruns.
  { intros e Hh Hq _ Hexit. split.
    - intros output_dir. unfold Py.run, main.
      rewrite (bind_inl _ _ w w e (Hh output_dir)).
      destruct e; try done. by destruct (Hexit code).
    - intros svg_dir output_file. unfold Py.run, GenerateQrc.main.
      rewrite (bind_inl _ _ w w e (Hq svg_dir output_file)).
      destruct e; try done. by destruct (Hexit code). }
  split.
  - intros Hload e ->. apply Hruns; try done.
    + intros output_dir. unfold load_metadata, init. cbn [GenerateHeaders.metadata_dir].
      erewrite bind_inr; [|by apply read_text_inr]. by rewrite Hload.
    + intros svg_dir output_file.
      unfold GenerateQrc.load_metadata, GenerateQrc.init. cbn [GenerateQrc.metadata_dir].
      erewrite bind_inr; [|by apply read_text_inr]. by rewrite Hload.
  - intros data Hload Hmissing.
    destruct (py_getitem_missing data "icons" w Hmissing) as (e & He & Hget).
    exists e. split; [done|]. apply Hruns.
    + intros output_dir. unfold load_metadata, init. cbn [GenerateHeaders.metadata_dir].
      erewrite bind_inr; [|by apply read_text_inr]. rewrite Hload.
      by rewrite (bind_inl _ _ w w e Hget).
    + intros svg_dir output_file.
      unfold GenerateQrc.load_metadata, GenerateQrc.init. cbn [GenerateQrc.metadata_dir].
      erewrite bind_inr; [|by apply read_text_inr]. rewrite Hload.
      by rewrite (bind_inl _ _ w w e Hget).
    + by destruct He as [-> | ->].
    + by destruct He as [-> | ->].
Qed.

Lemma malformed_metadata_store_witness :
  let w := World {[ ["meta"; "icons.json"] := "{" ]} ∅ [] in
  Py.run (main (fun _ => None) ["generate_headers.py"; "meta"; "include"]) w
  = Py.Outcome 1 (Some (JSONDecodeError ["meta"; "icons.json"])) w.
Proof.
  intros w.
  apply (proj1 (malformed_metadata_store (fun _ => None) "generate_headers.py" "meta" w "{"
                  eq_refl) eq_refl _ eq_refl).
Defined.

End HeaderMainExamples.

(** ** Tags *)
Section Tags.
Import TagSpec.

Lemma all_chars_rev_app (p : ascii -> bool) (s1 s2 : string) :
  PyStr.all_chars p (String.rev_app s1 s2) = PyStr.all_chars p s1 && PyStr.all_chars p s2.
Proof.
  revert s2. induction s1 as [|c s1 IH]; intros s2; [done|].
  cbn [String.rev_app PyStr.all_chars]. rewrite IH. cbn [PyStr.all_chars].
  destruct (p c), (PyStr.all_chars p s1), (PyStr.all_chars p s2); done.
Qed.

Lemma rev_app_nonempty (s1 s2 : string) : s2 <> "" -> String.rev_app s1 s2 <> "".
Proof.
  revert s2. induction s1 as [|c s1 IH]; intros s2 Hne; [done|].
  cbn [String.rev_app]. by apply IH.
Qed.

Lemma split_ws_go_pieces (p : ascii -> bool) (cur : option string) (s : string) :
  PyStr.all_chars p s = true ->
  (forall c, cur = Some c ->
             c <> "" /\ PyStr.all_chars (fun a => p a && negb (PyStr.is_space a)) c = true) ->
  forall piece, piece ∈ PyStr.split_ws_go cur s ->
    piece <> "" /\ PyStr.all_chars (fun a => p a && negb (PyStr.is_space a)) piece = true.
Proof.
  assert (forall cur : option string,
             (forall c, cur = Some c ->
                c <> "" /\ PyStr.all_chars (fun a => p a && negb (PyStr.is_space a)) c = true) ->
             forall piece, piece ∈ option_list (String.rev <$> cur) ->
               piece <> ""
               /\ PyStr.all_chars (fun a => p a && negb (PyStr.is_space a)) piece = true)
    as Hflush.
  { intros [c|] Hcur piece; cbn; [|by intros ?%elem_of_nil].
    intros ->%list_elem_of_singleton. destruct (Hcur c eq_refl) as [Hne Hall].
    unfold String.rev. split.
    - destruct c as [|a c]; [done|]. cbn [String.rev_app]. by apply rev_app_nonempty.
    - by rewrite all_chars_rev_app, Hall. }
  revert cur. induction s as [|a s IH]; intros cur Hs Hcur piece;
    cbn [PyStr.split_ws_go PyStr.all_chars] in *.
  - by apply Hflush.
  - apply andb_true_iff in Hs as [Ha Hs]. destruct (PyStr.is_space a) eqn:Hsp.
    + intros [Hin|Hin]%elem_of_app; [by apply (Hflush cur)|].
      apply (IH None); [done|done|done].
    + apply IH; [done|]. intros c [= <-]. split; [done|].
      cbn [PyStr.all_chars]. rewrite Ha, Hsp. cbn.
      destruct cur as [c|]; cbn [default]; [|done]. by apply (Hcur c).
Qed.

Lemma parts_tag_chars (name piece : string) :
  piece ∈ parts name ->
  piece <> "" /\ PyStr.all_chars tag_char piece = true.
Proof.
  intros Hin. unfold parts, PyStr.split_ws in Hin.
  apply (split_ws_go_pieces (fun c => negb (Ascii.eqb c "-"))) in Hin as [Hne Hall].
  - split; [done|]. revert Hall. apply all_chars_impl.
    intros c. unfold tag_char. by rewrite andb_comm.
  - clear. induction name as [|c name IH]; [done|].
    cbn [PyStr.map_chars PyStr.all_chars]. rewrite IH, andb_true_r.
    destruct (Ascii.eqb c "-") eqn:Hc; [done|]. by rewrite Hc.
  - done.
Qed.

End Tags.

Section TagsOfName.
Import TagSpec BuildResources.

Lemma generate_tags_from_name_set (list_of_set : list string -> list string)
    (name : string) :
  _generate_tags_from_name list_of_set name
  = list_of_set (parts name ++ group_tags name).
Proof.
  unfold _generate_tags_from_name, group_tags, groups. fold (parts name).
  cbn [flat_map fst snd app].
  destruct (any_in ["arrow"; "chevron"] name), (any_in ["file"; "folder"; "document"] name),
    (any_in ["user"; "person"; "people"] name), (any_in ["heart"; "star"; "like"] name);
    cbn [app]; rewrite <- ?app_assoc; try rewrite app_nil_r; reflexivity.
Qed.

Lemma group_tags_elem_of (name t : string) :
  t ∈ group_tags name <-> exists kws, (t, kws) ∈ groups /\ any_in kws name = true.
Proof.
  unfold group_tags. rewrite list_elem_of_In, in_flat_map. split.
  - intros ([label kws] & Hg & Hin). cbn [fst snd] in Hin.
    destruct (any_in kws name) eqn:Hany; [|done].
    destruct Hin as [<-|[]]. exists kws. split; [by apply list_elem_of_In|done].
  - intros (kws & Hg & Hany). exists (t, kws). split; [by apply list_elem_of_In|].
    cbn [fst snd]. rewrite Hany. by left.
Qed.

(** X7: The tags of a name, whatever order the interpreter gives the set:
    they are distinct; a tag is a piece of the name between hyphens or
    white space, or the label of a keyword group one of whose keywords
    occurs in the name; no tag is empty or contains a hyphen or white
    space. *)
Theorem generated_tags (list_of_set : list string -> list string) (name : string) :
  RunSpec.set_order list_of_set ->
  NoDup (_generate_tags_from_name list_of_set name)
  /\ (forall t, t ∈ _generate_tags_from_name list_of_set name
                <-> t ∈ parts name
                    \/ exists kws, (t, kws) ∈ groups /\ any_in kws name = true)
  /\ (forall t, t ∈ _generate_tags_from_name list_of_set name ->
                t <> "" /\ PyStr.all_chars tag_char t = true).
Proof.
  intros Horder. rewrite generate_tags_from_name_set.
  assert (forall t, t ∈ list_of_set (parts name ++ group_tags name)
                    <-> t ∈ parts name
                        \/ exists kws, (t, kws) ∈ groups /\ any_in kws name = true) as Hmem.
  { intros t. rewrite (Horder _), elem_of_remove_dups, elem_of_app.
    by rewrite group_tags_elem_of. }
  split_and!.
  - rewrite (Horder _). apply NoDup_remove_dups.
  - done.
  - intros t [Hpart|(kws & Hg & _)]%Hmem; [by apply (parts_tag_chars name)|].
    apply list_elem_of_In in Hg. cbn in Hg.
    destruct Hg as [[= <- _]|[[= <- _]|[[= <- _]|[[= <- _]|[]]]]]; done.
Qed.

Lemma generated_tags_witness :
  NoDup (_generate_tags_from_name (fun l => reverse (remove_dups l)) "arrow-up-arrow")
  /\ "navigation" ∈ _generate_tags_from_name (fun l => reverse (remove_dups l)) "arrow-up-arrow".
Proof.
  destruct (generated_tags (fun l => reverse (remove_dups l)) "arrow-up-arrow")
    as (Hnd & Hmem & _).
  - intros l. apply reverse_Permutation.
  - split; [exact Hnd|]. apply Hmem. right. exists ["arrow"; "chevron"].
    split; [apply list_elem_of_here|reflexivity].
Defined.

End TagsOfName.

(** ** The catalog of the resource builder *)
Section BuilderCatalog.
Import Metadata BuildResources CategorySpec.

Lemma filter_bool_sublist {A} (p : A -> bool) (l : list A) : List.filter p l `sublist_of` l.
Proof.
  induction l as [|x l IH]; [done|]. cbn [List.filter].
  destruct (p x); [by apply sublist_skip|by apply sublist_cons].
Qed.

(** X8: The categories of a name are distinct labels of the closed
    vocabulary, in the order of the keyword table, [general] last. *)
Theorem categorize_icon_vocabulary (name : string) :
  _categorize_icon name `sublist_of` (map fst category_keywords ++ ["general"])
  /\ NoDup (_categorize_icon name).
Proof.
  assert (_categorize_icon name `sublist_of` (map fst category_keywords ++ ["general"]))
    as Hsub.
  { rewrite categorize_icon_matched.
    assert (matched name `sublist_of` map fst category_keywords) as Hm.
    { unfold matched. apply (fmap_sublist fst), filter_bool_sublist. }
    destruct (matched name) as [|l ls] eqn:Hmatched.
    - apply sublist_inserts_l. done.
    - by apply sublist_inserts_r. }
  split; [done|].
  eapply sublist_NoDup; [|exact Hsub].
  apply (bool_decide_unpack _). vm_compute. exact I.
Qed.

Lemma dict_fill_wf {V} (g : string -> V) (l : list string) (d : list (string * V)) :
  PyDict.wf d -> PyDict.wf (foldl (fun d n => PyDict.set n (g n) d) d l).
Proof.
  revert d. induction l as [|n l IH]; intros d Hd; [done|].
  cbn [foldl]. by apply IH, dict_wf_set.
Qed.

Lemma dict_fill_keys_elem_of {V} (g : string -> V) (l : list string)
    (d : list (string * V)) (k : string) :
  k ∈ PyDict.keys (foldl (fun d n => PyDict.set n (g n) d) d l)
  <-> k ∈ PyDict.keys d \/ k ∈ l.
Proof.
  revert d. induction l as [|n l IH]; intros d; cbn [foldl].
  - rewrite elem_of_nil. tauto.
  - rewrite IH, dict_keys_set, elem_of_cons. case_bool_decide as Hin.
    + split; [tauto|]. intros [?|[->|?]]; tauto.
    + rewrite elem_of_app, list_elem_of_singleton. tauto.
Qed.

(** X9: The catalog made from a directory listing has one record for each
    file name, under that name, also when a name is listed twice; the
    record holds the name and the path [svg/<name>.svg], and it has no
    contributors. *)
Theorem icons_of_catalog (list_of_set : list string -> list string)
    (glob_stems : list string) :
  PyDict.wf (icons_of list_of_set glob_stems)
  /\ (forall k, k ∈ PyDict.keys (icons_of list_of_set glob_stems) <-> k ∈ glob_stems)
  /\ (forall k r, (k, r) ∈ icons_of list_of_set glob_stems ->
                  name r = k /\ svg_file r = "svg/" +:+ k +:+ ".svg"
                  /\ contributors r = [])
  /\ length (icons_of list_of_set glob_stems) <= length glob_stems.
Proof.
  split_and!.
  - apply dict_fill_wf. constructor.
  - intros k. unfold icons_of. rewrite dict_fill_keys_elem_of. cbn.
    rewrite elem_of_nil. tauto.
  - intros k r Hin. unfold icons_of in Hin.
    apply (dict_fill_elem_of
             (fun n => Icon n ("svg/" +:+ n +:+ ".svg")
                            (_generate_tags_from_name list_of_set n)
                            (_categorize_icon n) [])) in Hin.
    destruct Hin as [[_ ->]|[]%elem_of_nil]. done.
  - unfold icons_of.
    assert (forall d : list (string * icon),
               length (foldl (fun d n =>
                                PyDict.set n
                                  (Icon n ("svg/" +:+ n +:+ ".svg")
                                        (_generate_tags_from_name list_of_set n)
                                        (_categorize_icon n) []) d) d glob_stems)
               <= length d + length glob_stems) as Hlen.
    { induction glob_stems as [|n l IH]; intros d; cbn [foldl length]; [lia|].
      etrans; [apply IH|]. rewrite dict_set_length. case_bool_decide; lia. }
    apply (Hlen []).
Qed.

End BuilderCatalog.

(** ** The label indices as dictionaries *)
Section IndexInvariant.
Import Metadata IndexSpec.

Lemma add_visits_wf (ps : list (string * string)) (index : list (string * list string)) :
  PyDict.wf index -> PyDict.wf (foldl add_visit index ps).
Proof.
  revert index. induction ps as [|p ps IH]; intros index Hwf; [done|].
  cbn [foldl]. apply IH. by apply dict_wf_set.
Qed.

(** X10: Each index is a dictionary with one entry per label in use: the
    labels are distinct, a label is present exactly when some record
    carries it, and its list is never empty and holds names of the
    catalog only. *)
Theorem index_wellformed (labels : icon -> list string)
    (icons_data : list (string * icon)) :
  PyDict.wf (build_index labels icons_data)
  /\ (forall label,
         label ∈ PyDict.keys (build_index labels icons_data)
         <-> exists k r, (k, r) ∈ icons_data /\ label ∈ labels r)
  /\ (forall label names,
         PyDict.get label (build_index labels icons_data) = Some names ->
         names <> [] /\ forall n, n ∈ names -> n ∈ PyDict.keys icons_data).
Proof.
  split_and!.
  - unfold build_index. rewrite build_index_visits. apply add_visits_wf. constructor.
  - intros label.
    destruct (decide (label ∈ PyDict.keys (build_index labels icons_data))) as [Hin|Hnot].
    + split; [intros _|done].
      destruct (PyDict.get label (build_index labels icons_data)) as [names|] eqn:Hget.
      * rewrite index_lookup in Hget.
        destruct (carriers labels label icons_data) as [|n ns] eqn:Hc; [done|].
        assert (n ∈ carriers labels label icons_data) as Hn
            by (rewrite Hc; apply list_elem_of_here).
        apply carriers_elem_of in Hn as (r & Hr & Hl). by exists n, r.
      * by apply (proj1 (dict_get_None _ _)) in Hget.
    + split; [done|]. intros (k & r & Hr & Hl). exfalso.
      pose proof (proj2 (dict_get_None _ _) Hnot) as Hnone.
      rewrite index_lookup in Hnone.
      assert (k ∈ carriers labels label icons_data) as Hk
          by (apply carriers_elem_of; by exists r).
      destruct (carriers labels label icons_data); [by apply elem_of_nil in Hk|done].
  - intros label names. rewrite index_lookup.
    destruct (carriers labels label icons_data) as [|n ns] eqn:Hc; [done|].
    intros [= <-]. split; [done|]. intros n' Hn'. rewrite <- Hc in Hn'.
    apply carriers_elem_of in Hn' as (r & Hr & _).
    apply list_elem_of_fmap. by exists (n', r).
Qed.

End IndexInvariant.

(** ** A missing directory of SVG files *)
Section MissingSvgDir.
Import Metadata.

Lemma generate_metadata_from_svg_inr (list_of_set : list string -> list string)
    (glob_stems : list string) (self : BuildResources.builder) (w : world) :
  let dir := BuildResources.metadata_dir self in
  let present := Py.path_exists w (BuildResources.svg_dir self) in
  let icons_data := BuildResources.icons_of list_of_set (if present then glob_stems else []) in
  Py.is_dir w dir = true ->
  Py.is_dir w (dir ++ ["icons.json"]) = false ->
  Py.is_dir w (dir ++ ["categories.json"]) = false ->
  Py.is_dir w (dir ++ ["tags.json"]) = false ->
  BuildResources.generate_metadata_from_svg list_of_set glob_stems self w
  = (inr icons_data,
     World (<[dir ++ ["tags.json"] := Json.dumps (index_json (build_index tags icons_data))]>
              (<[dir ++ ["categories.json"]
                 := Json.dumps (index_json (build_index categories icons_data))]>
                 (<[dir ++ ["icons.json"] := Json.dumps (store icons_data)]> (files w))))
           (dirs w)
           (stdout w
            ++ [if present
                then "Found " +:+ PyStr.str_of_nat (length glob_stems) +:+ " SVG files"
                else "Warning: SVG directory "
                     +:+ Py.path_str (BuildResources.svg_dir self) +:+ " does not exist"]
            ++ ["Generated metadata for " +:+ PyStr.str_of_nat (length icons_data)
                +:+ " icons"])).
Proof.
  intros dir present icons_data Hdir H1 H2 H3. subst dir present icons_data.
  unfold BuildResources.generate_metadata_from_svg,
    BuildResources._generate_categories_and_tags.
  unfold mbind at 1, py_bind, Py.bind at 1, BuildResources.scan_svg_files.
  destruct (Py.path_exists w (BuildResources.svg_dir self));
    rewrite bind_print; unfold mret, py_ret, Py.ret.
  all: rewrite bind_write_text by (try done; by rewrite parent_snoc).
  all: unfold mbind at 1, py_bind, Py.bind at 1.
  all: rewrite bind_write_text by (try done; by rewrite parent_snoc).
  all: rewrite write_text_inr by (try done; by rewrite parent_snoc).
  all: rewrite bind_print.
  all: cbn [files dirs stdout]; by rewrite <- app_assoc.
Qed.

(** X11: Without the directory of SVG files the synthesis does not fail: it
    prints a warning, writes the store of the empty catalog (count 0, no
    icons) and two empty indices, and returns the empty catalog. *)
Theorem builder_without_svg_dir (list_of_set : list string -> list string)
    (glob_stems : list string) (self : BuildResources.builder) (w : world) :
  let dir := BuildResources.metadata_dir self in
  Py.path_exists w (BuildResources.svg_dir self) = false ->
  Py.is_dir w dir = true ->
  Py.is_dir w (dir ++ ["icons.json"]) = false ->
  Py.is_dir w (dir ++ ["categories.json"]) = false ->
  Py.is_dir w (dir ++ ["tags.json"]) = false ->
  exists w',
    BuildResources.generate_metadata_from_svg list_of_set glob_stems self w = (inr [], w')
    /\ files w' !! (dir ++ ["icons.json"])
       = Some (Json.dumps (JObj [("icons", JObj []); ("count", JNum 0);
                                 ("version", JStr "1.0.0")]))
    /\ files w' !! (dir ++ ["categories.json"]) = Some "{}"
    /\ files w' !! (dir ++ ["tags.json"]) = Some "{}"
    /\ stdout w'
       = stdout w
         ++ ["Warning: SVG directory " +:+ Py.path_str (BuildResources.svg_dir self)
             +:+ " does not exist";
             "Generated metadata for 0 icons"].
Proof.
  intros dir Hmissing Hdir H1 H2 H3.
  rewrite generate_metadata_from_svg_inr by done. rewrite Hmissing.
  eexists. split; [reflexivity|]. cbn [files stdout]. split_and!.
  - rewrite !lookup_insert_ne by (by apply metadata_paths_differ).
    by rewrite lookup_insert_eq.
  - rewrite lookup_insert_ne by (by apply metadata_paths_differ).
    by rewrite lookup_insert_eq.
  - by rewrite lookup_insert_eq.
  - done.
Qed.

Lemma builder_without_svg_dir_witness :
  let self := BuildResources.Builder [] ["resources"; "icons"; "svg"]
                ["resources"; "icons"; "metadata"] ["include"; "QtLucide"] in
  let w := World ∅ {[ ["resources"; "icons"; "metadata"] ]} [] in
  exists w',
    BuildResources.generate_metadata_from_svg (fun l => l) ["zebra"] self w = (inr [], w')
    /\ files w' !! ["resources"; "icons"; "metadata"; "icons.json"]
       = Some (Json.dumps (JObj [("icons", JObj []); ("count", JNum 0);
                                 ("version", JStr "1.0.0")]))
    /\ files w' !! ["resources"; "icons"; "metadata"; "categories.json"] = Some "{}"
    /\ files w' !! ["resources"; "icons"; "metadata"; "tags.json"] = Some "{}"
    /\ stdout w'
       = ["Warning: SVG directory resources/icons/svg does not exist";
          "Generated metadata for 0 icons"].
Proof.
  intros self w.
  apply (builder_without_svg_dir (fun l => l) ["zebra"] self w); vm_compute; reflexivity.
Defined.

End MissingSvgDir.

(** ** The Lucide import, file by file *)
Section ImportRuns.
Import Metadata ProcessLucide ImportSpec.
Variable optimize_svg : string -> string.

Lemma process_single_icon_cases (self : processor) (svg : svg_source) (w : world) :
  process_single_icon optimize_svg self svg w
  = (inr (false, self), World (files w) (dirs w) (stdout w ++ [error_line self svg]))
  \/ exists content r,
       svg_content svg = Some content
       /\ metadata_file svg <> Some None
       /\ name r = stem svg
       /\ process_single_icon optimize_svg self svg w
          = (inr (true,
                  Processor (source_dir self) (output_dir self)
                            (PyDict.set (stem svg) r (icons_data self))),
             World (<[output_dir self ++ ["svg"; stem svg +:+ ".svg"]
                      := optimize_svg content]> (files w))
                   (dirs w) (stdout w)).
Proof.
  unfold process_single_icon, Py.try_except, error_line.
  unfold mbind, py_bind, Py.bind, mret, py_ret, Py.ret, Py.raise, Py.print, Py.write_text.
  destruct (svg_content svg) as [content|] eqn:Hcontent; [|by left].
  destruct (metadata_file svg) as [[m|]|] eqn:Hmeta; [| by left |].
  - destruct (Py.is_dir w (output_dir self ++ ["svg"; stem svg +:+ ".svg"])); [by left|].
    destruct (Py.is_dir w (Py.parent (output_dir self ++ ["svg"; stem svg +:+ ".svg"])));
      [|by left].
    right. eexists content, _. split_and!; [done|done| |reflexivity]. done.
  - destruct (Py.is_dir w (output_dir self ++ ["svg"; stem svg +:+ ".svg"])); [by left|].
    destruct (Py.is_dir w (Py.parent (output_dir self ++ ["svg"; stem svg +:+ ".svg"])));
      [|by left].
    right. eexists content, _. split_and!; [done|done| |reflexivity]. done.
Qed.


(** X13: The loop over the files never raises: every file is either counted
    and recorded or skipped.  The count grows by at most one per file,
    the keys of the catalog stay distinct, every new key is the name of
    a listed file, and no record that was there is lost. *)
Theorem process_all_outcome (icon_files : list svg_source) (self : processor)
    (processed_count : nat) (w : world) :
  exists count' self' w',
    process_all optimize_svg self icon_files processed_count w = (inr (count', self'), w')
    /\ processed_count <= count' <= processed_count + length icon_files
    /\ source_dir self' = source_dir self
    /\ output_dir self' = output_dir self
    /\ dirs w' = dirs w
    /\ (PyDict.wf (icons_data self) -> PyDict.wf (icons_data self'))
    /\ (forall k, k ∈ PyDict.keys (icons_data self') ->
                  k ∈ PyDict.keys (icons_data self) \/ k ∈ map stem icon_files)
    /\ (forall k, k ∈ PyDict.keys (icons_data self) -> k ∈ PyDict.keys (icons_data self')).
Proof.
  revert self processed_count w.
  induction icon_files as [|svg icon_files IH]; intros self processed_count w.
  - exists processed_count, self, w. cbn [process_all length map].
    split_and!; try done; [lia|auto].
  - cbn [process_all].
    destruct (process_single_icon_cases self svg w)
      as [Hrun|(content & r & _ & _ & _ & Hrun)];
      rewrite (bind_inr _ _ _ _ _ Hrun); cbn beta iota.
    + destruct (IH self processed_count
                  (World (files w) (dirs w) (stdout w ++ [error_line self svg])))
        as (count' & self' & w' & Hall & Hcount & Hs & Ho & Hd & Hwf & Hnew & Hold).
      exists count', self', w'. cbn [length map].
      split_and!; try done; try lia.
      intros k Hk. destruct (Hnew k Hk) as [?|?]; [by left|].
      right. by apply list_elem_of_further.
    + destruct (IH (Processor (source_dir self) (output_dir self)
                      (PyDict.set (stem svg) r (icons_data self)))
                  (processed_count + 1)
                  (World (<[output_dir self ++ ["svg"; stem svg +:+ ".svg"]
                            := optimize_svg content]> (files w))
                         (dirs w) (stdout w)))
        as (count' & self' & w' & Hall & Hcount & Hs & Ho & Hd & Hwf & Hnew & Hold).
      cbn [source_dir output_dir icons_data dirs] in *.
      exists count', self', w'. cbn [length map].
      split_and!; try done; try lia.
      * intros Hwf0. by apply Hwf, dict_wf_set.
      * intros k Hk. destruct (Hnew k Hk) as [Hin|?].
        -- rewrite dict_keys_set in Hin. case_bool_decide; [by left|].
           apply elem_of_app in Hin as [?|Hin]; [by left|].
           apply list_elem_of_singleton in Hin as ->.
           right. apply list_elem_of_here.
        -- right. by apply list_elem_of_further.
      * intros k Hk. apply Hold. rewrite dict_keys_set.
        case_bool_decide; [done|]. apply elem_of_app. by left.
Qed.

End ImportRuns.

Section ImportRunsExamples.
Import ProcessLucide.


End ImportRunsExamples.

(** ** The shape of a candidate *)
Section CandidateShape.
Import ValidateUsage.

Lemma shape_tail_form (s : string) :
  shape_tail s = true ->
  exists body d,
    s = body +:+ String d ""
    /\ PyStr.all_chars is_name_char body = true
    /\ (PyStr.is_lower d || PyStr.is_digit d) = true.
Proof.
  induction s as [|c s IH]; [done|]. cbn [shape_tail].
  destruct s as [|c' s].
  - intros Hc. by exists "", c.
  - intros [Hc Hs]%andb_true_iff. destruct (IH Hs) as (body & d & Heq & Hbody & Hd).
    exists (String c body), d. split_and!; [|by cbn [PyStr.all_chars]; rewrite Hc|done].
    change (String c body +:+ String d "") with (String c (body +:+ String d "")).
    by rewrite <- Heq.
Qed.

Lemma without_final_newline_form (s core : string) :
  without_final_newline s = Some core -> s = core +:+ PyStr.newline.
Proof.
  revert core. induction s as [|c s IH]; intros core; [done|].
  cbn [without_final_newline]. destruct s as [|c' s].
  - destruct (Ascii.eqb_spec c (ascii_of_nat 10)) as [->|]; [|done]. by intros [= <-].
  - destruct (without_final_newline (String c' s)) as [core'|]; [|done].
    intros [= <-]. change (String c core' +:+ PyStr.newline)
      with (String c (core' +:+ PyStr.newline)). by rewrite <- (IH core').
Qed.

(** X14: A string that passes for an icon name has 2 to 50 characters, is not
    one of the excluded words, and reads: a lowercase letter, then
    lowercase letters, digits and hyphens, then a lowercase letter or a
    digit, possibly followed by one final newline. *)
Theorem looks_like_icon_name_shape (name : string) :
  _looks_like_icon_name name = true ->
  2 <= String.length name <= 50
  /\ (name ∉ non_icon_words)
  /\ exists c body d tail,
       name = String c (body +:+ String d tail)
       /\ (tail = "" \/ tail = PyStr.newline)
       /\ PyStr.is_lower c = true
       /\ PyStr.all_chars is_name_char body = true
       /\ (PyStr.is_lower d || PyStr.is_digit d) = true.
Proof.
  unfold _looks_like_icon_name.
  destruct (String.length name <? 2)%nat eqn:Hlo; [done|].
  destruct (50 <? String.length name)%nat eqn:Hhi; [done|]. cbn [orb].
  destruct (matches_shape name) eqn:Hshape; [|done]. cbn [negb].
  case_bool_decide as Hex; [done|]. intros _.
  apply Nat.ltb_ge in Hlo, Hhi. split_and!; [lia|lia|done|].
  assert (forall s, icon_shape s = true ->
            exists c body d,
              s = String c (body +:+ String d "")
              /\ PyStr.is_lower c = true
              /\ PyStr.all_chars is_name_char body = true
              /\ (PyStr.is_lower d || PyStr.is_digit d) = true) as Hform.
  { intros [|c s]; [done|]. cbn [icon_shape]. intros [Hc Hs]%andb_true_iff.
    destruct (shape_tail_form s Hs) as (body & d & -> & Hbody & Hd).
    by exists c, body, d. }
  unfold matches_shape in Hshape. apply orb_true_iff in Hshape as [Hs|Hs].
  - destruct (Hform name Hs) as (c & body & d & -> & Hc & Hbody & Hd).
    exists c, body, d, "". by auto.
  - destruct (without_final_newline name) as [core|] eqn:Hcore; [|done].
    apply without_final_newline_form in Hcore as ->.
    destruct (Hform core Hs) as (c & body & d & -> & Hc & Hbody & Hd).
    exists c, body, d, PyStr.newline. split_and!; try done; [|by right].
    change (String c (body +:+ String d "") +:+ PyStr.newline)
      with (String c ((body +:+ String d "") +:+ PyStr.newline)).
    f_equal. clear. induction body as [|b body IH]; [done|].
    change (String b body +:+ String d "") with (String b (body +:+ String d "")).
    change (String b (body +:+ String d "") +:+ PyStr.newline)
      with (String b ((body +:+ String d "") +:+ PyStr.newline)).
    change (String b body +:+ String d PyStr.newline)
      with (String b (body +:+ String d PyStr.newline)).
    by rewrite IH.
Qed.

Lemma looks_like_icon_name_shape_witness :
  2 <= String.length "arrow-left" <= 50
  /\ ("arrow-left" ∉ non_icon_words)
  /\ exists c body d tail,
       "arrow-left" = String c (body +:+ String d tail)
       /\ (tail = "" \/ tail = PyStr.newline)
       /\ PyStr.is_lower c = true
       /\ PyStr.all_chars is_name_char body = true
       /\ (PyStr.is_lower d || PyStr.is_digit d) = true.
Proof. apply (looks_like_icon_name_shape "arrow-left"). reflexivity. Defined.

(** X15: The usages found in a file carry the number of their line, counted
    from 1, and a name is found on a line only as a literal that passes
    for an icon name or as the argument of a call; a file that cannot be
    read gives no usage. *)
Theorem scan_file_usages (lines : list source_line) (m : string) (n : nat) :
  scan_file_for_icons None = []
  /\ ((m, n) ∈ scan_file_for_icons (Some lines)
      <-> exists i line,
            n = S i /\ lines !! i = Some line
            /\ ((m ∈ literals line /\ _looks_like_icon_name m = true)
                \/ m ∈ calls line)).
Proof.
  split; [done|]. cbn [scan_file_for_icons].
  rewrite list_elem_of_In, in_concat. split.
  - intros (us & Hus & Hin). apply list_elem_of_In, elem_of_lookup_imap in Hus
      as (i & line & -> & Hline).
    exists i, line. split_and!; [|done|].
    + unfold scan_line in Hin. apply in_app_iff in Hin as [Hin|Hin];
        apply in_map_iff in Hin as (m' & [= _ <-] & _); done.
    + unfold scan_line in Hin. apply in_app_iff in Hin as [Hin|Hin];
        apply in_map_iff in Hin as (m' & [= <- _] & Hin).
      * left. by apply list_elem_of_In, list_elem_of_filter in Hin as [? ?].
      * right. by apply list_elem_of_In.
  - intros (i & line & -> & Hline & Hm). exists (scan_line (S i) line). split.
    + apply list_elem_of_In, elem_of_lookup_imap. by exists i, line.
    + unfold scan_line. apply in_app_iff. destruct Hm as [[Hlit Hlooks]|Hcall].
      * left. apply in_map_iff. exists m. split; [done|].
        by apply list_elem_of_In, list_elem_of_filter.
      * right. apply in_map_iff. exists m. split; [done|by apply list_elem_of_In].
Qed.

End CandidateShape.

(** ** The dictionaries of the validator *)
Section ValidatorDictionaries.
Import ValidateUsage UsageSpec.

Lemma usage_grows_refl (d : list (string * list usage)) : usage_grows d d.
Proof. intros k us Hget. exists []. by rewrite app_nil_r. Qed.

Lemma usage_grows_trans (d1 d2 d3 : list (string * list usage)) :
  usage_grows d1 d2 -> usage_grows d2 d3 -> usage_grows d1 d3.
Proof.
  intros H12 H23 k us Hget. destruct (H12 k us Hget) as (m1 & H2).
  destruct (H23 k _ H2) as (m2 & H3). exists (m1 ++ m2). by rewrite app_assoc.
Qed.

Lemma add_usage_step (rel_path : string) (self : validator) (u : usage) :
  usage_grows (icon_usage self) (icon_usage (add_usage rel_path self u))
  /\ (PyDict.wf (icon_usage self) -> PyDict.wf (icon_usage (add_usage rel_path self u)))
  /\ (entries_nonempty (icon_usage self) ->
      entries_nonempty (icon_usage (add_usage rel_path self u))).
Proof.
  unfold add_usage. cbn [icon_usage]. split_and!.
  - intros k us Hget. rewrite dict_get_set. destruct (decide (k = fst u)) as [->|Hne].
    + rewrite Hget. cbn [default]. by eexists.
    + exists []. by rewrite app_nil_r.
  - apply dict_wf_set.
  - intros Hne k us. rewrite dict_get_set. destruct (decide (k = fst u)) as [->|Hk].
    + intros [= <-]. by destruct (default [] _).
    + apply Hne.
Qed.

Lemma scan_directory_steps (self : validator) (found : list source_file) :
  usage_grows (icon_usage self) (icon_usage (scan_directory self found))
  /\ (PyDict.wf (icon_usage self) -> PyDict.wf (icon_usage (scan_directory self found)))
  /\ (entries_nonempty (icon_usage self) ->
      entries_nonempty (icon_usage (scan_directory self found))).
Proof.
  unfold scan_directory. revert self.
  induction found as [|file found IH]; intros self; cbn [foldl].
  - split_and!; [apply usage_grows_refl|done|done].
  - assert (forall us self,
               usage_grows (icon_usage self)
                 (icon_usage (foldl (add_usage (fst file)) self us))
               /\ (PyDict.wf (icon_usage self) ->
                   PyDict.wf (icon_usage (foldl (add_usage (fst file)) self us)))
               /\ (entries_nonempty (icon_usage self) ->
                   entries_nonempty (icon_usage (foldl (add_usage (fst file)) self us))))
      as Hfile.
    { induction us as [|u us IHus]; intros self0; cbn [foldl].
      - split_and!; [apply usage_grows_refl|done|done].
      - destruct (add_usage_step (fst file) self0 u) as (Hg & Hw & Hn).
        destruct (IHus (add_usage (fst file) self0 u)) as (Hg' & Hw' & Hn').
        split_and!; [by eapply usage_grows_trans|auto|auto]. }
    destruct (Hfile (scan_file_for_icons (snd file)) self) as (Hg & Hw & Hn).
    destruct (IH (foldl (add_usage (fst file)) self (scan_file_for_icons (snd file))))
      as (Hg' & Hw' & Hn').
    split_and!; [by eapply usage_grows_trans|auto|auto].
Qed.

(** X16: Scanning only adds: the usages recorded before a scan stay, in their
    order, at the front of the list of their name; the names stay
    distinct and no name is recorded without a usage; the available
    names and the invalid names are not touched. *)
Theorem scan_directory_accumulates (self : validator) (found : list source_file) :
  (forall k us, PyDict.get k (icon_usage self) = Some us ->
                exists more,
                  PyDict.get k (icon_usage (scan_directory self found)) = Some (us ++ more))
  /\ (PyDict.wf (icon_usage self) -> PyDict.wf (icon_usage (scan_directory self found)))
  /\ ((forall k us, PyDict.get k (icon_usage self) = Some us -> us <> []) ->
      forall k us, PyDict.get k (icon_usage (scan_directory self found)) = Some us ->
                   us <> [])
  /\ available_icons (scan_directory self found) = available_icons self
  /\ invalid_icons (scan_directory self found) = invalid_icons self.
Proof.
  destruct (scan_directory_steps self found) as (Hg & Hw & Hn).
  destruct (scan_directory_fields self found) as (_ & Ha & Hi & _).
  split_and!; done.
Qed.

Lemma scan_directory_accumulates_witness :
  let self := Validator ["project"] ["pen"] [("pen", [("examples/a.cpp", 3)])] [] in
  let found := [("examples/b.cpp", Some [SourceLine ["pen"] []])] in
  exists more,
    PyDict.get "pen" (icon_usage (scan_directory self found))
    = Some ([("examples/a.cpp", 3)] ++ more).
Proof.
  intros self found.
  apply (proj1 (scan_directory_accumulates self found) "pen"). reflexivity.
Defined.

Lemma dict_set_fresh {V} (k : string) (v : V) (d : list (string * V)) :
  k ∉ PyDict.keys d -> PyDict.set k v d = d ++ [(k, v)].
Proof.
  induction d as [|[k' v'] d IH]; cbn [PyDict.set]; [done|].
  unfold PyDict.keys. rewrite fmap_cons. cbn [fst]. fold (PyDict.keys d).
  intros [Hne Hk]%not_elem_of_cons.
  destruct (decide (k = k')) as [->|_]; [done|]. by rewrite IH.
Qed.

Lemma validate_entries_invalid (self : validator) (all_valid : bool)
    (entries : list (string * list usage)) :
  NoDup (PyDict.keys entries) ->
  (forall k, k ∈ PyDict.keys entries -> k ∉ PyDict.keys (invalid_icons self)) ->
  invalid_icons
    (snd (foldl (fun st entry =>
                   let all_valid := fst st in
                   let self := snd st in
                   if bool_decide (fst entry ∈ available_icons self)
                   then (all_valid, self)
                   else (false,
                         Validator (project_root self) (available_icons self)
                           (icon_usage self)
                           (PyDict.set (fst entry) (snd entry) (invalid_icons self))))
                (all_valid, self) entries))
  = invalid_icons self
    ++ filter (fun entry => fst entry ∉ available_icons self) entries.
Proof.
  revert self all_valid. induction entries as [|[k0 us] entries IH];
    intros self all_valid Hnd Hfresh; cbn [foldl fst snd].
  - by rewrite app_nil_r.
  - unfold PyDict.keys in Hnd, Hfresh. rewrite fmap_cons in Hnd, Hfresh.
    cbn [fst] in Hnd, Hfresh. fold (PyDict.keys entries) in Hnd, Hfresh.
    apply NoDup_cons in Hnd as [Hk0 Hnd].
    case_bool_decide as Hin.
    + rewrite IH; [|done|].
      * by rewrite filter_cons_False by (cbn [fst]; tauto).
      * intros k Hk. apply Hfresh. by apply list_elem_of_further.
    + rewrite IH; cbn [invalid_icons available_icons]; [|done|].
      * rewrite filter_cons_True by done.
        rewrite dict_set_fresh by apply Hfresh, list_elem_of_here.
        by rewrite <- app_assoc.
      * intros k Hk. rewrite dict_set_fresh by apply Hfresh, list_elem_of_here.
        unfold PyDict.keys. rewrite fmap_app, not_elem_of_app. split.
        -- apply Hfresh. by apply list_elem_of_further.
        -- cbn. rewrite list_elem_of_singleton. by intros ->.
Qed.

Lemma filter_nil_forall {A} (P : A -> Prop) `{!forall x, Decision (P x)} (l : list A) :
  filter P l = [] <-> forall x, x ∈ l -> ~ P x.
Proof.
  induction l as [|a l IH].
  - split; [by intros _ x ?%elem_of_nil|done].
  - destruct (decide (P a)) as [Ha|Ha].
    + rewrite filter_cons_True by done. split; [done|].
      intros Hall. destruct (Hall a (list_elem_of_here _ _) Ha).
    + rewrite filter_cons_False, IH by done. split.
      * intros Hall x [->|Hx]%elem_of_cons; auto.
      * intros Hall x Hx. apply Hall. by apply list_elem_of_further.
Qed.

(** X17: Validation from a fresh invalid dictionary: the invalid dictionary
    becomes the entries of the usage dictionary whose name is not
    available, in the order of first use and with all their usages; the
    verdict is true exactly when there is none, and the report never
    counts more invalid names than names in use. *)
Theorem validate_usage_invalid (self : validator) :
  PyDict.wf (icon_usage self) ->
  invalid_icons self = [] ->
  invalid_icons (snd (validate_usage self))
  = filter (fun entry => fst entry ∉ available_icons self) (icon_usage self)
  /\ (fst (validate_usage self) = true <-> invalid_icons (snd (validate_usage self)) = [])
  /\ invalid_count (print_report (snd (validate_usage self)))
     <= used_count (print_report (snd (validate_usage self))).
Proof.
  intros Hwf Hnil.
  assert (invalid_icons (snd (validate_usage self))
          = filter (fun entry => fst entry ∉ available_icons self) (icon_usage self))
    as Hinv.
  { unfold validate_usage. rewrite validate_entries_invalid; [by rewrite Hnil|done|].
    intros k _. rewrite Hnil. apply not_elem_of_nil. }
  destruct (validate_usage_spec self) as (_ & Hu & Hv & _).
  split_and!; [done| |].
  - rewrite Hv, Hinv, filter_nil_forall. split.
    + intros Hall [k us] Hin Hnot. cbn [fst] in Hnot. apply Hnot, Hall.
      apply list_elem_of_fmap. by exists (k, us).
    + intros Hall k [[k' us] [-> Hin]]%list_elem_of_fmap. cbn [fst].
      destruct (decide (k' ∈ available_icons self)) as [|Hnot]; [done|].
      by destruct (Hall _ Hin).
  - unfold print_report. cbn [invalid_count used_count]. rewrite Hinv, Hu.
    apply length_filter.
Qed.

Lemma validate_usage_invalid_witness :
  let self := Validator ["project"] ["pen"]
                [("edit", [("examples/a.cpp", 3)]); ("pen", [("examples/a.cpp", 4)])] [] in
  invalid_icons (snd (validate_usage self)) = [("edit", [("examples/a.cpp", 3)])].
Proof.
  intros self.
  rewrite (proj1 (validate_usage_invalid self
                    ltac:(apply (bool_decide_unpack _); vm_compute; exact I) eq_refl)).
  apply (bool_decide_unpack _). vm_compute. exact I.
Defined.

End ValidatorDictionaries.

(** ** The similarity of two names *)
Section SimilarityBounds.
Import SuggestionSpec.

Lemma words_NoDup (name : string) : NoDup (words name).
Proof. apply NoDup_remove_dups. Qed.

Lemma intersection_length_le_union (l k : list string) :
  NoDup l -> length (list_intersection l k) <= length (list_union l k).
Proof.
  intros Hl. apply submseteq_length, NoDup_submseteq.
  - by apply NoDup_list_intersection.
  - intros x [_ Hx]%list_elem_of_intersection. apply list_elem_of_union. by right.
Qed.

Lemma union_length_pos (l k : list string) : k <> [] -> 0 < length (list_union l k).
Proof.
  intros Hk. unfold list_union. rewrite length_app. destruct k; [done|]. cbn. lia.
Qed.

(** X18: The similarity of two names does not depend on their order, lies
    between 0 and 1, and is 1 exactly when the two names have the same
    hyphen-separated words. *)
Theorem words_similarity_bounds (name1 name2 : string) :
  ValidateUsage._words_similarity name1 name2 = ValidateUsage._words_similarity name2 name1
  /\ (0 <= ValidateUsage._words_similarity name1 name2)%Q
  /\ (ValidateUsage._words_similarity name1 name2 <= 1)%Q
  /\ ((ValidateUsage._words_similarity name1 name2 == 1)%Q
      <-> forall word, word ∈ words name1 <-> word ∈ words name2).
Proof.
  rewrite !words_similarity_ratio.
  pose proof (words_NoDup name1) as Hnd1. pose proof (words_NoDup name2) as Hnd2.
  pose proof (words_nonempty name1) as Hne1. pose proof (words_nonempty name2) as Hne2.
  set (l := words name1) in *. set (k := words name2) in *.
  pose proof (intersection_length_le_union l k Hnd1) as Hle.
  pose proof (union_length_pos l k Hne2) as Hpos.
  assert (list_intersection l k ≡ₚ list_intersection k l) as Hinter.
  { apply NoDup_Permutation; [by apply NoDup_list_intersection..|].
    intros x. rewrite !list_elem_of_intersection. tauto. }
  assert (list_union l k ≡ₚ list_union k l) as Hunion.
  { apply NoDup_Permutation; [by apply NoDup_list_union..|].
    intros x. rewrite !list_elem_of_union. tauto. }
  split_and!.
  - by rewrite Hinter, Hunion.
  - unfold Qle. cbn [Qnum Qden]. lia.
  - unfold Qle. cbn [Qnum Qden].
    rewrite <- (positive_nat_Z (Pos.of_nat _)), Nat2Pos.id by lia. lia.
  - unfold Qeq. cbn [Qnum Qden].
    rewrite <- (positive_nat_Z (Pos.of_nat _)), Nat2Pos.id by lia.
    split.
    + intros Heq.
      assert (list_intersection l k ≡ₚ list_union l k) as Hperm.
      { apply submseteq_length_Permutation; [|lia].
        apply NoDup_submseteq; [by apply NoDup_list_intersection|].
        intros x [_ Hx]%list_elem_of_intersection. apply list_elem_of_union. by right. }
      intros x. split; intros Hx.
      * assert (x ∈ list_union l k) as Hu by (apply list_elem_of_union; by left).
        rewrite <- Hperm in Hu. by apply list_elem_of_intersection in Hu as [_ ?].
      * assert (x ∈ list_union l k) as Hu by (apply list_elem_of_union; by right).
        rewrite <- Hperm in Hu. by apply list_elem_of_intersection in Hu as [? _].
    + intros Hsame.
      assert (list_intersection l k ≡ₚ list_union l k) as Hperm.
      { apply NoDup_Permutation;
          [by apply NoDup_list_intersection|by apply NoDup_list_union|].
        intros x. rewrite list_elem_of_intersection, list_elem_of_union, Hsame. tauto. }
      rewrite Hperm. lia.
Qed.

End SimilarityBounds.

(** ** The example checker: the icon lists of a source file *)
Section IconLists.
Import ExampleChecker ExampleSpec.
Variable findall_streamed : string -> list string.
Variable str_of_exn : exn -> string.

Lemma opens_not_closes (line : string) :
  opens_icon_list line = true -> closes_icon_list line = false.
Proof.
  unfold opens_icon_list, closes_icon_list. intros [_ Hstream]%andb_true_iff.
  rewrite Hstream. apply andb_false_r.
Qed.

Lemma icon_list_step_eq (st : bool * list (string * nat)) (n : nat) (line : string) :
  icon_list_step findall_streamed st (n, line)
  = ((opens_icon_list line || fst st) && negb (closes_icon_list line),
     snd st ++ if opens_icon_list line || fst st
               then map (fun m => (m, n)) (List.filter kept (findall_streamed line))
               else []).
Proof.
  unfold icon_list_step. cbn [fst snd]. destruct st as [b icons]. cbn [fst snd].
  destruct (opens_icon_list line), b, (closes_icon_list line); cbn [orb andb negb];
    by rewrite ?app_nil_r.
Qed.

Lemma scan_icon_lists_snoc (lines : list string) (line : string) :
  scan_icon_lists findall_streamed (lines ++ [line])
  = icon_list_step findall_streamed (scan_icon_lists findall_streamed lines)
                   (S (length lines), line).
Proof.
  unfold scan_icon_lists. rewrite imap_app, foldl_app. cbn [imap foldl].
  by rewrite Nat.add_0_r.
Qed.

Lemma open_at_app (lines : list string) (line : string) (i : nat) :
  i < length lines -> open_at (lines ++ [line]) i <-> open_at lines i.
Proof.
  intros Hi. split; intros (j & opener & Hj & Hlook & Hopen & Hclosed);
    exists j, opener; split_and!; try done.
  - by rewrite lookup_app_l in Hlook by lia.
  - intros k l Hk Hl. apply (Hclosed k l Hk). by rewrite lookup_app_l by lia.
  - by rewrite lookup_app_l by lia.
  - intros k l Hk Hl. apply (Hclosed k l Hk). by rewrite lookup_app_l in Hl by lia.
Qed.

Lemma open_at_last (lines : list string) (line : string) :
  open_at (lines ++ [line]) (length lines)
  <-> opens_icon_list line = true \/ open_at lines (length lines).
Proof.
  split.
  - intros (j & opener & Hj & Hlook & Hopen & Hclosed).
    destruct (decide (j = length lines)) as [->|Hne].
    + rewrite list_lookup_middle in Hlook by done. left. congruence.
    + right. exists j, opener. rewrite lookup_app_l in Hlook by lia.
      split_and!; try done.
      intros k l Hk Hl. apply (Hclosed k l Hk). by rewrite lookup_app_l by lia.
  - intros [Hopen|(j & opener & Hj & Hlook & Hopen & Hclosed)].
    + exists (length lines), line. split_and!; [done| |done|intros; lia].
      by rewrite list_lookup_middle.
    + pose proof (lookup_lt_Some _ _ _ Hlook) as Hlt.
      exists j, opener. split_and!; try done.
      * by rewrite lookup_app_l by lia.
      * intros k l Hk Hl. apply (Hclosed k l Hk). by rewrite lookup_app_l in Hl by lia.
Qed.

Lemma open_at_end (lines : list string) (line : string) :
  open_at (lines ++ [line]) (S (length lines))
  <-> opens_icon_list line = true
      \/ (open_at lines (length lines) /\ closes_icon_list line = false).
Proof.
  split.
  - intros (j & opener & Hj & Hlook & Hopen & Hclosed).
    pose proof (lookup_lt_Some _ _ _ Hlook) as Hlt.
    rewrite length_app in Hlt. cbn [length] in Hlt.
    destruct (decide (j = length lines)) as [->|Hne].
    + rewrite list_lookup_middle in Hlook by done. left. congruence.
    + right. rewrite lookup_app_l in Hlook by lia. split.
      * exists j, opener. split_and!; try done; [lia|].
        intros k l Hk Hl. apply (Hclosed k l); [lia|]. by rewrite lookup_app_l by lia.
      * apply (Hclosed (length lines) line); [lia|]. by rewrite list_lookup_middle.
  - intros [Hopen|[(j & opener & Hj & Hlook & Hopen & Hclosed) Hline]].
    + exists (length lines), line. split_and!; [lia| |done|intros; lia].
      by rewrite list_lookup_middle.
    + pose proof (lookup_lt_Some _ _ _ Hlook) as Hlt.
      exists j, opener. split_and!; try done; [lia|by rewrite lookup_app_l by lia|].
      intros k l Hk Hl. destruct (decide (k = length lines)) as [->|Hne].
      * rewrite list_lookup_middle in Hl by done. congruence.
      * apply (Hclosed k l); [lia|]. by rewrite lookup_app_l in Hl by lia.
Qed.

Lemma scan_icon_lists_spec (lines : list string) :
  (fst (scan_icon_lists findall_streamed lines) = true
   <-> open_at lines (length lines))
  /\ forall m n,
       (m, n) ∈ snd (scan_icon_lists findall_streamed lines)
       <-> exists i line,
             n = S i /\ lines !! i = Some line
             /\ m ∈ findall_streamed line /\ kept m = true /\ open_at lines i.
Proof.
  induction lines as [|line lines [IHopen IHicons]] using rev_ind.
  - cbn. split.
    + split; [done|]. by intros (j & opener & _ & ? & _).
    + intros m n. rewrite elem_of_nil. split; [done|]. by intros (i & line & _ & ? & _).
  - rewrite scan_icon_lists_snoc, icon_list_step_eq. cbn [fst snd]. split.
    + rewrite length_app. cbn [length]. rewrite Nat.add_1_r, open_at_end, <- IHopen.
      destruct (opens_icon_list line) eqn:Hopens.
      * rewrite (opens_not_closes line Hopens). cbn. tauto.
      * cbn [orb]. rewrite andb_true_iff, negb_true_iff.
        split; [tauto|]. by intros [?|?].
    + intros m n. rewrite elem_of_app, IHicons. split.
      * intros [(i & l & -> & Hl & Hm & Hkept & Hopen)|Hnew].
        -- pose proof (lookup_lt_Some _ _ _ Hl) as Hlt.
           exists i, l. split_and!; try done.
           ++ by rewrite lookup_app_l by lia.
           ++ by apply open_at_app.
        -- destruct (opens_icon_list line || fst (scan_icon_lists findall_streamed lines))
             eqn:Hin; [|by apply elem_of_nil in Hnew].
           apply list_elem_of_fmap in Hnew as (m' & [= -> ->] & Hm').
           apply list_elem_of_In, filter_In in Hm' as [Hm' Hkept].
           exists (length lines), line. split_and!; try done.
           ++ by rewrite list_lookup_middle.
           ++ by apply list_elem_of_In.
           ++ apply open_at_last. apply orb_true_iff in Hin as [?|?]; [by left|].
              right. by apply IHopen.
      * intros (i & l & -> & Hl & Hm & Hkept & Hopen).
        pose proof (lookup_lt_Some _ _ _ Hl) as Hlt.
        rewrite length_app in Hlt. cbn [length] in Hlt.
        destruct (decide (i = length lines)) as [->|Hne].
        -- right. rewrite list_lookup_middle in Hl by done. injection Hl as <-.
           apply open_at_last in Hopen. rewrite <- IHopen in Hopen.
           assert (opens_icon_list line
                   || fst (scan_icon_lists findall_streamed lines) = true) as ->.
           { apply orb_true_iff. tauto. }
           apply list_elem_of_fmap. exists m. split; [done|].
           apply list_elem_of_In, filter_In. split; [by apply list_elem_of_In|done].
        -- left. exists i, l. rewrite lookup_app_l in Hl by lia.
           split_and!; try done. apply (open_at_app lines line i); [lia|done].
Qed.

(** X19: The icons extracted from a source file that can be read: a name is
    extracted with the number of its line, from 1, exactly when it is a
    streamed literal of that line, passes the length filter, and the
    line is inside an icon list: a line at or before it names the sample
    list with a stream operator, and no line in between has a semicolon
    without a stream operator.  Nothing is printed.  A file that cannot
    be read gives no icon and one printed line. *)
Theorem extract_icon_list_lines (file_path : path) (w : world) :
  (forall content,
      files w !! file_path = Some content ->
      let lines := PyStr.split_on (ascii_of_nat 10) content in
      exists icons,
        extract_icon_list_from_cpp findall_streamed str_of_exn file_path w
        = (inr icons, w)
        /\ forall m n,
             (m, n) ∈ icons
             <-> exists i line,
                   n = S i /\ lines !! i = Some line
                   /\ m ∈ findall_streamed line /\ kept m = true
                   /\ open_at lines i)
  /\ (files w !! file_path = None ->
      exists e,
        extract_icon_list_from_cpp findall_streamed str_of_exn file_path w
        = (inr [],
           printed w ["Error reading " +:+ Py.path_str file_path +:+ ": "
                      +:+ str_of_exn e])).
Proof.
  split.
  - intros content Hfile lines. eexists. split.
    + unfold extract_icon_list_from_cpp, Py.try_except.
      rewrite (bind_inr _ _ w w content) by by apply read_text_inr. done.
    + apply scan_icon_lists_spec.
  - intros Hfile. unfold extract_icon_list_from_cpp, Py.try_except.
    destruct (Py.is_dir w file_path) eqn:Hdir.
    + exists (IsADirectoryError file_path).
      rewrite (bind_inl _ _ w w (IsADirectoryError file_path));
        [done|]. unfold Py.read_text. by rewrite Hfile, Hdir.
    + exists (FileNotFoundError file_path).
      rewrite (bind_inl _ _ w w (FileNotFoundError file_path));
        [done|]. by apply read_text_missing.
Qed.

End IconLists.

Section IconListsExamples.
Import ExampleChecker ExampleSpec.

(** A list written on one line stays open after its semicolon: the
    literal streamed by the next line is extracted too. *)
Lemma extract_icon_list_lines_witness :
  let content := "sampleIcons << a;" +:+ PyStr.newline +:+ "log << b;" in
  let findall := fun line : string =>
                   if String.eqb line "log << b;" then ["done"] else ["heart"] in
  let w := World {[ ["main.cpp"] := content ]} ∅ [] in
  exists icons,
    extract_icon_list_from_cpp findall (fun _ => "") ["main.cpp"] w = (inr icons, w)
    /\ ("done", 2) ∈ icons.
Proof.
  intros content findall w.
  destruct (proj1 (extract_icon_list_lines findall (fun _ => "") ["main.cpp"] w)
              content eq_refl) as (icons & Hrun & Hicons).
  exists icons. split; [done|]. apply Hicons.
  exists 1, "log << b;". split_and!; try done.
  - apply list_elem_of_here.
  - exists 0, "sampleIcons << a;". split_and!; try done; [lia|]. intros k line Hk. lia.
Defined.

End IconListsExamples.

(** ** The example checker: the run *)
Section CheckerRuns.
Import ExampleChecker ExampleSpec.
Variable list_of_set : list string -> list string.
Variable findall_entries : string -> list string.
Variable findall_streamed : string -> list string.
Variable str_of_exn : exn -> string.

Lemma printed_printed (w : world) (l1 l2 : list string) :
  printed (printed w l1) l2 = printed w (l1 ++ l2).
Proof. unfold printed. cbn. by rewrite app_assoc. Qed.

Lemma only_prints_ret {A} (v : A) (w : world) : only_prints (mret v) w v.
Proof. exists []. unfold printed. rewrite app_nil_r. by destruct w. Qed.

Lemma only_prints_print (line : string) (w : world) : only_prints (Py.print line) w tt.
Proof. by exists [line]. Qed.

Lemma only_prints_bind {A B} (m : Py.M A) (k : A -> Py.M B) (w : world) (a : A) (b : B) :
  only_prints m w a ->
  (forall lines, only_prints (k a) (printed w lines) b) ->
  only_prints (m ≫= k) w b.
Proof.
  intros [l1 Hm] Hk. destruct (Hk l1) as [l2 Hk'].
  exists (l1 ++ l2). rewrite (bind_inr _ _ _ _ _ Hm), Hk'. by rewrite printed_printed.
Qed.

Lemma only_prints_if_exists {A} (p : path) (yes no : Py.M A) (w : world) (v : A) :
  (Py.path_exists w p = true -> only_prints yes w v) ->
  (Py.path_exists w p = false -> only_prints no w v) ->
  only_prints (if_exists p yes no) w v.
Proof.
  intros Hyes Hno. unfold only_prints, if_exists in *.
  destruct (Py.path_exists w p); auto.
Qed.

Lemma not_exists_no_file (w : world) (p : path) :
  Py.path_exists w p = false -> files w !! p = None.
Proof.
  unfold Py.path_exists, Py.is_file. intros [_ Hfile]%orb_false_iff.
  apply bool_decide_eq_false in Hfile. by apply eq_None_not_Some.
Qed.

Lemma read_text_raises (w : world) (p : path) :
  files w !! p = None ->
  exists e, (forall code, e <> SystemExit code) /\ Py.read_text p w = (inl e, w).
Proof.
  intros Hfile. unfold Py.read_text. rewrite Hfile.
  destruct (Py.is_dir w p); eexists; (split; [|done]); done.
Qed.

Lemma try_except_handled {A} (m : Py.M A) (handler : exn -> Py.M A) (w w' : world)
    (e : exn) :
  (forall code, e <> SystemExit code) ->
  m w = (inl e, w') -> Py.try_except m handler w = handler e w'.
Proof.
  intros Hexit Hm. unfold Py.try_except. rewrite Hm.
  destruct e; try done. by destruct (Hexit code).
Qed.

Lemma load_available_icons_run (project_root : path) (w : world) :
  only_prints (load_available_icons list_of_set findall_entries str_of_exn project_root)
              w (available_of list_of_set findall_entries w project_root).
Proof.
  unfold load_available_icons, available_of. apply only_prints_if_exists.
  - intros _. destruct (files w !! strings_file project_root) as [content|] eqn:Hfile.
    + exists []. unfold Py.try_except.
      rewrite (bind_inr _ _ w w content) by by apply read_text_inr.
      unfold printed. rewrite app_nil_r. by destruct w.
    + destruct (read_text_raises w _ Hfile) as (e & Hexit & Hread).
      eexists. erewrite try_except_handled; [|exact Hexit|by apply bind_inl].
      by rewrite bind_print.
  - intros Hnone. rewrite (not_exists_no_file _ _ Hnone).
    eexists. by rewrite bind_print.
Qed.

Lemma extract_icon_list_run (file_path : path) (w : world) :
  only_prints (extract_icon_list_from_cpp findall_streamed str_of_exn file_path)
              w (extracted findall_streamed w file_path).
Proof.
  unfold extract_icon_list_from_cpp, extracted.
  destruct (files w !! file_path) as [content|] eqn:Hfile.
  - exists []. unfold Py.try_except.
    rewrite (bind_inr _ _ w w content) by by apply read_text_inr.
    unfold printed. rewrite app_nil_r. by destruct w.
  - destruct (read_text_raises w _ Hfile) as (e & Hexit & Hread).
    eexists. erewrite try_except_handled; [|exact Hexit|by apply bind_inl].
    by rewrite bind_print.
Qed.

Lemma for_each_prints {A} (body : A -> Py.M unit) (l : list A) (w : world) :
  (forall x w', only_prints (body x) w' tt) ->
  only_prints (for_each (fun _ x => body x) tt l) w tt.
Proof.
  intros Hbody. revert w. induction l as [|x l IH]; intros w; cbn [for_each].
  - apply only_prints_ret.
  - eapply only_prints_bind; [apply Hbody|]. intros lines. apply IH.
Qed.

Lemma report_invalid_prints (available_icons : list string) (u : string * nat)
    (w : world) :
  only_prints (report_invalid available_icons u) w tt.
Proof.
  unfold report_invalid. eapply only_prints_bind; [apply only_prints_print|].
  intros lines. destruct (CheckExamples.suggest_similar_icons _ _).
  - apply only_prints_ret.
  - apply only_prints_print.
Qed.

Lemma check_icons_loop (available_icons : list string) (invalid : list (string * nat))
    (all_valid : bool) (total_checked : nat) (icons : list (string * nat)) :
  foldl (fun st u =>
           let invalid_icons := fst (fst st) in
           let all_valid := snd (fst st) in
           let total_checked := (snd st + 1)%nat in
           if bool_decide (fst u ∈ available_icons)
           then (invalid_icons, all_valid, total_checked)
           else (invalid_icons ++ [u], false, total_checked))
        (invalid, all_valid, total_checked) icons
  = (invalid ++ filter (fun u => fst u ∉ available_icons) icons,
     all_valid && forallb (fun u => bool_decide (fst u ∈ available_icons)) icons,
     total_checked + length icons).
Proof.
  revert invalid all_valid total_checked.
  induction icons as [|u icons IH]; intros invalid all_valid total_checked;
    cbn [foldl fst snd forallb length].
  - by rewrite app_nil_r, andb_true_r, Nat.add_0_r.
  - case_bool_decide as Hin.
    + rewrite IH, filter_cons_False by tauto. cbn [andb]. f_equal. lia.
    + rewrite IH, filter_cons_True by done. cbn [andb].
      rewrite andb_false_r, <- app_assoc. cbn [app]. f_equal. lia.
Qed.

Lemma check_icons_eq (available_icons : list string) (all_valid : bool)
    (total_checked : nat) (icons : list (string * nat)) :
  check_icons available_icons all_valid total_checked icons
  = (filter (fun u => fst u ∉ available_icons) icons,
     all_valid && forallb (fun u => bool_decide (fst u ∈ available_icons)) icons,
     total_checked + length icons).
Proof. unfold check_icons. by rewrite check_icons_loop. Qed.

Lemma check_file_run (project_root : path) (st : bool * nat) (rel : path) (w : world) :
  let available_icons := available_of list_of_set findall_entries w project_root in
  only_prints (check_file findall_streamed str_of_exn project_root available_icons st rel)
              w
              (fst st && file_valid list_of_set findall_entries findall_streamed
                                    w project_root rel,
               snd st + length (extracted findall_streamed w (project_root ++ rel))).
Proof.
  intros available_icons. unfold check_file, file_valid.
  fold available_icons. apply only_prints_if_exists.
  - intros _. eapply only_prints_bind; [apply only_prints_print|]. intros l1.
    eapply only_prints_bind; [apply extract_icon_list_run|]. intros l2.
    change (extracted findall_streamed (printed w l1) (project_root ++ rel))
      with (extracted findall_streamed w (project_root ++ rel)).
    destruct (extracted findall_streamed w (project_root ++ rel)) as [|u icons] eqn:Hicons.
    + eapply only_prints_bind; [apply only_prints_print|]. intros l3.
      cbn [forallb length]. rewrite andb_true_r, Nat.add_0_r. destruct st.
      apply only_prints_ret.
    + rewrite check_icons_eq. cbn [fst snd].
      eapply only_prints_bind; [|intros l3; apply only_prints_ret].
      destruct (filter _ (u :: icons)).
      * apply only_prints_print.
      * eapply only_prints_bind; [apply only_prints_print|]. intros l3.
        apply for_each_prints. intros x w'. apply report_invalid_prints.
  - intros Hnone. unfold extracted. rewrite (not_exists_no_file _ _ Hnone).
    cbn [forallb length]. rewrite andb_true_r, Nat.add_0_r. destruct st.
    apply only_prints_ret.
Qed.

Lemma check_files_run (project_root : path) (rels : list path) (st : bool * nat)
    (w : world) :
  let available_icons := available_of list_of_set findall_entries w project_root in
  exists total,
    only_prints (for_each (check_file findall_streamed str_of_exn project_root
                                      available_icons) st rels)
                w
                (fst st && forallb (file_valid list_of_set findall_entries
                                               findall_streamed w project_root) rels,
                 total).
Proof.
  intros available_icons. revert st w available_icons.
  induction rels as [|rel rels IH]; intros st w available_icons; cbn [for_each forallb].
  - exists (snd st). rewrite andb_true_r. destruct st. apply only_prints_ret.
  - pose proof (check_file_run project_root st rel w) as [l1 Hfile]. cbn zeta in Hfile.
    destruct (IH (fst st && file_valid list_of_set findall_entries findall_streamed
                                       w project_root rel,
                  snd st + length (extracted findall_streamed w (project_root ++ rel)))
                 (printed w l1)) as [total [l2 Hrest]].
    exists total, (l1 ++ l2). fold available_icons in Hfile.
    rewrite (bind_inr _ _ _ _ _ Hfile).
    change (available_of list_of_set findall_entries (printed w l1) project_root)
      with available_icons in Hrest.
    rewrite Hrest. cbn [fst snd]. rewrite printed_printed, andb_assoc. done.
Qed.

Lemma check_examples_run (project_root : path) (w : world) :
  only_prints (check_examples list_of_set findall_entries findall_streamed str_of_exn
                              project_root)
              w (verdict list_of_set findall_entries findall_streamed w project_root).
Proof.
  unfold check_examples, verdict.
  eapply only_prints_bind; [apply only_prints_print|]. intros l1.
  eapply only_prints_bind; [apply only_prints_print|]. intros l2.
  eapply only_prints_bind; [apply load_available_icons_run|]. intros l3.
  change (available_of list_of_set findall_entries (printed (printed w l1) l2) project_root)
    with (available_of list_of_set findall_entries w project_root).
  destruct (available_of list_of_set findall_entries w project_root)
    as [|icon available] eqn:Havailable.
  - apply only_prints_ret.
  - eapply only_prints_bind; [apply only_prints_print|]. intros l4.
    apply only_prints_if_exists.
    + intros Hexists.
      change (Py.path_exists w (project_root ++ ["examples"]) = true) in Hexists.
      rewrite Hexists.
      destruct (check_files_run project_root example_files (true, 0)
                  (printed (printed (printed (printed w l1) l2) l3) l4))
        as [total Hfiles].
      cbn zeta in Hfiles.
      change (available_of list_of_set findall_entries
                (printed (printed (printed (printed w l1) l2) l3) l4) project_root)
        with (available_of list_of_set findall_entries w project_root) in Hfiles.
      rewrite Havailable in Hfiles.
      eapply only_prints_bind; [exact Hfiles|]. intros l5. cbn [fst snd andb].
      eapply only_prints_bind; [apply only_prints_print|]. intros l6.
      eapply only_prints_bind; [apply only_prints_print|]. intros l7.
      eapply only_prints_bind; [apply only_prints_print|]. intros l8.
      apply only_prints_ret.
    + intros Hnone.
      change (Py.path_exists w (project_root ++ ["examples"]) = false) in Hnone.
      rewrite Hnone.
      eapply only_prints_bind; [apply only_prints_print|]. intros l5.
      apply only_prints_ret.
Qed.

(** X20: The example checker never raises and touches no file: it prints and
    returns its verdict.  The verdict is true exactly when the strings
    header gives at least one available name and, if the project has an
    examples directory, every icon extracted from the two example files
    is available; a header without names fails the check, and a project
    without examples passes it. *)
Theorem check_examples_verdict (project_root : path) (w : world) :
  let available_icons := available_of list_of_set findall_entries w project_root in
  exists passed lines,
    check_examples list_of_set findall_entries findall_streamed str_of_exn
                   project_root w
    = (inr passed, printed w lines)
    /\ (passed = true
        <-> available_icons <> []
            /\ (Py.path_exists w (project_root ++ ["examples"]) = true ->
                forall rel u,
                  rel ∈ example_files ->
                  u ∈ extracted findall_streamed w (project_root ++ rel) ->
                  fst u ∈ available_icons)).
Proof.
  intros available_icons.
  destruct (check_examples_run project_root w) as [lines Hrun].
  eexists _, lines. split; [exact Hrun|].
  unfold verdict. fold available_icons.
  destruct available_icons as [|icon available] eqn:Havailable; [by split; [|intros []]|].
  destruct (Py.path_exists w (project_root ++ ["examples"])).
  - rewrite forallb_forall. split.
    + intros Hall. split; [done|]. intros _ rel u Hrel Hu.
      apply list_elem_of_In, Hall in Hrel. unfold file_valid in Hrel.
      rewrite forallb_forall in Hrel. apply list_elem_of_In, Hrel in Hu.
      apply bool_decide_eq_true in Hu. fold available_icons in Hu.
      by rewrite Havailable in Hu.
    + intros [_ Hall] rel Hrel. unfold file_valid. apply forallb_forall.
      intros u Hu. apply bool_decide_eq_true. fold available_icons.
      rewrite Havailable. apply (Hall eq_refl rel u); by apply list_elem_of_In.
  - split; [|done]. intros _. split; [done|]. intros [=].
Qed.

Lemma touch_cases (p : path) (w : world) :
  (exists w', touch p w = (inr tt, w')
              /\ Py.path_exists w' p = true
              /\ dirs w' = dirs w
              /\ (forall q, q <> p -> files w' !! q = files w !! q))
  \/ (exists e, (forall code, e <> SystemExit code) /\ touch p w = (inl e, w)).
Proof.
  unfold touch. destruct (Py.path_exists w p) eqn:Hexists.
  - left. by exists w.
  - destruct (Py.is_dir w (Py.parent p)).
    + left. eexists. split; [done|]. split_and!; [|done|].
      * unfold Py.path_exists, Py.is_file. cbn [files].
        rewrite lookup_insert_eq. rewrite bool_decide_eq_true_2 by by eexists.
        apply orb_true_r.
      * intros q Hq. cbn [files]. by rewrite lookup_insert_ne.
    + right. destruct (list_find _ _); eexists; (split; [|done]); done.
Qed.

Lemma generate_icon_fix_suggestions_cases (project_root : path) (w : world) :
  let available_icons := available_of list_of_set findall_entries w project_root in
  let fix_file := project_root ++ ["ICON_NAME_FIXES.md"] in
  exists lines,
    match available_icons with
    | [] =>
        generate_icon_fix_suggestions list_of_set findall_entries str_of_exn
                                      project_root w
        = (inr tt, printed w lines)
    | _ =>
        if Py.is_dir w fix_file
        then generate_icon_fix_suggestions list_of_set findall_entries str_of_exn
                                           project_root w
             = (inl (IsADirectoryError fix_file), printed w lines)
        else if Py.is_dir w project_root
             then generate_icon_fix_suggestions list_of_set findall_entries str_of_exn
                                                project_root w
                  = (inr tt,
                     World (<[fix_file := reference_text available_icons]> (files w))
                           (dirs w) (stdout w ++ lines))
             else generate_icon_fix_suggestions list_of_set findall_entries str_of_exn
                                                project_root w
                  = (inl (FileNotFoundError fix_file), printed w lines)
    end.
Proof.
  intros available_icons fix_file. unfold generate_icon_fix_suggestions.
  destruct (load_available_icons_run project_root w) as [l1 Hload].
  fold available_icons in Hload. rewrite (bind_inr _ _ _ _ _ Hload).
  destruct available_icons as [|icon available]; [by exists l1|].
  fold fix_file.
  destruct (Py.is_dir w fix_file) eqn:Hfix.
  - exists l1. apply bind_inl. unfold Py.write_text.
    change (Py.is_dir (printed w l1) fix_file) with (Py.is_dir w fix_file).
    by rewrite Hfix.
  - destruct (Py.is_dir w project_root) eqn:Hroot.
    + eexists (l1 ++ [_]). rewrite bind_write_text.
      * unfold Py.print, printed. cbn [files dirs stdout]. by rewrite app_assoc.
      * done.
      * unfold fix_file. by rewrite parent_snoc.
    + exists l1. apply bind_inl. unfold Py.write_text.
      change (Py.is_dir (printed w l1) fix_file) with (Py.is_dir w fix_file).
      rewrite Hfix. unfold fix_file. rewrite parent_snoc.
      change (Py.is_dir (printed w l1) project_root) with (Py.is_dir w project_root).
      by rewrite Hroot.
Qed.

(** X21: The exit status of the example checker is 0 or 1.  It is 0 only when
    the check passed, and then a requested stamp file exists at the end
    of the run.  When the check fails, the exit status is 1, no
    directory is made and no file but the icon reference is written: the
    stamp file is not created.  When the check passes in a project
    directory where the icon reference can be written, and no stamp file
    is requested, the run ends with status 0 and without a traceback,
    having written the icon reference. *)
Theorem example_checker_exit (program root : string) (rest : list string) (w : world) :
  let project_root := Py.of_path root in
  let fix_file := project_root ++ ["ICON_NAME_FIXES.md"] in
  let passed :=
    fst (check_examples list_of_set findall_entries findall_streamed str_of_exn
                        project_root w) in
  let out :=
    Py.run (main list_of_set findall_entries findall_streamed str_of_exn
                 (program :: root :: rest)) w in
  (Py.exit_code out = 0 \/ Py.exit_code out = 1)
  /\ (Py.exit_code out = 0 ->
      passed = inr true
      /\ forall stamp more,
           rest = stamp :: more ->
           Py.path_exists (Py.final out) (Py.of_path stamp) = true)
  /\ (passed = inr false ->
      Py.exit_code out = 1
      /\ dirs (Py.final out) = dirs w
      /\ forall p, p <> fix_file -> files (Py.final out) !! p = files w !! p)
  /\ (passed = inr true ->
      Py.is_dir w project_root = true -> Py.is_dir w fix_file = false -> rest = [] ->
      Py.exit_code out = 0
      /\ Py.traceback out = None
      /\ dirs (Py.final out) = dirs w
      /\ files (Py.final out)
         = <[fix_file := reference_text
                           (available_of list_of_set findall_entries w project_root)]>
             (files w)).
Proof.
  intros project_root fix_file passed out.
  destruct (check_examples_run project_root w) as [l1 Hcheck].
  set (b := verdict list_of_set findall_entries findall_streamed w project_root) in *.
  assert (passed = inr b) as Hpassed by (unfold passed; by rewrite Hcheck).
  destruct (generate_icon_fix_suggestions_cases project_root (printed w l1))
    as [l2 Hgen]. cbn zeta in Hgen.
  change (available_of list_of_set findall_entries (printed w l1) project_root)
    with (available_of list_of_set findall_entries w project_root) in Hgen.
  change (Py.is_dir (printed w l1) (project_root ++ ["ICON_NAME_FIXES.md"]))
    with (Py.is_dir w fix_file) in Hgen.
  change (Py.is_dir (printed w l1) project_root)
    with (Py.is_dir w project_root) in Hgen.
  fold fix_file in Hgen.
  assert (Hmain : forall k : bool -> Py.M unit,
             (success ← check_examples list_of_set findall_entries findall_streamed
                                       str_of_exn project_root;
              generate_icon_fix_suggestions list_of_set findall_entries str_of_exn
                                            project_root;;
              k success) w
             = (generate_icon_fix_suggestions list_of_set findall_entries str_of_exn
                                              project_root;;
                k b) (printed w l1))
    by (intros k; by rewrite (bind_inr _ _ _ _ _ Hcheck)).
  assert (Hraised : forall e lines (k : bool -> Py.M unit),
             (forall code, e <> SystemExit code) ->
             generate_icon_fix_suggestions list_of_set findall_entries str_of_exn
                                           project_root (printed w l1)
             = (inl e, printed (printed w l1) lines) ->
             Py.run (success ← check_examples list_of_set findall_entries
                                              findall_streamed str_of_exn project_root;
                     generate_icon_fix_suggestions list_of_set findall_entries
                                                   str_of_exn project_root;;
                     k success) w
             = Py.Outcome 1 (Some e) (printed (printed w l1) lines)).
  { intros e lines k Hexit Hraise. unfold Py.run. rewrite Hmain.
    rewrite (bind_inl _ _ _ _ _ Hraise). destruct e; try done. by destruct (Hexit code). }
  assert (Hreturned : forall w2 (k : bool -> Py.M unit),
             generate_icon_fix_suggestions list_of_set findall_entries str_of_exn
                                           project_root (printed w l1)
             = (inr tt, w2) ->
             Py.run (success ← check_examples list_of_set findall_entries
                                              findall_streamed str_of_exn project_root;
                     generate_icon_fix_suggestions list_of_set findall_entries
                                                   str_of_exn project_root;;
                     k success) w
             = Py.run (k b) w2).
  { intros w2 k Hret. unfold Py.run. rewrite Hmain.
    by rewrite (bind_inr _ _ _ _ _ Hret). }
  (* the run after the reference was written or skipped, in a world [w2] *)
  assert (Hafter : forall w2,
             dirs w2 = dirs w ->
             (forall p, p <> fix_file -> files w2 !! p = files w !! p) ->
             let out2 :=
               Py.run (if b
                       then Py.print (PyStr.newline +:+ "✅ All example icons are valid!");;
                            match match rest with
                                  | stamp :: _ => Some (Py.of_path stamp)
                                  | [] => None
                                  end with
                            | Some stamp_file =>
                                touch stamp_file;;
                                Py.print ("Created stamp file: "
                                          +:+ Py.path_str stamp_file)
                            | None => mret tt
                            end;;
                            Py.raise (SystemExit 0)
                       else Py.print (PyStr.newline
                                      +:+ "❌ Some example icons need fixing!");;
                            Py.print "See ICON_NAME_FIXES.md for suggestions.";;
                            Py.raise (SystemExit 1)) w2 in
             (Py.exit_code out2 = 0 \/ Py.exit_code out2 = 1)
             /\ (Py.exit_code out2 = 0 ->
                 b = true
                 /\ forall stamp more,
                      rest = stamp :: more ->
                      Py.path_exists (Py.final out2) (Py.of_path stamp) = true)
             /\ (b = false ->
                 Py.exit_code out2 = 1
                 /\ dirs (Py.final out2) = dirs w
                 /\ forall p, p <> fix_file -> files (Py.final out2) !! p = files w !! p)
             /\ (b = true -> rest = [] ->
                 Py.exit_code out2 = 0 /\ Py.traceback out2 = None
                 /\ dirs (Py.final out2) = dirs w2
                 /\ files (Py.final out2) = files w2)).
  { intros w2 Hdirs Hfiles out2. subst out2. destruct b.
    - unfold Py.run. rewrite bind_print.
      destruct rest as [|stamp more].
      + cbn. split_and!; [by left| |done|done].
        intros _. split; [done|]. by intros stamp more.
      + destruct (touch_cases (Py.of_path stamp)
                    (World (files w2) (dirs w2)
                       (stdout w2 ++ [PyStr.newline +:+ "✅ All example icons are valid!"])))
          as [(w3 & Htouch & Hexists & _ & _)|(e & Hexit & Htouch)].
        * rewrite (bind_inr _ _ _ _ tt
                     (bind_inr _ _ _ _ _ Htouch : (touch _;; Py.print _) _ = _)).
          cbn. split_and!; [by left| |done|done].
          intros _. split; [done|]. intros stamp' more' [= <- <-]. exact Hexists.
        * rewrite (bind_inl _ _ _ _ e
                     (bind_inl _ _ _ _ _ Htouch : (touch _;; Py.print _) _ = _)).
          assert (Py.exit_code
                    match e with
                    | SystemExit code => Py.Outcome code None
                        (World (files w2) (dirs w2)
                           (stdout w2 ++
                            [PyStr.newline +:+ "✅ All example icons are valid!"]))
                    | _ => Py.Outcome 1 (Some e)
                        (World (files w2) (dirs w2)
                           (stdout w2 ++
                            [PyStr.newline +:+ "✅ All example icons are valid!"]))
                    end = 1) as Hone
              by (destruct e; try done; by destruct (Hexit code)).
          split_and!; [by right| |done|done].
          intros Hzero. rewrite Hone in Hzero. done.
    - unfold Py.run. rewrite !bind_print. cbn.
      split_and!; [by right|done| |done]. intros _. by split_and!. }
  unfold out, main. fold project_root.
  destruct (available_of list_of_set findall_entries w project_root)
    as [|icon available] eqn:Havailable.
  - (* no available icon: nothing is written *)
    rewrite (Hreturned _ _ Hgen).
    destruct (Hafter (printed (printed w l1) l2) eq_refl (fun p _ => eq_refl))
      as (H01 & H0 & Hfail & Hpass).
    split_and!; [done| | |].
    + intros Hzero. destruct (H0 Hzero) as [Hb Hstamp].
      split; [by rewrite Hpassed, Hb|exact Hstamp].
    + rewrite Hpassed. intros [= Hb]. by apply Hfail.
    + rewrite Hpassed. intros [= Hb]. exfalso.
      unfold b, verdict in Hb. rewrite Havailable in Hb. discriminate Hb.
  - destruct (Py.is_dir w fix_file) eqn:Hfix.
    + rewrite (Hraised (IsADirectoryError fix_file) _ _ ltac:(done) Hgen).
      cbn [Py.exit_code Py.final].
      split_and!; [by right|done| |by intros _ _ [=]].
      intros _. by split_and!.
    + destruct (Py.is_dir w project_root) eqn:Hroot.
      * rewrite (Hreturned _ _ Hgen).
        match goal with
        | |- context [Py.run _ ?w2] =>
            destruct (Hafter w2 eq_refl
                        (fun p Hp => lookup_insert_ne (files w) fix_file p _
                                       (fun Heq => Hp (eq_sym Heq))))
              as (H01 & H0 & Hfail & Hpass)
        end.
        split_and!; [done| | |].
        -- intros Hzero. destruct (H0 Hzero) as [Hb Hstamp].
      split; [by rewrite Hpassed, Hb|exact Hstamp].
        -- rewrite Hpassed. intros [= Hb]. by apply Hfail.
        -- rewrite Hpassed. intros [= Hb] _ _ Hrest. by apply Hpass.
      * rewrite (Hraised (FileNotFoundError fix_file) _ _ ltac:(done) Hgen).
        cbn [Py.exit_code Py.final].
        split_and!; [by right|done| |by intros _ [=]].
        intros _. by split_and!.
Qed.

End CheckerRuns.

Section CheckerRunsExamples.
Import ExampleChecker ExampleSpec.

(** A project with one available icon and no examples directory: the
    checker ends with status 0. *)
Lemma example_checker_exit_witness :
  let w := World {[ ["proj"; "include"; "QtLucide"; "QtLucideStrings.h"] := "header" ]}
                 {[ ["proj"] ]} [] in
  let out := Py.run (main (fun l => l) (fun _ => ["heart"]) (fun _ => []) (fun _ => "")
                          ["check_example_icons.py"; "proj"]) w in
  Py.exit_code out = 0
  /\ Py.traceback out = None
  /\ dirs (Py.final out) = dirs w
  /\ files (Py.final out)
     = <[ ["proj"; "ICON_NAME_FIXES.md"] := reference_text ["heart"] ]> (files w).
Proof.
  intros w out.
  apply (proj2 (proj2 (proj2
           (example_checker_exit (fun l => l) (fun _ => ["heart"]) (fun _ => [])
              (fun _ => "") "check_example_icons.py" "proj" [] w)))).
  - vm_compute. reflexivity.
  - vm_compute. reflexivity.
  - vm_compute. reflexivity.
  - reflexivity.
Defined.

End CheckerRunsExamples.

(** ** A run of the manifest generator *)
Section ManifestRun.
Import GenerateQrc.

Lemma qrc_load_metadata_inr (json_load : string -> option json) (self : generator)
    (w : world) (text : string) (data icons : json) :
  files w !! (metadata_dir self ++ ["icons.json"]) = Some text ->
  json_load text = Some data ->
  Json.member "icons" data = Some icons ->
  load_metadata json_load self w
  = (inr (Generator (metadata_dir self) (svg_dir self) (output_file self) icons), w).
Proof.
  intros Hfile Hload Hicons. unfold load_metadata.
  rewrite (bind_inr _ _ w w text) by (by apply read_text_inr).
  rewrite Hload.
  by rewrite (bind_inr _ _ w w icons) by (by apply py_getitem_member).
Qed.

(** X22: A run of the manifest generator on a readable store with an [icons]
    member, for an output file whose directory can be made.  When the
    member is an object, the directory is made, the manifest of the
    catalog's names is written there and nothing else, one line is
    printed and the exit status is 0; the directory of SVG files given on
    the command line plays no part.  When the member is not an object,
    the run stops with exit status 1 and a traceback after the directory
    was made: no file is written. *)
Theorem generate_qrc_run (json_load : string -> option json)
    (program metadata_dir svg_dir output_file : string) (w : world)
    (text : string) (data icons : json) :
  let md := Py.of_path metadata_dir in
  let out := Py.of_path output_file in
  files w !! (md ++ ["icons.json"]) = Some text ->
  json_load text = Some data ->
  Json.member "icons" data = Some icons ->
  (forall q, q ∈ Py.ancestors (Py.parent out) -> Py.is_file w q = false) ->
  (forall members,
      icons = JObj members ->
      Py.is_dir w out = false ->
      Py.run (main json_load [program; metadata_dir; svg_dir; output_file]) w
      = Py.Outcome 0 None
          (World (<[out := qrc_content (PyDict.keys members)]> (files w))
                 (list_to_set (Py.ancestors (Py.parent out)) ∪ dirs w)
                 (stdout w ++ ["Generated " +:+ Py.path_str out +:+ " with "
                               +:+ PyStr.str_of_nat (length members)
                               +:+ " icon files"])))
  /\ ((forall members, icons <> JObj members) ->
      Py.run (main json_load [program; metadata_dir; svg_dir; output_file]) w
      = Py.Outcome 1 (Some (AttributeError "keys"))
          (World (files w) (list_to_set (Py.ancestors (Py.parent out)) ∪ dirs w)
                 (stdout w))).
Proof.
  intros md out Hfile Hload Hicons Hfree.
  assert (Py.run (main json_load [program; metadata_dir; svg_dir; output_file]) w
          = Py.run (Py.mkdir_p (Py.parent out);;
                    keys ← py_keys icons;
                    Py.write_text out (qrc_content keys);;
                    n ← py_len icons;
                    Py.print ("Generated " +:+ Py.path_str out +:+ " with "
                              +:+ PyStr.str_of_nat n +:+ " icon files")) w) as ->.
  { unfold Py.run, main, init.
    erewrite bind_inr; [|by eapply qrc_load_metadata_inr]. done. }
  unfold Py.run. split.
  - intros members -> Hout.
    erewrite bind_inr; [|by apply mkdir_p_inr].
    erewrite bind_inr; [|reflexivity].
    assert (out <> []) as Hne.
    { intros Hnil. rewrite Hnil in Hout. unfold Py.is_dir in Hout.
      apply bool_decide_eq_false in Hout. apply Hout. by left. }
    rewrite bind_write_text.
    + erewrite bind_inr; [|reflexivity]. done.
    + rewrite (app_removelast_last "" Hne) in Hout |- *.
      unfold Py.parent. rewrite removelast_last.
      by apply is_dir_child_after_mkdir.
    + apply is_dir_after_mkdir.
  - intros Hnot.
    erewrite bind_inr; [|by apply mkdir_p_inr].
    assert (py_keys icons
              (World (files w) (list_to_set (Py.ancestors (Py.parent out)) ∪ dirs w)
                     (stdout w))
            = (inl (AttributeError "keys"),
               World (files w) (list_to_set (Py.ancestors (Py.parent out)) ∪ dirs w)
                     (stdout w))) as Hkeys.
    { destruct icons; try done. by destruct (Hnot members). }
    by rewrite (bind_inl _ _ _ _ _ Hkeys).
Qed.

End ManifestRun.

Section ManifestRunExamples.
Import GenerateQrc.

Lemma generate_qrc_run_witness :
  let w := World {[ ["meta"; "icons.json"] := "{}" ]} ∅ [] in
  let load := fun _ : string => Some (JObj [("icons", JObj [("zebra", JObj [])])]) in
  Py.run (main load ["generate_qrc.py"; "meta"; "no/such/dir"; "res/lucide.qrc"]) w
  = Py.Outcome 0 None
      (World (<[ ["res"; "lucide.qrc"] := qrc_content ["zebra"] ]> (files w))
             (list_to_set (Py.ancestors ["res"]) ∪ dirs w)
             ["Generated res/lucide.qrc with 1 icon files"]).
Proof.
  intros w load.
  apply (proj1 (generate_qrc_run load "generate_qrc.py" "meta" "no/such/dir"
                  "res/lucide.qrc" w "{}"
                  (JObj [("icons", JObj [("zebra", JObj [])])])
                  (JObj [("zebra", JObj [])]) eq_refl eq_refl eq_refl
                  ltac:(intros q Hq; apply list_elem_of_In in Hq; vm_compute in Hq;
                        destruct Hq as [<-|[]]; vm_compute; reflexivity))
               [("zebra", JObj [])] eq_refl).
  vm_compute. reflexivity.
Defined.

End ManifestRunExamples.
